(** * NetGuard WFP callout driver: arbitration core

    A shallow embedding of [driver/netguard_wfp.c]: the global context
    [g_Context], the registry lookup [IsAppInList], the pending-queue
    admission [AddPendingConnection], the classification callback
    [NetGuardClassifyFn] and the IOCTL dispatcher [NetGuardDeviceControl].

    Every routine of the driver runs to completion on the model state: the
    spin locks serialise the critical sections and the statistics are updated
    with interlocked instructions, so a run of the driver is modelled as a
    sequence of whole calls.  The spin locks, the device and engine handles
    and the callout and filter ids play no part in the arbitration logic and
    are left out of the state.

    Loading and unloading ([DriverEntry], [RegisterWfpCallout],
    [UnregisterWfpCallout], [DriverUnload]) are modelled beside it, over the
    handles [WFP_HANDLES] and the answers of the system to each call. *)

From Stdlib Require Import ZArith List Lia Bool Sorted.
From stdpp Require Import base numbers list sorting.

Local Open Scope Z_scope.

(** ** Machine integers *)

Definition UINT64 := Z.
Definition UINT32 := Z.
Definition UINT16 := Z.
Definition UCHAR := Z.
Definition WCHAR := Z.
Definition BOOLEAN := Z.
Definition LARGE_INTEGER := Z.

Definition TRUE : BOOLEAN := 1.
Definition FALSE : BOOLEAN := 0.

Definition wrap64 (z : Z) : UINT64 := z mod 2 ^ 64.
Definition wrap32 (z : Z) : UINT32 := z mod 2 ^ 32.

(** [InterlockedIncrement64] adds one to the 64-bit cell and returns the
    incremented value; the addition wraps at [2^64]. *)
Definition InterlockedIncrement64 (cell : UINT64) : UINT64 := wrap64 (cell + 1).

(** ** Constants *)

Definition MAX_PENDING_CONNECTIONS : nat := 256.
Definition MAX_ALLOWED_APPS : nat := 1024.
Definition MAX_PATH_LENGTH : nat := 512.

(** [CTL_CODE(DeviceType, Function, Method, Access)] of the DDK. *)
Definition CTL_CODE (DeviceType Function Method Access : Z) : Z :=
  Z.lor (Z.lor (Z.lor (Z.shiftl DeviceType 16) (Z.shiftl Access 14))
               (Z.shiftl Function 2)) Method.

Definition FILE_DEVICE_UNKNOWN : Z := 0x22.
Definition METHOD_BUFFERED : Z := 0.
Definition FILE_READ_DATA : Z := 1.
Definition FILE_WRITE_DATA : Z := 2.

Definition IOCTL_NETGUARD_GET_PENDING : Z :=
  CTL_CODE FILE_DEVICE_UNKNOWN 0x800 METHOD_BUFFERED FILE_READ_DATA.
Definition IOCTL_NETGUARD_RESPOND : Z :=
  CTL_CODE FILE_DEVICE_UNKNOWN 0x801 METHOD_BUFFERED FILE_WRITE_DATA.
Definition IOCTL_NETGUARD_ADD_ALLOWED : Z :=
  CTL_CODE FILE_DEVICE_UNKNOWN 0x802 METHOD_BUFFERED FILE_WRITE_DATA.
Definition IOCTL_NETGUARD_REMOVE_ALLOWED : Z :=
  CTL_CODE FILE_DEVICE_UNKNOWN 0x803 METHOD_BUFFERED FILE_WRITE_DATA.
Definition IOCTL_NETGUARD_ENABLE : Z :=
  CTL_CODE FILE_DEVICE_UNKNOWN 0x804 METHOD_BUFFERED FILE_WRITE_DATA.
Definition IOCTL_NETGUARD_DISABLE : Z :=
  CTL_CODE FILE_DEVICE_UNKNOWN 0x805 METHOD_BUFFERED FILE_WRITE_DATA.

(** ** Wide strings

    A [WCHAR] buffer is the list of its code units; a C string inside a
    buffer ends at the first zero unit. *)

(** The string held by a buffer: the units before the first terminator. *)
Fixpoint wcs (buf : list WCHAR) : list WCHAR :=
  match buf with
  | [] => []
  | c :: rest => if c =? 0 then [] else c :: wcs rest
  end.

(** Case folding of [_wcsicmp]: the letters A..Z map to a..z. *)
Definition towlower (c : WCHAR) : WCHAR :=
  if (65 <=? c) && (c <=? 90) then c + 32 else c.

(** [_wcsicmp a b]: compares unit by unit after case folding and stops at the
    first difference or at the terminator.  The end of a buffer reads as a
    terminator. *)
Fixpoint _wcsicmp (a b : list WCHAR) : Z :=
  match a with
  | [] => 0 - towlower (hd 0 b)
  | x :: a' =>
      let f := towlower x in
      let l := towlower (hd 0 b) in
      if f =? l then (if f =? 0 then 0 else _wcsicmp a' (tl b)) else f - l
  end.

(** [wcsncpy dst src n]: the first [n] units of [dst] receive the string of
    [src], cut at [n] units and zero-filled up to [n]; the units of [dst]
    from [n] on are kept. *)
Definition wcsncpy (dst src : list WCHAR) (n : nat) : list WCHAR :=
  take n (wcs src ++ replicate n 0) ++ drop n dst.

(** ** Structures *)

Record PENDING_CONNECTION := mkPending {
  connectionId : UINT64;
  processId : UINT32;
  processPath : list WCHAR;      (* WCHAR[MAX_PATH_LENGTH] *)
  remoteIp : UINT32;
  remotePort : UINT16;
  timestamp : LARGE_INTEGER;
  responded : BOOLEAN;
  allowed : BOOLEAN
}.

Record ALLOWED_APP := mkApp {
  appPath : list WCHAR;          (* processPath: WCHAR[MAX_PATH_LENGTH] *)
  blocked : BOOLEAN              (* TRUE = blocked, FALSE = allowed *)
}.

(** [PendingCount] and [AllowedCount] index the two arrays.  Every increment
    is guarded by a comparison with the array size and the decrement runs
    inside the loop over [i < PendingCount], so their UINT32 arithmetic never
    wraps; they are natural numbers here.  The three statistics are 64-bit
    cells that do wrap. *)
Record NETGUARD_CONTEXT := mkContext {
  Enabled : bool;
  PendingConnections : list PENDING_CONNECTION; (* [MAX_PENDING_CONNECTIONS] *)
  PendingCount : nat;
  PendingEvent : bool;                          (* signalled state *)
  AllowedApps : list ALLOWED_APP;               (* [MAX_ALLOWED_APPS] *)
  AllowedCount : nat;
  TotalConnections : UINT64;
  BlockedConnections : UINT64;
  AllowedConnections : UINT64
}.

(** The all-zero structures left by [RtlZeroMemory]. *)
Definition zero_PENDING_CONNECTION : PENDING_CONNECTION :=
  mkPending 0 0 (replicate MAX_PATH_LENGTH 0) 0 0 0 FALSE FALSE.

Definition zero_ALLOWED_APP : ALLOWED_APP :=
  mkApp (replicate MAX_PATH_LENGTH 0) FALSE.

(** [g_Context] after the initialisation in [DriverEntry]. *)
Definition DriverEntry_Context : NETGUARD_CONTEXT :=
  {| Enabled := false;
     PendingConnections := replicate MAX_PENDING_CONNECTIONS zero_PENDING_CONNECTION;
     PendingCount := 0;
     PendingEvent := false;
     AllowedApps := replicate MAX_ALLOWED_APPS zero_ALLOWED_APP;
     AllowedCount := 0;
     TotalConnections := 0;
     BlockedConnections := 0;
     AllowedConnections := 0 |}.

(** Field updates of [g_Context]. *)
Definition set_Enabled (b : bool) (g : NETGUARD_CONTEXT) : NETGUARD_CONTEXT :=
  mkContext b (PendingConnections g) (PendingCount g) (PendingEvent g)
            (AllowedApps g) (AllowedCount g)
            (TotalConnections g) (BlockedConnections g) (AllowedConnections g).

Definition set_Pending (l : list PENDING_CONNECTION) (n : nat)
    (g : NETGUARD_CONTEXT) : NETGUARD_CONTEXT :=
  mkContext (Enabled g) l n (PendingEvent g) (AllowedApps g) (AllowedCount g)
            (TotalConnections g) (BlockedConnections g) (AllowedConnections g).

Definition set_PendingEvent (b : bool) (g : NETGUARD_CONTEXT) : NETGUARD_CONTEXT :=
  mkContext (Enabled g) (PendingConnections g) (PendingCount g) b
            (AllowedApps g) (AllowedCount g)
            (TotalConnections g) (BlockedConnections g) (AllowedConnections g).

Definition set_Allowed (l : list ALLOWED_APP) (n : nat)
    (g : NETGUARD_CONTEXT) : NETGUARD_CONTEXT :=
  mkContext (Enabled g) (PendingConnections g) (PendingCount g) (PendingEvent g)
            l n
            (TotalConnections g) (BlockedConnections g) (AllowedConnections g).

Definition set_TotalConnections (v : UINT64) (g : NETGUARD_CONTEXT) : NETGUARD_CONTEXT :=
  mkContext (Enabled g) (PendingConnections g) (PendingCount g) (PendingEvent g)
            (AllowedApps g) (AllowedCount g)
            v (BlockedConnections g) (AllowedConnections g).

Definition set_BlockedConnections (v : UINT64) (g : NETGUARD_CONTEXT) : NETGUARD_CONTEXT :=
  mkContext (Enabled g) (PendingConnections g) (PendingCount g) (PendingEvent g)
            (AllowedApps g) (AllowedCount g)
            (TotalConnections g) v (AllowedConnections g).

Definition set_AllowedConnections (v : UINT64) (g : NETGUARD_CONTEXT) : NETGUARD_CONTEXT :=
  mkContext (Enabled g) (PendingConnections g) (PendingCount g) (PendingEvent g)
            (AllowedApps g) (AllowedCount g)
            (TotalConnections g) (BlockedConnections g) v.

(** The Pending Queue proper: the first [PendingCount] slots of the array. *)
Definition pending (g : NETGUARD_CONTEXT) : list PENDING_CONNECTION :=
  take (PendingCount g) (PendingConnections g).

(** The Registry proper: the first [AllowedCount] slots of the array. *)
Definition registry (g : NETGUARD_CONTEXT) : list ALLOWED_APP :=
  take (AllowedCount g) (AllowedApps g).

(** ** IsAppInList *)

(** The scan [for (i = 0; i < AllowedCount; i++)] with its [break]: the first
    entry whose path compares equal decides.  [Some b] stands for the return
    value 1 with [*isBlocked = b], [None] for the return value 0. *)
Fixpoint IsAppInList_scan (apps : list ALLOWED_APP) (path : list WCHAR)
    : option BOOLEAN :=
  match apps with
  | [] => None
  | a :: rest =>
      if _wcsicmp (appPath a) path =? 0 then Some (blocked a)
      else IsAppInList_scan rest path
  end.

Definition IsAppInList (g : NETGUARD_CONTEXT) (path : list WCHAR) : option BOOLEAN :=
  IsAppInList_scan (registry g) path.

(** ** AddPendingConnection *)

(** [now] is the value written by [KeQuerySystemTime].  The write goes to the
    slot of index [PendingCount]; [wcsncpy] leaves the last unit of the slot's
    path as it was. *)
Definition AddPendingConnection (g : NETGUARD_CONTEXT)
    (pid : UINT32) (path : list WCHAR) (ip : UINT32) (port : UINT16)
    (now : LARGE_INTEGER) : UINT64 * NETGUARD_CONTEXT :=
  if (PendingCount g <? MAX_PENDING_CONNECTIONS)%nat then
    let id := InterlockedIncrement64 (TotalConnections g) in
    let g1 := set_TotalConnections id g in
    let old := default zero_PENDING_CONNECTION (PendingConnections g1 !! PendingCount g1) in
    let conn :=
      {| connectionId := id;
         processId := pid;
         processPath := wcsncpy (processPath old) path (MAX_PATH_LENGTH - 1);
         remoteIp := ip;
         remotePort := port;
         timestamp := now;
         responded := FALSE;
         allowed := FALSE |} in
    let g2 := set_Pending (<[PendingCount g1 := conn]> (PendingConnections g1))
                          (S (PendingCount g1)) g1 in
    (id, set_PendingEvent true g2)
  else (0, g).

(** ** NetGuardClassifyFn *)

Inductive FWP_ACTION_TYPE := FWP_ACTION_PERMIT | FWP_ACTION_BLOCK.

Definition FWPS_RIGHT_ACTION_WRITE : UINT32 := 1.

Record FWPS_CLASSIFY_OUT0 := mkClassifyOut {
  actionType : FWP_ACTION_TYPE;
  rights : UINT32
}.

(** The two fixed values read at the ALE_AUTH_CONNECT_V4 layer. *)
Record FWPS_INCOMING_VALUES0 := mkIncoming {
  IP_REMOTE_ADDRESS : UINT32;
  IP_REMOTE_PORT : UINT16
}.

(** The metadata the callback reads.  The two [_PRESENT] fields are the
    results of [FWPS_IS_METADATA_FIELD_PRESENT]; [metaProcessPath] is the
    byte blob of the path seen as its [WCHAR] units ([None]: null pointer),
    its [size] being two bytes per unit. *)
Record FWPS_INCOMING_METADATA_VALUES0 := mkMeta {
  PROCESS_ID_PRESENT : bool;
  metaProcessId : UINT64;
  PROCESS_PATH_PRESENT : bool;
  metaProcessPath : option (list WCHAR)
}.

(** [(UINT32)inMetaValues->processId] when the field is present, 0 otherwise. *)
Definition classify_processId (m : FWPS_INCOMING_METADATA_VALUES0) : UINT32 :=
  if PROCESS_ID_PRESENT m then wrap32 (metaProcessId m) else 0.

(** The local [WCHAR processPath[MAX_PATH_LENGTH] = {0}] after the guarded
    [RtlCopyMemory] of [min(size, (MAX_PATH_LENGTH - 1) * sizeof(WCHAR))]
    bytes. *)
Definition classify_processPath (m : FWPS_INCOMING_METADATA_VALUES0) : list WCHAR :=
  let buf := replicate MAX_PATH_LENGTH 0 in
  if PROCESS_PATH_PRESENT m then
    match metaProcessPath m with
    | Some data =>
        if (0 <? length data)%nat then
          let copyLen := (length data `min` (MAX_PATH_LENGTH - 1))%nat in
          take copyLen data ++ drop copyLen buf
        else buf
    | None => buf
    end
  else buf.

(** [actionType = FWP_ACTION_BLOCK; rights &= ~FWPS_RIGHT_ACTION_WRITE]. *)
Definition block_action (out : FWPS_CLASSIFY_OUT0) : FWPS_CLASSIFY_OUT0 :=
  {| actionType := FWP_ACTION_BLOCK;
     rights := Z.land (rights out) (Z.lnot FWPS_RIGHT_ACTION_WRITE) |}.

Definition NetGuardClassifyFn (g : NETGUARD_CONTEXT)
    (inFixedValues : FWPS_INCOMING_VALUES0)
    (inMetaValues : FWPS_INCOMING_METADATA_VALUES0)
    (classifyOut : FWPS_CLASSIFY_OUT0) (now : LARGE_INTEGER)
    : FWPS_CLASSIFY_OUT0 * NETGUARD_CONTEXT :=
  (* Default: permit *)
  let out := {| actionType := FWP_ACTION_PERMIT; rights := rights classifyOut |} in
  if negb (Enabled g) then (out, g)
  else
    let pid := classify_processId inMetaValues in
    let ip := IP_REMOTE_ADDRESS inFixedValues in
    let port := IP_REMOTE_PORT inFixedValues in
    let path := classify_processPath inMetaValues in
    (* Skip system processes *)
    if (pid =? 0) || (pid =? 4) then (out, g)
    else
      match IsAppInList g path with
      | Some isBlocked =>
          if negb (isBlocked =? 0) then
            (block_action out,
             set_BlockedConnections (InterlockedIncrement64 (BlockedConnections g)) g)
          else
            (out,
             set_AllowedConnections (InterlockedIncrement64 (AllowedConnections g)) g)
      | None =>
          (* Unknown app - add to pending and block temporarily *)
          let '(connId, g') := AddPendingConnection g pid path ip port now in
          if 0 <? connId then (block_action out, g') else (out, g')
      end.

(** ** Byte images of the structures *)

(** Little-endian image of an integer on [n] bytes. *)
Fixpoint le_bytes (n : nat) (z : Z) : list UCHAR :=
  match n with
  | O => []
  | S n' => Z.land z 255 :: le_bytes n' (Z.shiftr z 8)
  end.

(** Little-endian value of a run of bytes. *)
Fixpoint le_value (bs : list UCHAR) : Z :=
  match bs with
  | [] => 0
  | b :: rest => Z.lor b (Z.shiftl (le_value rest) 8)
  end.

(** The bytes of a [WCHAR[MAX_PATH_LENGTH]] field. *)
Definition path_bytes (p : list WCHAR) : list UCHAR :=
  flat_map (le_bytes 2) (take MAX_PATH_LENGTH (p ++ replicate MAX_PATH_LENGTH 0)).

(** [sizeof(PENDING_CONNECTION)]: the fields at their natural alignment,
    [connectionId] at 0, [processId] at 8, [processPath] at 12, [remoteIp] at
    1036, [remotePort] at 1040, [timestamp] at 1048, [responded] at 1056,
    [allowed] at 1057, the size rounded up to the 8-byte alignment. *)
Definition sizeof_PENDING_CONNECTION : nat := 1064.

(** The padding bytes are the zeroes of [RtlZeroMemory]: no store of the
    driver writes them and [RtlMoveMemory] only copies them around. *)
Definition PENDING_CONNECTION_bytes (c : PENDING_CONNECTION) : list UCHAR :=
  le_bytes 8 (connectionId c) ++ le_bytes 4 (processId c) ++
  path_bytes (processPath c) ++
  le_bytes 4 (remoteIp c) ++ le_bytes 2 (remotePort c) ++ replicate 6%nat 0 ++
  le_bytes 8 (timestamp c) ++
  le_bytes 1 (responded c) ++ le_bytes 1 (allowed c) ++ replicate 6%nat 0.

(** [sizeof(ALLOWED_APP)]: 1024 bytes of path, the flag and one byte of
    padding. *)
Definition sizeof_ALLOWED_APP : nat := 1026.

(** The [WCHAR] units held by the first [2 * n] bytes of a buffer. *)
Fixpoint WCHARs_of_bytes (n : nat) (bs : list UCHAR) : list WCHAR :=
  match n with
  | O => []
  | S n' => le_value (take 2 bs ++ replicate (2 - length (take 2 bs)) 0)
            :: WCHARs_of_bytes n' (drop 2 bs)
  end.

(** The structure overlaid on the input buffer by [(PALLOWED_APP)inputBuffer]. *)
Definition ALLOWED_APP_of_bytes (bs : list UCHAR) : ALLOWED_APP :=
  {| appPath := WCHARs_of_bytes MAX_PATH_LENGTH bs;
     blocked := nth (2 * MAX_PATH_LENGTH) bs 0 |}.

(** ** NetGuardDeviceControl *)

Inductive NTSTATUS := STATUS_SUCCESS | STATUS_INVALID_DEVICE_REQUEST.

(** The parts of the request the dispatcher reads.  With [METHOD_BUFFERED]
    the system buffer holds the caller's input and is as long as the larger
    of the two lengths ([None]: both lengths are zero). *)
Record IRP := mkIrp {
  IoControlCode : Z;
  SystemBuffer : option (list UCHAR);
  InputBufferLength : nat;
  OutputBufferLength : nat
}.

(** The completion of the request: [IoStatus.Status], [IoStatus.Information]
    and the bytes stored at the start of the output buffer. *)
Record IO_STATUS_BLOCK := mkIoStatus {
  Status : NTSTATUS;
  Information : nat;
  OutputData : list UCHAR
}.

(** [RtlMoveMemory(&a[dst], &a[src], n * sizeof(a[0]))] on an array. *)
Definition RtlMoveMemory_slots {A} (a : list A) (dst src n : nat) : list A :=
  take dst a ++ take n (drop src a) ++ drop (dst + n) a.

(** The memory of [g_Context.PendingConnections]. *)
Definition PendingConnections_bytes (g : NETGUARD_CONTEXT) : list UCHAR :=
  flat_map PENDING_CONNECTION_bytes (PendingConnections g).

(** The body executed by IOCTL_NETGUARD_RESPOND when slot [i] matches. *)
Definition respond_at (g : NETGUARD_CONTEXT) (i : nat) (c : PENDING_CONNECTION)
    (allowedByte : BOOLEAN) : NETGUARD_CONTEXT :=
  let marked :=
    {| connectionId := connectionId c; processId := processId c;
       processPath := processPath c; remoteIp := remoteIp c;
       remotePort := remotePort c; timestamp := timestamp c;
       responded := TRUE; allowed := allowedByte |} in
  let a1 := <[i := marked]> (PendingConnections g) in
  (* Remove from pending list *)
  let a2 :=
    if (i <? PendingCount g - 1)%nat
    then RtlMoveMemory_slots a1 i (i + 1) (PendingCount g - i - 1)
    else a1 in
  set_Pending a2 (PendingCount g - 1) g.

(** The loop [for (i = 0; i < PendingCount; i++)] of IOCTL_NETGUARD_RESPOND,
    entered at index [i] with [n] iterations left. *)
Fixpoint respond_loop (n i : nat) (g : NETGUARD_CONTEXT)
    (connId : UINT64) (allowedByte : BOOLEAN) : NETGUARD_CONTEXT :=
  match n with
  | O => g
  | S n' =>
      match PendingConnections g !! i with
      | Some c =>
          if connectionId c =? connId then respond_at g i c allowedByte
          else respond_loop n' (S i) g connId allowedByte
      | None => g
      end
  end.

Definition NetGuardDeviceControl (g : NETGUARD_CONTEXT) (irp : IRP)
    : IO_STATUS_BLOCK * NETGUARD_CONTEXT :=
  let buffer := default [] (SystemBuffer irp) in
  let inputLength := InputBufferLength irp in
  let outputLength := OutputBufferLength irp in
  let code := IoControlCode irp in
  if code =? IOCTL_NETGUARD_ENABLE then
    (mkIoStatus STATUS_SUCCESS 0 [], set_Enabled true g)
  else if code =? IOCTL_NETGUARD_DISABLE then
    (mkIoStatus STATUS_SUCCESS 0 [], set_Enabled false g)
  else if code =? IOCTL_NETGUARD_GET_PENDING then
    let copySize :=
      (outputLength `min` (PendingCount g * sizeof_PENDING_CONNECTION))%nat in
    if (0 <? copySize)%nat && bool_decide (is_Some (SystemBuffer irp)) then
      (mkIoStatus STATUS_SUCCESS copySize (take copySize (PendingConnections_bytes g)), g)
    else (mkIoStatus STATUS_SUCCESS 0 [], g)
  else if code =? IOCTL_NETGUARD_RESPOND then
    if (8 + 1 <=? inputLength)%nat then
      let connId := le_value (take 8 buffer) in
      let allowedByte := nth 8 buffer 0 in
      (mkIoStatus STATUS_SUCCESS 0 [],
       respond_loop (PendingCount g) 0 g connId allowedByte)
    else (mkIoStatus STATUS_SUCCESS 0 [], g)
  else if code =? IOCTL_NETGUARD_ADD_ALLOWED then
    if (sizeof_ALLOWED_APP <=? inputLength)%nat then
      if (AllowedCount g <? MAX_ALLOWED_APPS)%nat then
        (mkIoStatus STATUS_SUCCESS 0 [],
         set_Allowed (<[AllowedCount g := ALLOWED_APP_of_bytes buffer]> (AllowedApps g))
                     (S (AllowedCount g)) g)
      else (mkIoStatus STATUS_SUCCESS 0 [], g)
    else (mkIoStatus STATUS_SUCCESS 0 [], g)
  else (mkIoStatus STATUS_INVALID_DEVICE_REQUEST 0 [], g).

(** ** Runs of the driver *)

(** One entry into the driver: a classification by the filter engine or a
    device-control request from user mode. *)
Inductive call :=
| Classify (inFixedValues : FWPS_INCOMING_VALUES0)
           (inMetaValues : FWPS_INCOMING_METADATA_VALUES0)
           (classifyOut : FWPS_CLASSIFY_OUT0) (now : LARGE_INTEGER)
| DeviceControl (irp : IRP).

Definition step (g : NETGUARD_CONTEXT) (c : call) : NETGUARD_CONTEXT :=
  match c with
  | Classify fv mv out now => snd (NetGuardClassifyFn g fv mv out now)
  | DeviceControl irp => snd (NetGuardDeviceControl g irp)
  end.

Definition run (g : NETGUARD_CONTEXT) (cs : list call) : NETGUARD_CONTEXT :=
  fold_left step cs g.

(** The entries a transition appended to the queue: the slots from the old
    [PendingCount] up to the new one. *)
Definition queued_by (g g' : NETGUARD_CONTEXT) : list PENDING_CONNECTION :=
  drop (PendingCount g) (take (PendingCount g') (PendingConnections g')).

(** Every entry appended to the queue along a run, oldest first. *)
Fixpoint queued (g : NETGUARD_CONTEXT) (cs : list call) : list PENDING_CONNECTION :=
  match cs with
  | [] => []
  | c :: rest => queued_by g (step g c) ++ queued (step g c) rest
  end.

(** ** Well-formed contexts *)

(** The arrays have their declared sizes and the counts stay within them. *)
Definition ctx_wf (g : NETGUARD_CONTEXT) : Prop :=
  length (PendingConnections g) = MAX_PENDING_CONNECTIONS /\
  (PendingCount g <= MAX_PENDING_CONNECTIONS)%nat /\
  length (AllowedApps g) = MAX_ALLOWED_APPS /\
  (AllowedCount g <= MAX_ALLOWED_APPS)%nat.

(** The ids waiting in the queue, in queue order. *)
Definition pending_ids (g : NETGUARD_CONTEXT) : list UINT64 :=
  connectionId <$> pending g.

(** The verdict left in [classifyOut] when the callback only runs its first
    statement. *)
Definition permit_action (out : FWPS_CLASSIFY_OUT0) : FWPS_CLASSIFY_OUT0 :=
  {| actionType := FWP_ACTION_PERMIT; rights := rights out |}.

(** The entry [AddPendingConnection] writes when a slot is free. *)
Definition new_connection (g : NETGUARD_CONTEXT)
    (pid : UINT32) (path : list WCHAR) (ip : UINT32) (port : UINT16)
    (now : LARGE_INTEGER) : PENDING_CONNECTION :=
  {| connectionId := wrap64 (TotalConnections g + 1);
     processId := pid;
     processPath :=
       wcsncpy (processPath (default zero_PENDING_CONNECTION
                               (PendingConnections g !! PendingCount g)))
               path (MAX_PATH_LENGTH - 1);
     remoteIp := ip;
     remotePort := port;
     timestamp := now;
     responded := FALSE;
     allowed := FALSE |}.

(** What a single call can do to [g_Context]. *)
Inductive effect (g : NETGUARD_CONTEXT) : NETGUARD_CONTEXT -> Prop :=
| effect_none : effect g g
| effect_enable b : effect g (set_Enabled b g)
| effect_blocked :
    effect g (set_BlockedConnections (wrap64 (BlockedConnections g + 1)) g)
| effect_allowed :
    effect g (set_AllowedConnections (wrap64 (AllowedConnections g + 1)) g)
| effect_registry app :
    (AllowedCount g < MAX_ALLOWED_APPS)%nat ->
    effect g (set_Allowed (<[AllowedCount g := app]> (AllowedApps g))
                          (S (AllowedCount g)) g)
| effect_queue pid path ip port now :
    (PendingCount g < MAX_PENDING_CONNECTIONS)%nat ->
    effect g (snd (AddPendingConnection g pid path ip port now))
| effect_resolve k c a :
    (k < PendingCount g)%nat ->
    PendingConnections g !! k = Some c ->
    effect g (respond_at g k c a).

(** The ids waiting in the queue are increasing in queue order and were all
    handed out by the counter. *)
Definition ids_inv (g : NETGUARD_CONTEXT) : Prop :=
  StronglySorted Z.lt (pending_ids g) /\
  Forall (fun id => 1 <= id <= TotalConnections g) (pending_ids g).

(** The four ways a classification ends without reaching a free slot. *)
Definition classify_bypasses_queue (g : NETGUARD_CONTEXT)
    (mv : FWPS_INCOMING_METADATA_VALUES0) : Prop :=
  Enabled g = false \/
  classify_processId mv = 0 \/ classify_processId mv = 4 \/
  IsAppInList g (classify_processPath mv) <> None \/
  PendingCount g = MAX_PENDING_CONNECTIONS.

(** The connection id and the flag the request carries. *)
Definition respond_connId (irp : IRP) : UINT64 :=
  le_value (take 8 (default [] (SystemBuffer irp))).

Definition respond_allowed (irp : IRP) : BOOLEAN :=
  nth 8 (default [] (SystemBuffer irp)) 0.

(** ** Concrete calls used in the examples *)

Definition wstr (l : list Z) : option (list WCHAR) := Some (l ++ [0]).

(** "a.exe" and "B.EXE" *)
Definition path_a : list WCHAR := [97; 46; 101; 120; 101].
Definition path_B : list WCHAR := [66; 46; 69; 88; 69].

Definition meta_of (pid : UINT64) (p : list WCHAR) : FWPS_INCOMING_METADATA_VALUES0 :=
  mkMeta true pid true (wstr p).

Definition classify_call (pid : UINT64) (p : list WCHAR) (now : Z) : call :=
  Classify (mkIncoming 0x0A000001 443) (meta_of pid p) (mkClassifyOut FWP_ACTION_PERMIT 1) now.

Definition ioctl (code : Z) (input : list UCHAR) (outLen : nat) : call :=
  DeviceControl
    (mkIrp code
       (if (0 <? length input `max` outLen)%nat
        then Some (input ++ replicate (outLen - length input) 0) else None)
       (length input) outLen).

Definition enable_call : call := ioctl IOCTL_NETGUARD_ENABLE [] 0.
Definition disable_call : call := ioctl IOCTL_NETGUARD_DISABLE [] 0.
Definition respond_call (id : UINT64) (a : BOOLEAN) : call :=
  ioctl IOCTL_NETGUARD_RESPOND (le_bytes 8 id ++ [a]) 0.
Definition add_allowed_call (p : list WCHAR) (b : BOOLEAN) : call :=
  ioctl IOCTL_NETGUARD_ADD_ALLOWED
        (path_bytes (p ++ [0]) ++ [b; 0]) 0.

(** Enforcement switched on and the queue filled by 256 unknown callers. *)
Definition saturating_calls : list call :=
  enable_call :: map (fun k => classify_call 100 path_a (Z.of_nat k))
                     (seq 0 MAX_PENDING_CONNECTIONS).

Definition saturated_Context : NETGUARD_CONTEXT :=
  Eval vm_compute in run DriverEntry_Context saturating_calls.

(** Enforcement on, "a.exe" registered as blocked and "B.EXE" as allowed,
    one unknown caller waiting in the queue. *)
Definition registry_calls : list call :=
  [enable_call; add_allowed_call path_a TRUE; add_allowed_call path_B FALSE;
   classify_call 77 [120] 1].

Definition registry_Context : NETGUARD_CONTEXT :=
  Eval vm_compute in run DriverEntry_Context registry_calls.

(** Enforcement on, "a.exe" registered as allowed and then once more as
    blocked: IOCTL_NETGUARD_ADD_ALLOWED appends without looking for an entry
    of the same path. *)
Definition conflicting_calls : list call :=
  [enable_call; add_allowed_call path_a FALSE; add_allowed_call path_a TRUE].

Definition conflicting_Context : NETGUARD_CONTEXT :=
  Eval vm_compute in run DriverEntry_Context conflicting_calls.

(** Enforcement on and one unknown caller in the queue. *)
Definition one_pending_calls : list call :=
  [enable_call; classify_call 100 path_a 1].

Definition one_pending_Context : NETGUARD_CONTEXT :=
  Eval vm_compute in run DriverEntry_Context one_pending_calls.

Definition get_pending_irp (outLen : nat) : IRP :=
  mkIrp IOCTL_NETGUARD_GET_PENDING (Some (replicate outLen 0)) 0 outLen.

(** Enforcement on and three unknown callers in the queue, ids 1, 2, 3. *)
Definition three_pending_calls : list call :=
  [enable_call; classify_call 100 path_a 1; classify_call 101 path_B 2;
   classify_call 102 path_a 3].

Definition three_pending_Context : NETGUARD_CONTEXT :=
  Eval vm_compute in run DriverEntry_Context three_pending_calls.

Definition respond_irp (id : UINT64) (a : BOOLEAN) : IRP :=
  mkIrp IOCTL_NETGUARD_RESPOND (Some (le_bytes 8 id ++ [a])) 9 0.

(** One caller queued and resolved. *)
Definition resolved_once : list call :=
  [enable_call; classify_call 100 path_a 1; respond_call 1 TRUE].

(** The queue filled to capacity, one more caller turned away, one entry
    resolved and two more callers queued. *)
Definition saturate_and_resolve : list call :=
  enable_call ::
  map (fun k => classify_call 100 path_a (Z.of_nat k)) (seq 0 257) ++
  [respond_call 5 TRUE; classify_call 100 path_B 300; respond_call 7 FALSE;
   classify_call 101 path_a 301].

(** ** What a client of the driver can observe *)

(** The answer of the driver to one call: the classification left in
    [classifyOut], or the completion of the request. *)
Inductive answer :=
| Classified (out : FWPS_CLASSIFY_OUT0)
| Completed (io : IO_STATUS_BLOCK).

Definition answer_of (g : NETGUARD_CONTEXT) (c : call) : answer :=
  match c with
  | Classify fv mv out now => Classified (fst (NetGuardClassifyFn g fv mv out now))
  | DeviceControl irp => Completed (fst (NetGuardDeviceControl g irp))
  end.

(** The answers to the calls of a run, in order. *)
Fixpoint answers (g : NETGUARD_CONTEXT) (cs : list call) : list answer :=
  match cs with
  | [] => []
  | c :: rest => answer_of g c :: answers (step g c) rest
  end.

(** Two contexts that agree on everything the code reads again: all fields
    but the array of pending connections, the queue proper, and the paths left
    in every slot of the array (which [wcsncpy] partly keeps). *)
Record same_view (g1 g2 : NETGUARD_CONTEXT) : Prop := mkSameView {
  sv_Enabled : Enabled g1 = Enabled g2;
  sv_PendingCount : PendingCount g1 = PendingCount g2;
  sv_pending : pending g1 = pending g2;
  sv_paths : processPath <$> PendingConnections g1
             = processPath <$> PendingConnections g2;
  sv_PendingEvent : PendingEvent g1 = PendingEvent g2;
  sv_AllowedApps : AllowedApps g1 = AllowedApps g2;
  sv_AllowedCount : AllowedCount g1 = AllowedCount g2;
  sv_TotalConnections : TotalConnections g1 = TotalConnections g2;
  sv_BlockedConnections : BlockedConnections g1 = BlockedConnections g2;
  sv_AllowedConnections : AllowedConnections g1 = AllowedConnections g2
}.

(** Every slot of the array holds a path of [MAX_PATH_LENGTH] units whose
    last unit is the terminator. *)
Definition paths_terminated (g : NETGUARD_CONTEXT) : Prop :=
  Forall (fun c => length (processPath c) = MAX_PATH_LENGTH /\
                   processPath c !! (MAX_PATH_LENGTH - 1)%nat = Some 0)
         (PendingConnections g).

(** ** Loading and unloading: DriverEntry, RegisterWfpCallout,
       UnregisterWfpCallout, DriverUnload *)

(** The fields of [g_Context] used by the registration code: the device
    object, the engine handle and the callout and filter ids (0 is NULL). *)
Record WFP_HANDLES := mkHandles {
  DeviceObject : Z;
  EngineHandle : Z;
  CalloutId : UINT32;
  FilterId : UINT32
}.

(** An [NTSTATUS] is a LONG; [NT_SUCCESS] tests its sign. *)
Definition NT_SUCCESS (status : Z) : bool := 0 <=? status.

Definition status_code (s : NTSTATUS) : Z :=
  match s with
  | STATUS_SUCCESS => 0
  | STATUS_INVALID_DEVICE_REQUEST => 0xC0000010 - 2 ^ 32
  end.

Definition STATUS_FWP_ALREADY_EXISTS : Z := 0xC0220009 - 2 ^ 32.

(** What the system answers to the calls of the loading code: the status of
    each call and the value it leaves in its output parameter. *)
Record SYSTEM_ANSWERS := mkAnswers {
  IoCreateDevice_answer : Z * Z;          (* status, device object *)
  IoCreateSymbolicLink_answer : Z;
  FwpmEngineOpen0_answer : Z * Z;         (* status, engine handle *)
  FwpmSubLayerAdd0_answer : Z;
  FwpsCalloutRegister1_answer : Z * Z;    (* status, callout id *)
  FwpmCalloutAdd0_answer : Z;
  FwpmFilterAdd0_answer : Z * Z           (* status, 64-bit filter id *)
}.

(** The calls the loading and unloading code makes, with their arguments and
    answers, in the order it makes them. *)
Inductive system_call :=
| IoCreateDevice (status device : Z)
| IoCreateSymbolicLink (status : Z)
| IoDeleteSymbolicLink
| IoDeleteDevice (device : Z)
| FwpmEngineOpen0 (status engine : Z)
| FwpmSubLayerAdd0 (engine status : Z)
| FwpsCalloutRegister1 (device status calloutId : Z)
| FwpmCalloutAdd0 (engine status : Z)
| FwpmFilterAdd0 (engine status filterId : Z)
| FwpmFilterDeleteById0 (engine filterId : Z)
| FwpsCalloutUnregisterById0 (calloutId : Z)
| FwpmEngineClose0 (engine : Z).

Definition set_EngineHandle (e : Z) (h : WFP_HANDLES) : WFP_HANDLES :=
  mkHandles (DeviceObject h) e (CalloutId h) (FilterId h).
Definition set_CalloutId (c : Z) (h : WFP_HANDLES) : WFP_HANDLES :=
  mkHandles (DeviceObject h) (EngineHandle h) c (FilterId h).
Definition set_FilterId (f : Z) (h : WFP_HANDLES) : WFP_HANDLES :=
  mkHandles (DeviceObject h) (EngineHandle h) (CalloutId h) f.

(** [RegisterWfpCallout]: the status it returns, the handles it leaves and
    the calls it made.  [FwpmFilterAdd0] returns a 64-bit id through the
    address of the 32-bit field [FilterId]; the field keeps the low half. *)
Definition RegisterWfpCallout (sys : SYSTEM_ANSWERS) (h : WFP_HANDLES)
    : Z * WFP_HANDLES * list system_call :=
  (* Open WFP engine *)
  let '(status, engine) := FwpmEngineOpen0_answer sys in
  let h := set_EngineHandle engine h in
  let t := [FwpmEngineOpen0 status engine] in
  if negb (NT_SUCCESS status) then (status, h, t)
  else
    (* Add sublayer *)
    let status := FwpmSubLayerAdd0_answer sys in
    let t := t ++ [FwpmSubLayerAdd0 (EngineHandle h) status] in
    if negb (NT_SUCCESS status) && negb (status =? STATUS_FWP_ALREADY_EXISTS) then
      (status, h, t ++ [FwpmEngineClose0 (EngineHandle h)])
    else
      (* Register callout with WFP kernel *)
      let '(status, calloutId) := FwpsCalloutRegister1_answer sys in
      let t := t ++ [FwpsCalloutRegister1 (DeviceObject h) status calloutId] in
      let h := set_CalloutId calloutId h in
      if negb (NT_SUCCESS status) then
        (status, h, t ++ [FwpmEngineClose0 (EngineHandle h)])
      else
        (* Add callout to management layer *)
        let status := FwpmCalloutAdd0_answer sys in
        let t := t ++ [FwpmCalloutAdd0 (EngineHandle h) status] in
        if negb (NT_SUCCESS status) && negb (status =? STATUS_FWP_ALREADY_EXISTS) then
          (status, h,
           t ++ [FwpsCalloutUnregisterById0 (CalloutId h);
                 FwpmEngineClose0 (EngineHandle h)])
        else
          (* Add filter *)
          let '(status, filterId) := FwpmFilterAdd0_answer sys in
          let t := t ++ [FwpmFilterAdd0 (EngineHandle h) status filterId] in
          let h := set_FilterId (wrap32 filterId) h in
          if negb (NT_SUCCESS status) then
            (status, h,
             t ++ [FwpsCalloutUnregisterById0 (CalloutId h);
                   FwpmEngineClose0 (EngineHandle h)])
          else (status_code STATUS_SUCCESS, h, t).

(** [UnregisterWfpCallout]: the calls it makes; it leaves the handles as they
    are and returns STATUS_SUCCESS. *)
Definition UnregisterWfpCallout (h : WFP_HANDLES) : Z * list system_call :=
  (status_code STATUS_SUCCESS,
   (if FilterId h =? 0 then []
    else [FwpmFilterDeleteById0 (EngineHandle h) (FilterId h)]) ++
   (if CalloutId h =? 0 then [] else [FwpsCalloutUnregisterById0 (CalloutId h)]) ++
   (if EngineHandle h =? 0 then [] else [FwpmEngineClose0 (EngineHandle h)])).

(** [DriverUnload]. *)
Definition DriverUnload (g : NETGUARD_CONTEXT) (h : WFP_HANDLES)
    : NETGUARD_CONTEXT * list system_call :=
  (* Disable filtering *)
  let g := set_Enabled false g in
  (* Unregister WFP *)
  let t := snd (UnregisterWfpCallout h) in
  (* Delete symbolic link and device *)
  let t := t ++ [IoDeleteSymbolicLink] in
  (g, if DeviceObject h =? 0 then t else t ++ [IoDeleteDevice (DeviceObject h)]).

(** The result of [DriverEntry]: its status, the context and the handles it
    leaves, whether the dispatch routines were installed, and its calls. *)
Record DRIVER_ENTRY_RESULT := mkEntry {
  entry_status : Z;
  entry_Context : NETGUARD_CONTEXT;
  entry_handles : WFP_HANDLES;
  entry_dispatch : bool;
  entry_calls : list system_call
}.

Definition DriverEntry (sys : SYSTEM_ANSWERS) : DRIVER_ENTRY_RESULT :=
  (* Initialize context *)
  let g := DriverEntry_Context in
  let h := mkHandles 0 0 0 0 in
  (* Create device *)
  let '(status, device) := IoCreateDevice_answer sys in
  let h := mkHandles device (EngineHandle h) (CalloutId h) (FilterId h) in
  let t := [IoCreateDevice status device] in
  if negb (NT_SUCCESS status) then mkEntry status g h false t
  else
    (* Create symbolic link *)
    let status := IoCreateSymbolicLink_answer sys in
    let t := t ++ [IoCreateSymbolicLink status] in
    if negb (NT_SUCCESS status) then
      mkEntry status g h false (t ++ [IoDeleteDevice (DeviceObject h)])
    else
      (* Set up dispatch routines; register WFP callout *)
      let '(status, h', t') := RegisterWfpCallout sys h in
      if negb (NT_SUCCESS status) then
        mkEntry status g h' true
                (t ++ t' ++ [IoDeleteSymbolicLink; IoDeleteDevice (DeviceObject h')])
      else mkEntry (status_code STATUS_SUCCESS) g h' true (t ++ t').

(** ** Accounting of system resources *)

(** What the driver holds: the device object, the symbolic link, the engine
    session, the registered callout and the filter. *)
Record RESOURCES := mkResources {
  held_device : option Z;
  held_symlink : bool;
  held_engine : option Z;
  held_callout : option Z;
  held_filter : option Z
}.

Definition no_resources : RESOURCES := mkResources None false None None None.

(** The effect of one call on what is held.  [None]: the call uses or
    releases something that is not held, or acquires something twice. *)
Definition account (r : RESOURCES) (c : system_call) : option RESOURCES :=
  match c with
  | IoCreateDevice status device =>
      if NT_SUCCESS status then
        match held_device r with
        | None => Some (mkResources (Some device) (held_symlink r) (held_engine r)
                                    (held_callout r) (held_filter r))
        | Some _ => None
        end
      else Some r
  | IoCreateSymbolicLink status =>
      if NT_SUCCESS status then
        if held_symlink r then None
        else Some (mkResources (held_device r) true (held_engine r)
                               (held_callout r) (held_filter r))
      else Some r
  | IoDeleteSymbolicLink =>
      if held_symlink r then
        Some (mkResources (held_device r) false (held_engine r)
                          (held_callout r) (held_filter r))
      else None
  | IoDeleteDevice device =>
      if bool_decide (held_device r = Some device) then
        Some (mkResources None (held_symlink r) (held_engine r)
                          (held_callout r) (held_filter r))
      else None
  | FwpmEngineOpen0 status engine =>
      if NT_SUCCESS status then
        match held_engine r with
        | None => Some (mkResources (held_device r) (held_symlink r) (Some engine)
                                    (held_callout r) (held_filter r))
        | Some _ => None
        end
      else Some r
  | FwpmSubLayerAdd0 engine _ | FwpmCalloutAdd0 engine _ =>
      if bool_decide (held_engine r = Some engine) then Some r else None
  | FwpsCalloutRegister1 device status calloutId =>
      if bool_decide (held_device r = Some device) then
        if NT_SUCCESS status then
          match held_callout r with
          | None => Some (mkResources (held_device r) (held_symlink r) (held_engine r)
                                      (Some calloutId) (held_filter r))
          | Some _ => None
          end
        else Some r
      else None
  | FwpmFilterAdd0 engine status filterId =>
      if bool_decide (held_engine r = Some engine) then
        if NT_SUCCESS status then
          match held_filter r with
          | None => Some (mkResources (held_device r) (held_symlink r) (held_engine r)
                                      (held_callout r) (Some filterId))
          | Some _ => None
          end
        else Some r
      else None
  | FwpmFilterDeleteById0 engine filterId =>
      if bool_decide (held_engine r = Some engine)
         && bool_decide (held_filter r = Some filterId) then
        Some (mkResources (held_device r) (held_symlink r) (held_engine r)
                          (held_callout r) None)
      else None
  | FwpsCalloutUnregisterById0 calloutId =>
      if bool_decide (held_callout r = Some calloutId) then
        Some (mkResources (held_device r) (held_symlink r) (held_engine r)
                          None (held_filter r))
      else None
  | FwpmEngineClose0 engine =>
      if bool_decide (held_engine r = Some engine) then
        Some (mkResources (held_device r) (held_symlink r) None
                          (held_callout r) (held_filter r))
      else None
  end.

Fixpoint account_all (r : RESOURCES) (t : list system_call) : option RESOURCES :=
  match t with
  | [] => Some r
  | c :: rest =>
      match account r c with
      | Some r' => account_all r' rest
      | None => None
      end
  end.

(** Every step of the loading code went through: the two tolerated
    ALREADY_EXISTS answers count as such. *)
Definition registration_passes (sys : SYSTEM_ANSWERS) : bool :=
  NT_SUCCESS (fst (FwpmEngineOpen0_answer sys)) &&
  (NT_SUCCESS (FwpmSubLayerAdd0_answer sys)
   || (FwpmSubLayerAdd0_answer sys =? STATUS_FWP_ALREADY_EXISTS)) &&
  NT_SUCCESS (fst (FwpsCalloutRegister1_answer sys)) &&
  (NT_SUCCESS (FwpmCalloutAdd0_answer sys)
   || (FwpmCalloutAdd0_answer sys =? STATUS_FWP_ALREADY_EXISTS)) &&
  NT_SUCCESS (fst (FwpmFilterAdd0_answer sys)).

Definition loading_passes (sys : SYSTEM_ANSWERS) : bool :=
  NT_SUCCESS (fst (IoCreateDevice_answer sys)) &&
  NT_SUCCESS (IoCreateSymbolicLink_answer sys) &&
  registration_passes sys.

(** Answers of the system used as examples: adding the callout fails; every
    call goes through, the sublayer being there already. *)
Definition failing_callout_add : SYSTEM_ANSWERS :=
  mkAnswers (0, 100) 0 (0, 200) 0 (0, 7) (-5) (0, 9).

Definition passing_answers : SYSTEM_ANSWERS :=
  mkAnswers (0, 100) 0 (0, 200) STATUS_FWP_ALREADY_EXISTS (0, 7) 0 (0, 9).

(** ** Proof steps used more than once *)

Ltac in_list :=
  repeat first [apply list_elem_of_here | apply list_elem_of_further].

Ltac same_view_fields H :=
  destruct H; constructor; unfold pending in *; cbn in *; congruence.

(** * Classification *)

(** C8: while enforcement is disabled the callback returns PERMIT and the
    whole context (the three counters, the Pending Queue, the Registry) is
    the one it was called with. *)
Theorem disabled_passthrough g fv mv out now :
  Enabled g = false ->
  NetGuardClassifyFn g fv mv out now = (permit_action out, g).
Proof.
  intros Hoff. unfold NetGuardClassifyFn. rewrite Hoff. reflexivity.
Qed.

Lemma disabled_passthrough_witness :
  let g := step three_pending_Context disable_call in
  let out := mkClassifyOut FWP_ACTION_BLOCK 1 in
  Enabled g = false /\
  NetGuardClassifyFn g (mkIncoming 0x0A000001 443) (meta_of 100 path_a) out 5
  = (permit_action out, g).
Proof.
  intros g out.
  assert (Hoff : Enabled g = false) by (vm_compute; reflexivity).
  split; [exact Hoff | apply disabled_passthrough; exact Hoff].
Defined.

(** C9: a classification whose process id is 0 or 4 returns PERMIT and
    leaves the whole context unchanged (nothing queued, no counter moved),
    whatever the Registry holds and whether enforcement is enabled or not. *)
Theorem system_process_exemption g fv mv out now :
  classify_processId mv = 0 \/ classify_processId mv = 4 ->
  NetGuardClassifyFn g fv mv out now = (permit_action out, g).
Proof.
  intros Hpid. unfold NetGuardClassifyFn.
  destruct (Enabled g); cbn [negb]; [| reflexivity].
  cbv zeta. destruct Hpid as [-> | ->]; reflexivity.
Qed.

Lemma system_process_exemption_witness :
  (classify_processId (meta_of 4 path_a) = 0 \/
   classify_processId (meta_of 4 path_a) = 4) /\
  NetGuardClassifyFn registry_Context (mkIncoming 0x0A000001 443)
    (meta_of 4 path_a) (mkClassifyOut FWP_ACTION_BLOCK 1) 5
  = (permit_action (mkClassifyOut FWP_ACTION_BLOCK 1), registry_Context).
Proof.
  split; [right; reflexivity |].
  apply system_process_exemption. right. reflexivity.
Defined.

(** The lookup returns the flag of the first entry whose path compares
    equal, and fails exactly when no entry compares equal. *)
Lemma IsAppInList_scan_Some apps path b :
  IsAppInList_scan apps path = Some b <->
  exists i a, apps !! i = Some a /\ _wcsicmp (appPath a) path = 0 /\
              blocked a = b /\
              forall j a', (j < i)%nat -> apps !! j = Some a' ->
                           _wcsicmp (appPath a') path <> 0.
Proof.
  induction apps as [| a0 rest IH]; cbn [IsAppInList_scan].
  - split; [discriminate |]. intros (i & a & Hl & _). destruct i; discriminate.
  - destruct (Z.eqb_spec (_wcsicmp (appPath a0) path) 0) as [Heq | Hne].
    + split.
      * intros [= <-]. exists 0%nat, a0. repeat split; auto. intros j a' Hj. lia.
      * intros (i & a & Hl & Hc & Hb & Hfirst). destruct i as [| i].
        -- cbn in Hl. congruence.
        -- exfalso. apply (Hfirst 0%nat a0); [lia | reflexivity | exact Heq].
    + rewrite IH. split.
      * intros (i & a & Hl & Hc & Hb & Hfirst). exists (S i), a.
        repeat split; auto. intros [| j] a' Hj Hl'.
        -- cbn in Hl'. congruence.
        -- apply (Hfirst j); [lia | exact Hl'].
      * intros (i & a & Hl & Hc & Hb & Hfirst). destruct i as [| i].
        -- cbn in Hl. congruence.
        -- exists i, a. repeat split; auto. intros j a' Hj Hl'.
           apply (Hfirst (S j)); [lia | exact Hl'].
Qed.

Lemma IsAppInList_scan_None apps path :
  IsAppInList_scan apps path = None <->
  forall a, a ∈ apps -> _wcsicmp (appPath a) path <> 0.
Proof.
  induction apps as [| a0 rest IH]; cbn [IsAppInList_scan].
  - split; [| reflexivity]. intros _ a Ha. inversion Ha.
  - destruct (Z.eqb_spec (_wcsicmp (appPath a0) path) 0) as [Heq | Hne].
    + split; [discriminate |]. intros H. exfalso. apply (H a0); [left | exact Heq].
    + rewrite IH. split.
      * intros H a Ha. inversion Ha; subst; auto.
      * intros H a Ha. apply H. right. exact Ha.
Qed.

(** C3: with enforcement enabled and a process id other than 0 and 4, a
    path that matches an entry of the Registry is decided by the first entry
    of [registry g] that matches it, the entry at which the scan of
    [IsAppInList] breaks: if that entry is a Block entry the verdict is BLOCK
    and [BlockedConnections] gains one, if it is an Allow entry the verdict is
    PERMIT and [AllowedConnections] gains one, whatever later entries say.  In
    both cases [AddPendingConnection] is not reached: the queue array, its
    count, its event and [TotalConnections] are those of the call, whatever
    they were. *)
Theorem registry_precedence g fv mv out now i app :
  Enabled g = true ->
  classify_processId mv <> 0 -> classify_processId mv <> 4 ->
  registry g !! i = Some app ->
  _wcsicmp (appPath app) (classify_processPath mv) = 0 ->
  (forall j a', (j < i)%nat -> registry g !! j = Some a' ->
                _wcsicmp (appPath a') (classify_processPath mv) <> 0) ->
  let r := NetGuardClassifyFn g fv mv out now in
  (blocked app <> 0 ->
     r = (block_action (permit_action out),
          set_BlockedConnections (wrap64 (BlockedConnections g + 1)) g) /\
     actionType (fst r) = FWP_ACTION_BLOCK) /\
  (blocked app = 0 ->
     r = (permit_action out,
          set_AllowedConnections (wrap64 (AllowedConnections g + 1)) g) /\
     actionType (fst r) = FWP_ACTION_PERMIT) /\
  PendingConnections (snd r) = PendingConnections g /\
  PendingCount (snd r) = PendingCount g /\
  PendingEvent (snd r) = PendingEvent g /\
  pending (snd r) = pending g /\
  TotalConnections (snd r) = TotalConnections g.
Proof.
  intros Hon Hn0 Hn4 Hentry Hmatch Hfirst r. subst r.
  assert (Hlook : IsAppInList g (classify_processPath mv) = Some (blocked app)).
  { unfold IsAppInList. apply IsAppInList_scan_Some.
    exists i, app. repeat split; assumption. }
  unfold NetGuardClassifyFn.
  rewrite Hon. cbn [negb]. cbv zeta.
  apply Z.eqb_neq in Hn0, Hn4. rewrite Hn0, Hn4. cbn [orb].
  rewrite Hlook.
  destruct (Z.eqb_spec (blocked app) 0) as [Hz | Hnz]; cbn [negb fst snd].
  - repeat split; try reflexivity; intros; congruence.
  - repeat split; try reflexivity; intros; congruence.
Qed.

Lemma registry_precedence_witness :
  let g := registry_Context in
  let fv := mkIncoming 0x0A000001 443 in
  let mv := meta_of 100 [98; 46; 101; 120; 101] in
  let out := mkClassifyOut FWP_ACTION_PERMIT 1 in
  (Enabled g = true /\ classify_processId mv <> 0 /\ classify_processId mv <> 4 /\
   (blocked <$> registry g) = [TRUE; FALSE] /\
   (exists app, registry g !! 1%nat = Some app /\ blocked app = 0 /\
                _wcsicmp (appPath app) (classify_processPath mv) = 0)) /\
  NetGuardClassifyFn g fv mv out 9
  = (permit_action out,
     set_AllowedConnections (wrap64 (AllowedConnections g + 1)) g).
Proof.
  intros g fv mv out.
  assert (Hon : Enabled g = true) by reflexivity.
  assert (Hn0 : classify_processId mv <> 0) by (vm_compute; discriminate).
  assert (Hn4 : classify_processId mv <> 4) by (vm_compute; discriminate).
  destruct (registry g !! 1%nat) as [app |] eqn:Hentry; [| discriminate Hentry].
  assert (Hflag : blocked app = 0).
  { revert Hentry. vm_compute. intros [= <-]. reflexivity. }
  assert (Hmatch : _wcsicmp (appPath app) (classify_processPath mv) = 0).
  { revert Hentry. vm_compute. intros [= <-]. reflexivity. }
  assert (Hfirst : forall j a', (j < 1)%nat -> registry g !! j = Some a' ->
                     _wcsicmp (appPath a') (classify_processPath mv) <> 0).
  { intros j a' Hj. replace j with 0%nat by lia.
    vm_compute. intros [= <-]. discriminate. }
  split.
  - split; [exact Hon |]. split; [exact Hn0 |]. split; [exact Hn4 |].
    split; [reflexivity |]. exists app. auto.
  - destruct (registry_precedence g fv mv out 9 1%nat app
                Hon Hn0 Hn4 Hentry Hmatch Hfirst) as (_ & Hp & _).
    apply Hp. exact Hflag.
Defined.

(** C3 as stated fails when a path has two entries: "a.exe" is registered as
    allowed and then as blocked, so the path has a Block entry, yet the scan
    stops at the Allow entry before it: the verdict is PERMIT and
    [BlockedConnections] does not move. *)
Lemma block_entry_behind_allow_entry :
  let g := conflicting_Context in
  let mv := meta_of 100 path_a in
  let r := NetGuardClassifyFn g (mkIncoming 0x0A000001 443) mv
             (mkClassifyOut FWP_ACTION_PERMIT 1) 9 in
  run DriverEntry_Context conflicting_calls = g /\
  Enabled g = true /\
  classify_processId mv <> 0 /\ classify_processId mv <> 4 /\
  Exists (fun a => _wcsicmp (appPath a) (classify_processPath mv) = 0 /\
                   blocked a <> 0) (registry g) /\
  actionType (fst r) <> FWP_ACTION_BLOCK /\
  BlockedConnections (snd r) <> wrap64 (BlockedConnections g + 1).
Proof.
  cbv zeta.
  split; [vm_compute; reflexivity |].
  split; [reflexivity |].
  split; [vm_compute; discriminate |].
  split; [vm_compute; discriminate |].
  split.
  - apply Exists_exists.
    destruct (registry conflicting_Context !! 1%nat) as [app |] eqn:Hentry;
      [| discriminate Hentry].
    exists app.
    split; [eapply list_elem_of_lookup_2; exact Hentry |].
    revert Hentry. vm_compute. intros [= <-]. split; [reflexivity | discriminate].
  - vm_compute. split; discriminate.
Qed.

(** * Admission to the Pending Queue *)

Lemma AddPendingConnection_full g pid path ip port now :
  (MAX_PENDING_CONNECTIONS <= PendingCount g)%nat ->
  AddPendingConnection g pid path ip port now = (0, g).
Proof.
  intros Hfull. unfold AddPendingConnection.
  destruct (Nat.ltb_spec (PendingCount g) MAX_PENDING_CONNECTIONS); [lia | reflexivity].
Qed.

Lemma AddPendingConnection_free g pid path ip port now :
  (PendingCount g < MAX_PENDING_CONNECTIONS)%nat ->
  AddPendingConnection g pid path ip port now
  = (wrap64 (TotalConnections g + 1),
     mkContext (Enabled g)
       (<[PendingCount g := new_connection g pid path ip port now]> (PendingConnections g))
       (S (PendingCount g)) true (AllowedApps g) (AllowedCount g)
       (wrap64 (TotalConnections g + 1)) (BlockedConnections g) (AllowedConnections g)).
Proof.
  intros Hfree. unfold AddPendingConnection.
  destruct (Nat.ltb_spec (PendingCount g) MAX_PENDING_CONNECTIONS); [reflexivity | lia].
Qed.

Lemma pending_append g x :
  (PendingCount g < length (PendingConnections g))%nat ->
  take (S (PendingCount g)) (<[PendingCount g := x]> (PendingConnections g))
  = pending g ++ [x].
Proof.
  intros Hlt. unfold pending.
  rewrite (take_S_r _ _ x) by (apply list_lookup_insert_eq; exact Hlt).
  rewrite take_insert_ge by lia. reflexivity.
Qed.

Lemma length_pending g :
  ctx_wf g -> length (pending g) = PendingCount g.
Proof.
  intros (Hlen & Hcnt & _). unfold pending. rewrite length_take. lia.
Qed.

(** C1, what the code does in place of the BLOCK the claim and the comments
    of the source ask for ("blocks unknown applications until the user
    approves them", "add to pending and block temporarily"): with enforcement
    enabled, no Registry entry for the path and the queue holding its full
    capacity, [AddPendingConnection] returns 0, the test [connId > 0] fails
    and the default verdict PERMIT stays in place.  The callback returns the
    context it was called with: no counter moves, no entry is created and the
    queue still holds exactly [MAX_PENDING_CONNECTIONS] entries. *)
Theorem queue_full_passthrough g fv mv out now :
  ctx_wf g ->
  Enabled g = true ->
  IsAppInList g (classify_processPath mv) = None ->
  PendingCount g = MAX_PENDING_CONNECTIONS ->
  NetGuardClassifyFn g fv mv out now = (permit_action out, g) /\
  length (pending g) = MAX_PENDING_CONNECTIONS.
Proof.
  intros Hwf Hon Hlook Hfull. split.
  - unfold NetGuardClassifyFn. rewrite Hon. cbn [negb]. cbv zeta.
    destruct (_ || _); [reflexivity |].
    rewrite Hlook, AddPendingConnection_full by lia. reflexivity.
  - rewrite length_pending by assumption. exact Hfull.
Qed.

Lemma saturated_Context_wf : ctx_wf saturated_Context.
Proof. repeat split; vm_compute; first [reflexivity | lia]. Qed.

Lemma queue_full_passthrough_witness :
  let mv := meta_of 100 path_B in
  let out := mkClassifyOut FWP_ACTION_PERMIT 1 in
  (Enabled saturated_Context = true /\
   IsAppInList saturated_Context (classify_processPath mv) = None /\
   PendingCount saturated_Context = MAX_PENDING_CONNECTIONS) /\
  NetGuardClassifyFn saturated_Context (mkIncoming 0x0A000001 443) mv out 300
  = (permit_action out, saturated_Context).
Proof.
  intros mv out.
  assert (Hl : IsAppInList saturated_Context (classify_processPath mv) = None)
    by (vm_compute; reflexivity).
  split; [split; [reflexivity | split; [exact Hl | reflexivity]] |].
  apply (queue_full_passthrough saturated_Context (mkIncoming 0x0A000001 443) mv out 300
           saturated_Context_wf eq_refl Hl eq_refl).
Defined.

(** C1 fails on the saturated queue.  After IOCTL_NETGUARD_ENABLE and 256
    unknown callers, which fill the queue, the 257th unknown caller finds
    enforcement enabled, no Registry entry for its path and the queue at
    capacity; [NetGuardClassifyFn] answers PERMIT and returns the context
    unchanged: the caller is not blocked and [BlockedConnections] is not
    incremented.  No entry is created and the queue keeps its 256 entries,
    as the claim says. *)
Lemma queue_full_not_blocked :
  let mv := meta_of 100 path_B in
  let out := mkClassifyOut FWP_ACTION_PERMIT 1 in
  let r := NetGuardClassifyFn saturated_Context (mkIncoming 0x0A000001 443) mv
             out 300 in
  run DriverEntry_Context saturating_calls = saturated_Context /\
  Enabled saturated_Context = true /\
  IsAppInList saturated_Context (classify_processPath mv) = None /\
  PendingCount saturated_Context = MAX_PENDING_CONNECTIONS /\
  length (pending saturated_Context) = MAX_PENDING_CONNECTIONS /\
  r = (permit_action out, saturated_Context) /\
  actionType (fst r) <> FWP_ACTION_BLOCK /\
  BlockedConnections (snd r) <> wrap64 (BlockedConnections saturated_Context + 1).
Proof.
  cbv zeta.
  split; [vm_compute; reflexivity |].
  split; [reflexivity |].
  split; [vm_compute; reflexivity |].
  split; [reflexivity |].
  split; [vm_compute; reflexivity |].
  split; [vm_compute; reflexivity |].
  vm_compute. split; discriminate.
Qed.

(** * Resolution of a pending connection *)

Lemma respond_at_fields g i c a :
  let g' := respond_at g i c a in
  Enabled g' = Enabled g /\ PendingEvent g' = PendingEvent g /\
  AllowedApps g' = AllowedApps g /\ AllowedCount g' = AllowedCount g /\
  TotalConnections g' = TotalConnections g /\
  BlockedConnections g' = BlockedConnections g /\
  AllowedConnections g' = AllowedConnections g /\
  PendingCount g' = (PendingCount g - 1)%nat.
Proof. cbv zeta. unfold respond_at, set_Pending. cbn. repeat split. Qed.

Lemma length_RtlMoveMemory_slots {A} (a : list A) dst n :
  (dst + 1 + n <= length a)%nat ->
  length (RtlMoveMemory_slots a dst (dst + 1) n) = length a.
Proof.
  intros Hle. unfold RtlMoveMemory_slots.
  rewrite !length_app, !length_take, !length_drop. lia.
Qed.

Lemma respond_at_length g i c a :
  (PendingCount g <= length (PendingConnections g))%nat ->
  (i < PendingCount g)%nat ->
  length (PendingConnections (respond_at g i c a)) = length (PendingConnections g).
Proof.
  intros Hcnt Hi. unfold respond_at, set_Pending. cbn [PendingConnections].
  destruct (Nat.ltb_spec i (PendingCount g - 1)).
  - rewrite length_RtlMoveMemory_slots; rewrite length_insert; lia.
  - apply length_insert.
Qed.

(** The removal compacts the queue: the entries before slot [i] stay, the
    entries after it move down by one slot. *)
Lemma respond_at_pending g i c a :
  (PendingCount g <= length (PendingConnections g))%nat ->
  (i < PendingCount g)%nat ->
  pending (respond_at g i c a) = delete i (pending g).
Proof.
  intros Hcnt Hi. unfold pending, respond_at, set_Pending.
  cbn [PendingConnections PendingCount].
  rewrite delete_take_drop, take_take, Nat.min_l by lia.
  set (P := PendingConnections g) in *. set (n := PendingCount g) in *.
  destruct (Nat.ltb_spec i (n - 1)) as [Hmid | Hlast].
  - unfold RtlMoveMemory_slots.
    rewrite take_app, take_take, Nat.min_r by lia.
    rewrite take_insert_ge by lia. f_equal.
    rewrite length_take, Nat.min_l by lia.
    rewrite take_app_le by (rewrite length_take, length_drop, length_insert; lia).
    rewrite take_take, Nat.min_l by lia.
    rewrite drop_insert_lt by lia.
    rewrite take_drop_commute. f_equal; [lia |]. f_equal. lia.
  - assert (n - 1 = i)%nat as -> by lia.
    rewrite take_insert_ge by lia.
    rewrite (drop_ge (take n P)) by (rewrite length_take; lia).
    rewrite app_nil_r. reflexivity.
Qed.

Lemma not_in_pending_ids g id :
  (id ∉ pending_ids g) <->
  (forall j c, (j < PendingCount g)%nat -> PendingConnections g !! j = Some c ->
               connectionId c <> id).
Proof.
  unfold pending_ids, pending. split.
  - intros Hnot j c Hj Hl Heq. apply Hnot. subst id.
    apply list_elem_of_fmap_2. apply (list_elem_of_lookup_2 _ j).
    rewrite lookup_take_lt by exact Hj. exact Hl.
  - intros Hall Hin. apply list_elem_of_fmap in Hin as (c & -> & Hc).
    apply list_elem_of_lookup in Hc as (j & Hj).
    apply lookup_take_Some in Hj as (Hl & Hlt). exact (Hall j c Hlt Hl eq_refl).
Qed.

(** The loop stops at the first slot below [PendingCount] holding the id, or
    runs through without touching the context. *)
Lemma respond_loop_spec n i g id a :
  (PendingCount g <= length (PendingConnections g))%nat ->
  (n + i = PendingCount g)%nat ->
  (forall j c, (j < i)%nat -> PendingConnections g !! j = Some c ->
               connectionId c <> id) ->
  ((id ∉ pending_ids g) /\ respond_loop n i g id a = g) \/
  (exists k c, (k < PendingCount g)%nat /\
               PendingConnections g !! k = Some c /\ connectionId c = id /\
               (forall j c', (j < k)%nat -> PendingConnections g !! j = Some c' ->
                             connectionId c' <> id) /\
               respond_loop n i g id a = respond_at g k c a).
Proof.
  intros Hcnt. revert i. induction n as [| n IH]; intros i Hsum Hbefore.
  - left. split; [| reflexivity]. apply not_in_pending_ids.
    intros j c Hj. apply Hbefore. lia.
  - cbn [respond_loop].
    destruct (lookup_lt_is_Some_2 (PendingConnections g) i) as [c Hc]; [lia |].
    rewrite Hc. destruct (Z.eqb_spec (connectionId c) id) as [Heq | Hne].
    + right. exists i, c. repeat split; auto. lia.
    + apply IH; [lia |]. intros j c' Hj Hl.
      destruct (decide (j = i)) as [-> | Hji].
      * congruence.
      * apply (Hbefore j); [lia | exact Hl].
Qed.

Lemma respond_loop_not_found g id a :
  (PendingCount g <= length (PendingConnections g))%nat ->
  id ∉ pending_ids g ->
  respond_loop (PendingCount g) 0 g id a = g.
Proof.
  intros Hcnt Hnot.
  destruct (respond_loop_spec (PendingCount g) 0 g id a Hcnt) as [[_ H] | H];
    [lia | intros; lia | exact H |].
  destruct H as (k & c & Hk & Hl & Heq & _).
  exfalso. exact (proj1 (not_in_pending_ids g id) Hnot k c Hk Hl Heq).
Qed.

Lemma respond_loop_found g id a :
  (PendingCount g <= length (PendingConnections g))%nat ->
  id ∈ pending_ids g ->
  exists k c, pending g !! k = Some c /\ connectionId c = id /\
    (forall j c', (j < k)%nat -> pending g !! j = Some c' -> connectionId c' <> id) /\
    respond_loop (PendingCount g) 0 g id a = respond_at g k c a /\
    (k < PendingCount g)%nat /\
    pending (respond_at g k c a) = delete k (pending g).
Proof.
  intros Hcnt Hin.
  destruct (respond_loop_spec (PendingCount g) 0 g id a Hcnt) as [[Hnot _] | H];
    [lia | intros; lia | contradiction |].
  destruct H as (k & c & Hk & Hl & Heq & Hfirst & Hrun).
  exists k, c. unfold pending at 1 2.
  rewrite lookup_take_lt by exact Hk. repeat split; auto.
  - intros j c' Hj Hl'. apply lookup_take_Some in Hl' as (Hl' & _).
    exact (Hfirst j c' Hj Hl').
  - apply respond_at_pending; assumption.
Qed.

(** * The transitions of the context *)

Lemma NetGuardClassifyFn_effect g fv mv out now :
  effect g (snd (NetGuardClassifyFn g fv mv out now)).
Proof.
  unfold NetGuardClassifyFn.
  destruct (Enabled g); cbn [negb]; [| constructor]. cbv zeta.
  destruct (_ || _); [constructor |].
  destruct (IsAppInList g _) as [b |].
  - destruct (negb _); constructor.
  - destruct (Nat.ltb_spec (PendingCount g) MAX_PENDING_CONNECTIONS) as [Hfree | Hfull].
    + destruct (AddPendingConnection g _ _ _ _ now) as [id g'] eqn:Hadd.
      assert (g' = snd (AddPendingConnection g (classify_processId mv)
                          (classify_processPath mv) (IP_REMOTE_ADDRESS fv)
                          (IP_REMOTE_PORT fv) now)) as -> by (rewrite Hadd; reflexivity).
      destruct (0 <? id); apply effect_queue; exact Hfree.
    + rewrite AddPendingConnection_full by lia. constructor.
Qed.

Lemma NetGuardDeviceControl_effect g irp :
  (PendingCount g <= length (PendingConnections g))%nat ->
  effect g (snd (NetGuardDeviceControl g irp)).
Proof.
  intros Hcnt. unfold NetGuardDeviceControl. cbv zeta.
  destruct (_ =? IOCTL_NETGUARD_ENABLE); [constructor |].
  destruct (_ =? IOCTL_NETGUARD_DISABLE); [constructor |].
  destruct (_ =? IOCTL_NETGUARD_GET_PENDING); [destruct (_ && _); constructor |].
  destruct (_ =? IOCTL_NETGUARD_RESPOND).
  { destruct (_ <=? _)%nat; [| constructor]. cbn [snd].
    set (id := le_value _). set (a := nth _ _ _).
    destruct (respond_loop_spec (PendingCount g) 0 g id a Hcnt)
      as [[_ ->] | (k & c & Hk & Hl & _ & _ & ->)]; [lia | intros; lia | |].
    - constructor.
    - apply effect_resolve; assumption. }
  destruct (_ =? IOCTL_NETGUARD_ADD_ALLOWED); [| constructor].
  destruct (_ <=? _)%nat; [| constructor].
  destruct (Nat.ltb_spec (AllowedCount g) MAX_ALLOWED_APPS); [| constructor].
  apply effect_registry. assumption.
Qed.

Lemma step_effect g c :
  (PendingCount g <= length (PendingConnections g))%nat ->
  effect g (step g c).
Proof.
  intros Hcnt. destruct c as [fv mv out now | irp]; cbn [step].
  - apply NetGuardClassifyFn_effect.
  - apply NetGuardDeviceControl_effect. exact Hcnt.
Qed.

Lemma effect_wf g g' : ctx_wf g -> effect g g' -> ctx_wf g'.
Proof.
  intros (HlenP & HcntP & HlenA & HcntA) Heff.
  destruct Heff as [| b | | | app Hfree | pid path ip port now Hfree | k c a Hk Hl];
    unfold ctx_wf; try (repeat split; assumption).
  - cbn. rewrite length_insert. repeat split; auto.
  - rewrite AddPendingConnection_free by exact Hfree. cbn.
    rewrite length_insert. repeat split; auto.
  - destruct (respond_at_fields g k c a) as (_ & _ & -> & -> & _ & _ & _ & ->).
    rewrite respond_at_length by lia. repeat split; auto. lia.
Qed.

Lemma DriverEntry_Context_wf : ctx_wf DriverEntry_Context.
Proof.
  unfold ctx_wf, DriverEntry_Context. cbn [PendingConnections PendingCount AllowedApps AllowedCount].
  rewrite !length_replicate. repeat split; lia.
Qed.

(** The example contexts are reached from [DriverEntry]. *)
Lemma example_contexts_reached :
  run DriverEntry_Context saturating_calls = saturated_Context /\
  run DriverEntry_Context registry_calls = registry_Context /\
  run DriverEntry_Context one_pending_calls = one_pending_Context /\
  run DriverEntry_Context three_pending_calls = three_pending_Context.
Proof. repeat split; vm_compute; reflexivity. Qed.

Lemma run_wf g cs : ctx_wf g -> ctx_wf (run g cs).
Proof.
  revert g. induction cs as [| c cs IH]; intros g Hwf; [exact Hwf |].
  cbn. apply IH. apply (effect_wf g); [exact Hwf |].
  apply step_effect. destruct Hwf as (-> & ? & _). assumption.
Qed.

(** A transition appends at most one entry; it does so exactly when it moves
    [TotalConnections], and the entry carries the incremented counter. *)
Lemma effect_queued g g' :
  ctx_wf g -> effect g g' ->
  (queued_by g g' = [] /\ TotalConnections g' = TotalConnections g /\
   (pending g' = pending g \/ exists k, pending g' = delete k (pending g))) \/
  (exists conn, queued_by g g' = [conn] /\
     connectionId conn = wrap64 (TotalConnections g + 1) /\
     TotalConnections g' = wrap64 (TotalConnections g + 1) /\
     pending g' = pending g ++ [conn]).
Proof.
  intros Hwf Heff. pose proof Hwf as (HlenP & HcntP & _).
  assert (Hsame : drop (PendingCount g) (take (PendingCount g) (PendingConnections g)) = []).
  { apply drop_ge. rewrite length_take. lia. }
  destruct Heff as [| b | | | app Hfree | pid path ip port now Hfree | k c a Hk Hl];
    try (left; unfold queued_by; cbn; auto; fail).
  - right. exists (new_connection g pid path ip port now).
    rewrite AddPendingConnection_free by exact Hfree.
    unfold queued_by, pending at 1. cbn.
    rewrite pending_append by lia.
    rewrite drop_app_length' by (rewrite length_pending; auto).
    repeat split.
  - left. destruct (respond_at_fields g k c a) as (_ & _ & _ & _ & HT & _ & _ & Hn).
    unfold queued_by. rewrite Hn. split; [| split].
    + apply drop_ge. rewrite length_take. lia.
    + exact HT.
    + right. exists k. apply respond_at_pending; lia.
Qed.

(** * Runs: the id counter *)

Lemma run_app g cs cs' : run g (cs ++ cs') = run (run g cs) cs'.
Proof. unfold run. apply fold_left_app. Qed.

Lemma queued_app g cs cs' :
  queued g (cs ++ cs') = queued g cs ++ queued (run g cs) cs'.
Proof.
  revert g. induction cs as [| c cs IH]; intros g; [reflexivity |].
  cbn. rewrite IH, app_assoc. reflexivity.
Qed.

Lemma wrap64_range z : 0 <= wrap64 z < 2 ^ 64.
Proof. unfold wrap64. apply Z.mod_pos_bound. reflexivity. Qed.

Lemma wrap64_small z : 0 <= z < 2 ^ 64 -> wrap64 z = z.
Proof. intros H. unfold wrap64. apply Z.mod_small. exact H. Qed.

Lemma step_wf g c : ctx_wf g -> ctx_wf (step g c).
Proof.
  intros Hwf. apply (effect_wf g); [exact Hwf |].
  apply step_effect. destruct Hwf as (-> & ? & _). assumption.
Qed.

Lemma step_queued g c :
  ctx_wf g ->
  (queued_by g (step g c) = [] /\
   TotalConnections (step g c) = TotalConnections g /\
   (pending (step g c) = pending g \/
    exists k, pending (step g c) = delete k (pending g))) \/
  (exists conn, queued_by g (step g c) = [conn] /\
     connectionId conn = wrap64 (TotalConnections g + 1) /\
     TotalConnections (step g c) = wrap64 (TotalConnections g + 1) /\
     pending (step g c) = pending g ++ [conn]).
Proof.
  intros Hwf. apply effect_queued; [exact Hwf |].
  apply step_effect. destruct Hwf as (-> & ? & _). assumption.
Qed.

(** [TotalConnections] counts the entries ever appended, modulo [2^64]. *)
Lemma run_TotalConnections g cs :
  ctx_wf g -> 0 <= TotalConnections g < 2 ^ 64 ->
  TotalConnections (run g cs)
  = wrap64 (TotalConnections g + Z.of_nat (length (queued g cs))).
Proof.
  revert g. induction cs as [| c cs IH]; intros g Hwf Hr.
  - cbn. rewrite Z.add_0_r, wrap64_small; auto.
  - cbn [run fold_left queued]. fold (run (step g c) cs).
    pose proof (step_wf g c Hwf) as Hwf'.
    destruct (step_queued g c Hwf) as [(Hq & HT & _) | (conn & Hq & _ & HT & _)];
      rewrite Hq.
    + rewrite IH, HT; auto. rewrite HT. exact Hr.
    + rewrite IH, HT; auto; [| rewrite HT; apply wrap64_range].
      cbn [app length]. unfold wrap64. rewrite Zplus_mod_idemp_l.
      f_equal. lia.
Qed.

(** As long as the counter does not wrap, the ids handed out along a run are
    the consecutive integers after the starting value of the counter. *)
Lemma run_queued_ids g cs :
  ctx_wf g -> 0 <= TotalConnections g ->
  TotalConnections g + Z.of_nat (length (queued g cs)) < 2 ^ 64 ->
  connectionId <$> queued g cs
  = seqZ (TotalConnections g + 1) (Z.of_nat (length (queued g cs))).
Proof.
  revert g. induction cs as [| c cs IH]; intros g Hwf Hr Hbound; [reflexivity |].
  cbn [queued] in *.
  pose proof (step_wf g c Hwf) as Hwf'.
  destruct (step_queued g c Hwf) as [(Hq & HT & _) | (conn & Hq & Hid & HT & _)];
    rewrite Hq in *; cbn [app length] in *.
  - rewrite IH, HT; auto; rewrite HT; auto.
  - rewrite wrap64_small in Hid, HT by lia.
    rewrite fmap_cons, IH, HT, Hid; auto; try lia.
    rewrite (seqZ_cons _ (Z.of_nat (S _))) by lia.
    f_equal. f_equal; lia.
Qed.

(** In general the ids handed out along a run are the successive values of
    the 64-bit counter. *)
Lemma run_queued_ids_wrap g cs :
  ctx_wf g -> 0 <= TotalConnections g < 2 ^ 64 ->
  connectionId <$> queued g cs
  = (fun k => wrap64 (TotalConnections g + k))
      <$> seqZ 1 (Z.of_nat (length (queued g cs))).
Proof.
  revert g. induction cs as [| c cs IH]; intros g Hwf Hr; [reflexivity |].
  cbn [queued].
  pose proof (step_wf g c Hwf) as Hwf'.
  destruct (step_queued g c Hwf) as [(Hq & HT & _) | (conn & Hq & Hid & HT & _)];
    rewrite Hq; cbn [app length].
  - rewrite IH, HT; auto. rewrite HT. exact Hr.
  - rewrite fmap_cons, IH, HT, Hid; auto; [| rewrite HT; apply wrap64_range].
    rewrite (seqZ_cons _ (Z.of_nat (S _))) by lia. rewrite fmap_cons.
    f_equal.
    replace (Z.pred (Z.of_nat (S (length (queued (step g c) cs)))))
      with (Z.of_nat (length (queued (step g c) cs))) by lia.
    change (Z.succ 1) with (1 + 1). rewrite <- fmap_add_seqZ, <- list_fmap_compose.
    apply list_fmap_ext. intros _ k _. cbn. unfold wrap64.
    rewrite Zplus_mod_idemp_l. f_equal. lia.
Qed.

Lemma StronglySorted_delete (l : list Z) k :
  StronglySorted Z.lt l -> StronglySorted Z.lt (delete k l).
Proof.
  intros Hs. destruct (l !! k) as [x |] eqn:Hx.
  - rewrite delete_take_drop. rewrite <- (take_drop_middle l k x Hx) in Hs.
    apply StronglySorted_app in Hs as (Hlt & Hs1 & Hs2).
    apply StronglySorted_cons in Hs2 as (_ & Hs2).
    apply StronglySorted_app_2; auto.
    intros x1 x2 H1 H2. apply Hlt; [exact H1 | right; exact H2].
  - rewrite delete_take_drop.
    apply lookup_ge_None in Hx.
    rewrite take_ge, drop_ge, app_nil_r by lia. exact Hs.
Qed.

Lemma StronglySorted_lt_NoDup (l : list Z) : StronglySorted Z.lt l -> NoDup l.
Proof.
  induction 1 as [| x l Hs IH Hall]; constructor; [| exact IH].
  intros Hin. rewrite Forall_forall in Hall. specialize (Hall x Hin). lia.
Qed.

Lemma step_ids_inv g c :
  ctx_wf g -> 0 <= TotalConnections g ->
  TotalConnections g + Z.of_nat (length (queued_by g (step g c))) < 2 ^ 64 ->
  ids_inv g -> ids_inv (step g c).
Proof.
  intros Hwf Hr Hbound (Hs & Hall). unfold ids_inv, pending_ids in *.
  destruct (step_queued g c Hwf)
    as [(Hq & HT & [Hp | (k & Hp)]) | (conn & Hq & Hid & HT & Hp)];
    rewrite Hp, HT.
  - split; assumption.
  - rewrite list_fmap_delete. split.
    + apply StronglySorted_delete. exact Hs.
    + apply Forall_delete. exact Hall.
  - rewrite Hq in Hbound. cbn [length] in Hbound.
    rewrite wrap64_small in Hid |- * by lia.
    rewrite fmap_app. cbn [fmap list_fmap]. rewrite Hid. split.
    + apply StronglySorted_app_2; auto.
      * intros x1 x2 H1 H2. apply list_elem_of_singleton in H2 as ->.
        rewrite Forall_forall in Hall. specialize (Hall x1 H1). lia.
      * repeat constructor.
    + apply Forall_app. split.
      * eapply Forall_impl; [exact Hall |]. cbn. intros; lia.
      * repeat constructor; lia.
Qed.

Lemma run_ids_inv g cs :
  ctx_wf g -> 0 <= TotalConnections g ->
  TotalConnections g + Z.of_nat (length (queued g cs)) < 2 ^ 64 ->
  ids_inv g -> ids_inv (run g cs).
Proof.
  revert g. induction cs as [| c cs IH]; intros g Hwf Hr Hbound Hinv; [exact Hinv |].
  cbn [run fold_left]. fold (run (step g c) cs).
  cbn [queued] in Hbound. rewrite length_app in Hbound.
  pose proof (step_wf g c Hwf) as Hwf'.
  assert (Hinv' : ids_inv (step g c)) by (apply step_ids_inv; auto; lia).
  apply IH; auto.
  - destruct (step_queued g c Hwf) as [(_ & -> & _) | (conn & _ & _ & -> & _)];
      [exact Hr | apply wrap64_range].
  - destruct (step_queued g c Hwf) as [(Hq & -> & _) | (conn & Hq & _ & -> & _)];
      rewrite Hq in Hbound; cbn [length] in Hbound; [lia |].
    rewrite wrap64_small by lia. lia.
Qed.

Lemma DriverEntry_Context_ids_inv : ids_inv DriverEntry_Context.
Proof. split; constructor. Qed.

(** In every context reached from [DriverEntry] before the counter wraps the
    queued ids are distinct and increase in queue order. *)
Lemma run_pending_ids_NoDup cs :
  Z.of_nat (length (queued DriverEntry_Context cs)) < 2 ^ 64 ->
  StronglySorted Z.lt (pending_ids (run DriverEntry_Context cs)) /\
  NoDup (pending_ids (run DriverEntry_Context cs)).
Proof.
  intros Hbound.
  destruct (run_ids_inv DriverEntry_Context cs) as [Hs _];
    [exact DriverEntry_Context_wf | cbn; lia | cbn; lia
    | exact DriverEntry_Context_ids_inv |].
  split; [exact Hs | apply StronglySorted_lt_NoDup; exact Hs].
Qed.

Lemma StronglySorted_seqZ m (n : nat) : StronglySorted Z.lt (seqZ m (Z.of_nat n)).
Proof.
  induction n as [| n IH]; [constructor |].
  rewrite seqZ_S. apply StronglySorted_app_2; [| exact IH | repeat constructor].
  intros x1 x2 H1 H2. apply list_elem_of_singleton in H2 as ->.
  apply elem_of_seqZ in H1. lia.
Qed.

Lemma classify_unknown g fv mv out now :
  Enabled g = true ->
  classify_processId mv <> 0 -> classify_processId mv <> 4 ->
  IsAppInList g (classify_processPath mv) = None ->
  (PendingCount g < MAX_PENDING_CONNECTIONS)%nat ->
  0 <= TotalConnections g < 2 ^ 64 - 1 ->
  NetGuardClassifyFn g fv mv out now
  = (block_action (permit_action out),
     snd (AddPendingConnection g (classify_processId mv) (classify_processPath mv)
            (IP_REMOTE_ADDRESS fv) (IP_REMOTE_PORT fv) now)) /\
  fst (AddPendingConnection g (classify_processId mv) (classify_processPath mv)
         (IP_REMOTE_ADDRESS fv) (IP_REMOTE_PORT fv) now)
  = TotalConnections g + 1.
Proof.
  intros Hon Hn0 Hn4 Hlook Hfree Hr. unfold NetGuardClassifyFn.
  rewrite Hon. cbn [negb]. cbv zeta.
  apply Z.eqb_neq in Hn0, Hn4. rewrite Hn0, Hn4. cbn [orb]. rewrite Hlook.
  rewrite AddPendingConnection_free by exact Hfree.
  rewrite wrap64_small by lia. cbn [fst snd].
  destruct (Z.ltb_spec 0 (TotalConnections g + 1)); [split; reflexivity | lia].
Qed.

(** C2: at any point of a run started by [DriverEntry] at which fewer than
    [2^64 - 1] connections have been queued so far, a classification with
    enforcement enabled, a process id other than 0 and 4, no Registry entry
    for the path and a free slot in the queue returns BLOCK and appends one
    entry to the queue; the entry carries the id [AddPendingConnection]
    returns, which is one more than the number of entries queued before and
    is the id of none of them. *)
Theorem unknown_app_is_queued_and_blocked cs fv mv out now :
  let g := run DriverEntry_Context cs in
  let history := queued DriverEntry_Context cs in
  let pid := classify_processId mv in
  let path := classify_processPath mv in
  Z.of_nat (length history) < 2 ^ 64 - 1 ->
  Enabled g = true ->
  pid <> 0 -> pid <> 4 ->
  IsAppInList g path = None ->
  (PendingCount g < MAX_PENDING_CONNECTIONS)%nat ->
  let r := NetGuardClassifyFn g fv mv out now in
  let conn := new_connection g pid path (IP_REMOTE_ADDRESS fv) (IP_REMOTE_PORT fv) now in
  actionType (fst r) = FWP_ACTION_BLOCK /\
  pending (snd r) = pending g ++ [conn] /\
  queued_by g (snd r) = [conn] /\
  fst (AddPendingConnection g pid path (IP_REMOTE_ADDRESS fv) (IP_REMOTE_PORT fv) now)
  = connectionId conn /\
  connectionId conn = Z.of_nat (length history) + 1 /\
  (connectionId conn ∉ (connectionId <$> history)) /\
  processId conn = pid /\ remoteIp conn = IP_REMOTE_ADDRESS fv /\
  remotePort conn = IP_REMOTE_PORT fv /\ timestamp conn = now /\
  responded conn = FALSE /\ allowed conn = FALSE.
Proof.
  intros g history pid path Hbound Hon Hn0 Hn4 Hlook Hfree r conn.
  pose proof (run_wf DriverEntry_Context cs DriverEntry_Context_wf) as Hwf.
  fold g in Hwf. pose proof Hwf as (HlenP & _).
  assert (HT : TotalConnections g = Z.of_nat (length history)).
  { subst g history. rewrite run_TotalConnections;
      [| exact DriverEntry_Context_wf | cbn; lia].
    cbn [TotalConnections DriverEntry_Context]. rewrite Z.add_0_l.
    apply wrap64_small. lia. }
  destruct (classify_unknown g fv mv out now Hon Hn0 Hn4 Hlook Hfree) as [Hr Hid];
    [lia |].
  fold pid path in Hr, Hid. subst r. rewrite Hr. cbn [fst snd].
  rewrite AddPendingConnection_free by exact Hfree. cbn [snd].
  assert (Hc : connectionId conn = Z.of_nat (length history) + 1).
  { subst conn. cbn. rewrite wrap64_small; lia. }
  split; [reflexivity |]. split.
  { unfold pending at 1. cbn. apply pending_append. lia. }
  split.
  { unfold queued_by. cbn. rewrite pending_append by lia.
    apply drop_app_length'. rewrite length_pending; auto. }
  split.
  { rewrite AddPendingConnection_free in Hid by exact Hfree. cbn in Hid.
    rewrite Hc, <- HT. exact Hid. }
  split; [exact Hc |]. split; [| repeat split].
  subst history. rewrite run_queued_ids;
    [| exact DriverEntry_Context_wf | cbn; lia | cbn; lia].
  rewrite Hc. intros Hin. apply elem_of_seqZ in Hin. cbn in Hin. lia.
Qed.

(** * Which calls move [TotalConnections] *)

Lemma queued_by_fewer g g' :
  (PendingCount g' <= PendingCount g)%nat -> queued_by g g' = [].
Proof.
  intros Hle. unfold queued_by. apply drop_ge. rewrite length_take. lia.
Qed.

(** The IOCTLs never append to the queue and never touch the counters. *)
Lemma NetGuardDeviceControl_frame g irp :
  (PendingCount g <= length (PendingConnections g))%nat ->
  let g' := snd (NetGuardDeviceControl g irp) in
  (PendingCount g' <= PendingCount g)%nat /\
  TotalConnections g' = TotalConnections g /\
  BlockedConnections g' = BlockedConnections g /\
  AllowedConnections g' = AllowedConnections g.
Proof.
  intros Hcnt. cbv zeta. unfold NetGuardDeviceControl. cbv zeta.
  destruct (_ =? IOCTL_NETGUARD_ENABLE); [cbn; auto |].
  destruct (_ =? IOCTL_NETGUARD_DISABLE); [cbn; auto |].
  destruct (_ =? IOCTL_NETGUARD_GET_PENDING); [destruct (_ && _); cbn; auto |].
  destruct (_ =? IOCTL_NETGUARD_RESPOND).
  { destruct (_ <=? _)%nat; [| cbn; auto]. cbn [snd].
    set (id := le_value _). set (a := nth _ _ _).
    destruct (respond_loop_spec (PendingCount g) 0 g id a Hcnt)
      as [[_ ->] | (k & c & Hk & Hl & _ & _ & ->)]; [lia | intros; lia | auto |].
    destruct (respond_at_fields g k c a) as (_ & _ & _ & _ & -> & -> & -> & ->).
    repeat split. lia. }
  destruct (_ =? IOCTL_NETGUARD_ADD_ALLOWED); [| cbn; auto].
  destruct (_ <=? _)%nat; [| cbn; auto].
  destruct (_ <? _)%nat; cbn; auto.
Qed.

Lemma classify_bypass_frame g fv mv out now :
  (PendingCount g <= MAX_PENDING_CONNECTIONS)%nat ->
  classify_bypasses_queue g mv ->
  let g' := snd (NetGuardClassifyFn g fv mv out now) in
  TotalConnections g' = TotalConnections g /\
  PendingConnections g' = PendingConnections g /\
  PendingCount g' = PendingCount g.
Proof.
  intros Hcnt Hby. cbv zeta. unfold NetGuardClassifyFn.
  destruct (Enabled g) eqn:Hon; cbn [negb]; [| auto]. cbv zeta.
  destruct (Z.eqb_spec (classify_processId mv) 0) as [H0 | H0]; cbn [orb]; [auto |].
  destruct (Z.eqb_spec (classify_processId mv) 4) as [H4 | H4]; [auto |].
  destruct (IsAppInList g _) as [b |] eqn:Hlook.
  - destruct (negb _); cbn; auto.
  - destruct Hby as [Hby | [Hby | [Hby | [Hby | Hby]]]]; try congruence.
    rewrite AddPendingConnection_full by lia. cbn. auto.
Qed.

Lemma classify_bypass_or_reach g mv :
  classify_bypasses_queue g mv \/
  (Enabled g = true /\ (classify_processId mv =? 0) = false /\
   (classify_processId mv =? 4) = false /\
   IsAppInList g (classify_processPath mv) = None).
Proof.
  unfold classify_bypasses_queue.
  destruct (Enabled g); [| auto].
  destruct (Z.eqb_spec (classify_processId mv) 0); [auto |].
  destruct (Z.eqb_spec (classify_processId mv) 4); [auto |].
  destruct (IsAppInList g _); [left | auto].
  do 3 right. left. discriminate.
Qed.

(** The value [AddPendingConnection] returns to the classification that
    queued an entry is the id stored in the entry. *)
Lemma step_queued_returned g c conn :
  ctx_wf g ->
  queued_by g (step g c) = [conn] ->
  exists fv mv out now,
    c = Classify fv mv out now /\
    fst (AddPendingConnection g (classify_processId mv) (classify_processPath mv)
           (IP_REMOTE_ADDRESS fv) (IP_REMOTE_PORT fv) now)
    = connectionId conn.
Proof.
  intros Hwf Hq. pose proof Hwf as (HlenP & HcntP & _).
  destruct c as [fv mv out now | irp]; cbn [step] in Hq.
  - exists fv, mv, out, now. split; [reflexivity |].
    destruct (Nat.ltb_spec (PendingCount g) MAX_PENDING_CONNECTIONS) as [Hfree | Hfull].
    + destruct (classify_bypass_or_reach g mv) as [Hby | Hgo].
      * destruct (classify_bypass_frame g fv mv out now HcntP Hby) as (_ & _ & Hn).
        rewrite queued_by_fewer in Hq by lia. discriminate.
      * revert Hq. unfold NetGuardClassifyFn.
        destruct Hgo as (-> & -> & -> & ->). cbn [negb orb]. cbv zeta.
        rewrite AddPendingConnection_free by exact Hfree. cbn [fst].
        destruct (0 <? _); cbn [snd]; unfold queued_by; cbn;
          rewrite pending_append by lia;
          rewrite drop_app_length' by (rewrite length_pending; auto);
          intros [= <-]; reflexivity.
    + assert (Hby : classify_bypasses_queue g mv) by (unfold classify_bypasses_queue; lia).
      destruct (classify_bypass_frame g fv mv out now HcntP Hby) as (_ & _ & Hn).
      rewrite queued_by_fewer in Hq by lia. discriminate.
  - destruct (NetGuardDeviceControl_frame g irp) as (Hn & _); [lia |].
    rewrite queued_by_fewer in Hq by exact Hn. discriminate.
Qed.

(** C6: along every run started by [DriverEntry], whatever calls it is made
    of (classifications that find the queue full and requests that remove
    entries included), the ids given to the queued entries are the successive
    values of the 64-bit counter, each being the value
    [AddPendingConnection] returned to the classification that queued the
    entry; as long as fewer than [2^64] connections have been queued they are
    1, 2, 3, ... in the order of admission: non-zero, strictly increasing and
    never repeated. *)
Theorem connection_ids_strictly_increasing cs :
  let history := queued DriverEntry_Context cs in
  let ids := connectionId <$> history in
  ids = wrap64 <$> seqZ 1 (Z.of_nat (length ids)) /\
  (forall cs1 c cs2 conn,
     cs = cs1 ++ c :: cs2 ->
     let g := run DriverEntry_Context cs1 in
     queued_by g (step g c) = [conn] ->
     conn ∈ history /\
     exists fv mv out now,
       c = Classify fv mv out now /\
       fst (AddPendingConnection g (classify_processId mv) (classify_processPath mv)
              (IP_REMOTE_ADDRESS fv) (IP_REMOTE_PORT fv) now)
       = connectionId conn) /\
  (Z.of_nat (length ids) < 2 ^ 64 ->
     ids = seqZ 1 (Z.of_nat (length ids)) /\
     Forall (fun id => 0 < id) ids /\
     StronglySorted Z.lt ids /\
     NoDup ids /\
     forall i j a b, ids !! i = Some a -> ids !! j = Some b -> (i < j)%nat -> a < b).
Proof.
  intros history ids. subst ids. rewrite length_fmap in *.
  split; [| split].
  - subst history. rewrite run_queued_ids_wrap;
      [reflexivity | exact DriverEntry_Context_wf | cbn; lia].
  - intros cs1 c cs2 conn -> g Hq. split.
    + subst history. rewrite queued_app. cbn [queued]. fold g. rewrite Hq.
      apply elem_of_app. right. left.
    + apply step_queued_returned; [| exact Hq].
      apply run_wf. exact DriverEntry_Context_wf.
  - intros Hbound.
    assert (Hids : connectionId <$> history = seqZ 1 (Z.of_nat (length history))).
    { subst history. rewrite run_queued_ids;
        [reflexivity | exact DriverEntry_Context_wf | cbn; lia |].
      cbn [TotalConnections DriverEntry_Context]. lia. }
    split; [exact Hids |]. rewrite Hids. split; [| split; [| split]].
    + apply Forall_seqZ. intros; lia.
    + apply StronglySorted_seqZ.
    + apply NoDup_seqZ.
    + intros i j a b Hi Hj Hij.
      apply lookup_seqZ in Hi as [-> _]. apply lookup_seqZ in Hj as [-> _]. lia.
Qed.

(** C10: at every point of a run started by [DriverEntry],
    [TotalConnections] is the number of entries ever queued (modulo [2^64],
    and exactly that number, which is also the id of the entry queued last,
    while it stays below [2^64]).  A call either leaves the counter alone and
    queues nothing, or it is a classification that queues one entry, adds
    exactly one to the counter and gives the incremented value to the entry
    as its id.  A classification that ends on the disabled path, on the
    system-process exemption, on a Registry hit or on a full queue, and every
    device-control request, leave the counter unchanged. *)
Theorem TotalConnections_counts_queued cs c :
  let g := run DriverEntry_Context cs in
  let g' := step g c in
  let history := queued DriverEntry_Context cs in
  TotalConnections g = wrap64 (Z.of_nat (length history)) /\
  (Z.of_nat (length history) < 2 ^ 64 ->
     TotalConnections g = Z.of_nat (length history) /\
     forall x, last history = Some x -> connectionId x = TotalConnections g) /\
  ((queued_by g g' = [] /\ TotalConnections g' = TotalConnections g) \/
   (exists conn,
      queued_by g g' = [conn] /\
      TotalConnections g' = wrap64 (TotalConnections g + 1) /\
      (TotalConnections g < 2 ^ 64 - 1 ->
         TotalConnections g' = TotalConnections g + 1) /\
      connectionId conn = TotalConnections g' /\
      pending g' = pending g ++ [conn] /\
      exists fv mv out now,
        c = Classify fv mv out now /\
        fst (AddPendingConnection g (classify_processId mv) (classify_processPath mv)
               (IP_REMOTE_ADDRESS fv) (IP_REMOTE_PORT fv) now)
        = connectionId conn)) /\
  match c with
  | Classify fv mv out now =>
      classify_bypasses_queue g mv ->
      TotalConnections g' = TotalConnections g /\ queued_by g g' = []
  | DeviceControl irp =>
      TotalConnections g' = TotalConnections g /\ queued_by g g' = []
  end.
Proof.
  intros g g' history.
  pose proof (run_wf DriverEntry_Context cs DriverEntry_Context_wf) as Hwf.
  fold g in Hwf. pose proof Hwf as (HlenP & HcntP & _).
  assert (HT : TotalConnections g = wrap64 (Z.of_nat (length history))).
  { subst g history. rewrite run_TotalConnections;
      [reflexivity | exact DriverEntry_Context_wf | cbn; lia]. }
  split; [exact HT |]. split; [| split].
  - intros Hbound. rewrite wrap64_small in HT by lia. split; [exact HT |].
    intros x Hlast. rewrite HT.
    assert (Hids : connectionId <$> history = seqZ 1 (Z.of_nat (length history))).
    { subst history. rewrite run_queued_ids;
        [reflexivity | exact DriverEntry_Context_wf | cbn; lia |].
      cbn [TotalConnections DriverEntry_Context]. lia. }
    apply (f_equal last) in Hids. rewrite fmap_last, Hlast in Hids. cbn in Hids.
    destruct (length history) as [| n].
    + discriminate.
    + rewrite seqZ_S, last_snoc in Hids. injection Hids as ->. lia.
  - subst g'. destruct (step_queued g c Hwf)
      as [(Hq & HT' & _) | (conn & Hq & Hid & HT' & Hp)].
    + left. split; assumption.
    + right. exists conn. split; [exact Hq |]. split; [exact HT' |]. split.
      { intros Hlow. rewrite HT'. apply wrap64_small.
        pose proof (wrap64_range (Z.of_nat (length history))). lia. }
      split; [congruence |]. split; [exact Hp |].
      apply step_queued_returned; assumption.
  - subst g'. destruct c as [fv mv out now | irp]; cbn [step].
    + intros Hby.
      destruct (classify_bypass_frame g fv mv out now HcntP Hby) as (Ht & _ & Hn).
      split; [exact Ht |]. apply queued_by_fewer. lia.
    + destruct (NetGuardDeviceControl_frame g irp) as (Hn & Ht & _); [lia |].
      split; [exact Ht |]. apply queued_by_fewer. exact Hn.
Qed.

(** * IOCTL_NETGUARD_GET_PENDING *)

Lemma length_le_bytes n z : length (le_bytes n z) = n.
Proof. revert z. induction n as [| n IH]; intros z; cbn; [| rewrite IH]; reflexivity. Qed.

Lemma length_flat_map_fixed {A B} (f : A -> list B) sz (l : list A) :
  (forall x, length (f x) = sz) -> length (flat_map f l) = (length l * sz)%nat.
Proof.
  intros Hf. induction l as [| x l IH]; [reflexivity |].
  cbn [flat_map length]. rewrite length_app, Hf, IH. lia.
Qed.

Lemma length_path_bytes p : length (path_bytes p) = (2 * MAX_PATH_LENGTH)%nat.
Proof.
  unfold path_bytes.
  rewrite (length_flat_map_fixed _ 2%nat) by (intros; apply length_le_bytes).
  rewrite length_take, length_app, length_replicate. lia.
Qed.

Lemma length_PENDING_CONNECTION_bytes c :
  length (PENDING_CONNECTION_bytes c) = sizeof_PENDING_CONNECTION.
Proof.
  unfold PENDING_CONNECTION_bytes.
  rewrite !length_app, !length_le_bytes, !length_replicate, length_path_bytes.
  reflexivity.
Qed.

(** Cutting an array of fixed-size records at a record boundary. *)
Lemma take_flat_map_fixed {A B} (f : A -> list B) sz (l : list A) k :
  (forall x, length (f x) = sz) ->
  take (k * sz) (flat_map f l) = flat_map f (take k l).
Proof.
  intros Hf. revert k. induction l as [| x l IH]; intros k.
  - rewrite take_nil. cbn. apply take_nil.
  - destruct k as [| k]; [reflexivity |].
    cbn [flat_map take Nat.mul]. rewrite take_app_add' by (symmetry; apply Hf).
    rewrite IH. reflexivity.
Qed.

Lemma take_PendingConnections_bytes g n :
  (n <= PendingCount g * sizeof_PENDING_CONNECTION)%nat ->
  take n (PendingConnections_bytes g)
  = take n (flat_map PENDING_CONNECTION_bytes (pending g)).
Proof.
  intros Hn. unfold pending, PendingConnections_bytes.
  rewrite <- (take_flat_map_fixed _ sizeof_PENDING_CONNECTION)
    by apply length_PENDING_CONNECTION_bytes.
  rewrite take_take, Nat.min_l by exact Hn. reflexivity.
Qed.

(** The record at queue position [j] inside a packed image cut at [n]
    bytes, when it lies wholly before the cut. *)
Lemma record_in_image {A B} (f : A -> list B) sz (l : list A) n j x :
  (forall x, length (f x) = sz) ->
  l !! j = Some x -> (S j * sz <= n)%nat ->
  take sz (drop (j * sz) (take n (flat_map f l))) = f x.
Proof.
  intros Hf Hx Hn.
  rewrite <- (take_drop_middle l j x Hx), flat_map_app. cbn [flat_map].
  assert (Hlen : length (flat_map f (take j l)) = (j * sz)%nat).
  { rewrite (length_flat_map_fixed f sz) by exact Hf.
    rewrite length_take_le; [reflexivity |].
    apply lookup_lt_Some in Hx. lia. }
  replace n with (j * sz + (n - j * sz))%nat by (cbn in Hn; lia).
  rewrite <- take_drop_commute, take_take.
  rewrite drop_app_length' by (symmetry; exact Hlen).
  rewrite Nat.min_l by (cbn in Hn; lia).
  apply take_app_length'. symmetry. apply Hf.
Qed.

Lemma NetGuardDeviceControl_GET_PENDING g irp :
  IoControlCode irp = IOCTL_NETGUARD_GET_PENDING ->
  let copySize :=
    (OutputBufferLength irp `min` (PendingCount g * sizeof_PENDING_CONNECTION))%nat in
  NetGuardDeviceControl g irp
  = (if (0 <? copySize)%nat && bool_decide (is_Some (SystemBuffer irp))
     then mkIoStatus STATUS_SUCCESS copySize (take copySize (PendingConnections_bytes g))
     else mkIoStatus STATUS_SUCCESS 0 [], g).
Proof.
  intros Hcode. cbv zeta. unfold NetGuardDeviceControl. rewrite Hcode.
  change (IOCTL_NETGUARD_GET_PENDING =? IOCTL_NETGUARD_ENABLE) with false.
  change (IOCTL_NETGUARD_GET_PENDING =? IOCTL_NETGUARD_DISABLE) with false.
  change (IOCTL_NETGUARD_GET_PENDING =? IOCTL_NETGUARD_GET_PENDING) with true.
  cbv iota zeta. destruct (_ && _); reflexivity.
Qed.

(** What IOCTL_NETGUARD_GET_PENDING returns.  [n] is the number of bytes. *)
Lemma GET_PENDING_result g irp :
  ctx_wf g ->
  IoControlCode irp = IOCTL_NETGUARD_GET_PENDING ->
  (SystemBuffer irp = None -> OutputBufferLength irp = 0%nat) ->
  let n := (OutputBufferLength irp `min`
            (PendingCount g * sizeof_PENDING_CONNECTION))%nat in
  NetGuardDeviceControl g irp
  = (mkIoStatus STATUS_SUCCESS n
       (take n (flat_map PENDING_CONNECTION_bytes (pending g))), g).
Proof.
  intros Hwf Hcode Hbuf n. rewrite NetGuardDeviceControl_GET_PENDING by exact Hcode.
  fold n. rewrite take_PendingConnections_bytes by (subst n; lia).
  destruct (Nat.ltb_spec 0 n) as [Hpos | Hzero]; cbn [andb].
  - destruct (SystemBuffer irp) as [buf |] eqn:Hsb.
    + rewrite bool_decide_eq_true_2 by eauto. reflexivity.
    + specialize (Hbuf eq_refl). subst n. rewrite Hbuf in Hpos. cbn in Hpos. lia.
  - assert (n = 0)%nat as -> by lia. reflexivity.
Qed.

(** C4 (as the code has it): IOCTL_NETGUARD_GET_PENDING leaves the context
    unchanged and returns the first [min(budget, PendingCount * record size)]
    bytes of the packed queue, in queue order (entries are appended at the
    end and removals keep the order, so this is admission order).  Every
    entry that fits the budget whole is returned whole, at its position in
    queue order; when the budget is a multiple of the record size, or covers
    the whole queue, the data is exactly the whole records of the first
    [budget / record size] entries.  Otherwise the copy stops at the budget,
    inside a record. *)
Theorem get_pending_copies_queue_prefix g irp :
  ctx_wf g ->
  IoControlCode irp = IOCTL_NETGUARD_GET_PENDING ->
  (SystemBuffer irp = None -> OutputBufferLength irp = 0%nat) ->
  let budget := OutputBufferLength irp in
  let sz := sizeof_PENDING_CONNECTION in
  let n := (budget `min` (PendingCount g * sz))%nat in
  let r := NetGuardDeviceControl g irp in
  snd r = g /\
  Status (fst r) = STATUS_SUCCESS /\
  Information (fst r) = n /\
  OutputData (fst r) = take n (flat_map PENDING_CONNECTION_bytes (pending g)) /\
  length (OutputData (fst r)) = n /\
  (forall j c, pending g !! j = Some c -> (S j * sz <= budget)%nat ->
     take sz (drop (j * sz) (OutputData (fst r))) = PENDING_CONNECTION_bytes c) /\
  ((budget mod sz = 0 \/ PendingCount g * sz <= budget)%nat ->
     OutputData (fst r)
     = flat_map PENDING_CONNECTION_bytes (take (budget / sz) (pending g))).
Proof.
  intros Hwf Hcode Hbuf budget sz n r. subst r.
  rewrite (GET_PENDING_result g irp Hwf Hcode Hbuf). fold budget sz n. cbn [fst snd
    Status Information OutputData].
  pose proof (length_pending g Hwf) as Hlen.
  assert (Himg : length (flat_map PENDING_CONNECTION_bytes (pending g))
                 = (PendingCount g * sz)%nat).
  { rewrite (length_flat_map_fixed _ sz) by apply length_PENDING_CONNECTION_bytes.
    rewrite Hlen. reflexivity. }
  repeat split.
  - rewrite length_take, Himg. lia.
  - intros j c Hj Hfit.
    apply (record_in_image PENDING_CONNECTION_bytes sz (pending g) n j c);
      [apply length_PENDING_CONNECTION_bytes | exact Hj |].
    apply lookup_lt_Some in Hj. rewrite Hlen in Hj. subst n. nia.
  - assert (Hsz : sz <> 0%nat) by discriminate.
    intros [Hmul | Hall].
    + apply Nat.Div0.div_exact in Hmul.
      rewrite <- (take_flat_map_fixed _ sz) by apply length_PENDING_CONNECTION_bytes.
      set (q := (budget / sz)%nat) in *.
      destruct (le_lt_dec budget (PendingCount g * sz)) as [Hle | Hgt].
      * f_equal. subst n. lia.
      * rewrite !take_ge; [reflexivity | lia | subst n; lia].
    + rewrite <- (take_flat_map_fixed _ sz) by apply length_PENDING_CONNECTION_bytes.
      assert (PendingCount g <= budget / sz)%nat
        by (apply Nat.div_le_lower_bound; lia).
      rewrite !take_ge; [reflexivity | nia | subst n; lia].
Qed.

Lemma one_pending_Context_wf : ctx_wf one_pending_Context.
Proof. repeat split; vm_compute; first [reflexivity | lia]. Qed.

Lemma get_pending_copies_queue_prefix_witness :
  let g := one_pending_Context in
  let irp := get_pending_irp 2000 in
  (IoControlCode irp = IOCTL_NETGUARD_GET_PENDING /\
   (SystemBuffer irp = None -> OutputBufferLength irp = 0%nat)) /\
  snd (NetGuardDeviceControl g irp) = g /\
  Information (fst (NetGuardDeviceControl g irp)) = 1064%nat.
Proof.
  intros g irp.
  assert (Hcode : IoControlCode irp = IOCTL_NETGUARD_GET_PENDING) by reflexivity.
  assert (Hbuf : SystemBuffer irp = None -> OutputBufferLength irp = 0%nat)
    by discriminate.
  split; [split; assumption |].
  destruct (get_pending_copies_queue_prefix g irp one_pending_Context_wf Hcode Hbuf)
    as (Hg & _ & Hn & _).
  split; [exact Hg |]. rewrite Hn. reflexivity.
Defined.

(** C4 as stated fails for a budget that is not a multiple of the record
    size: with one entry queued and a budget of 100 bytes, 100 bytes come
    back, which is no sequence of whole records. *)
Lemma get_pending_partial_record :
  let g := one_pending_Context in
  let r := NetGuardDeviceControl g (get_pending_irp 100) in
  PendingCount g = 1%nat /\
  Information (fst r) = 100%nat /\
  length (OutputData (fst r)) = 100%nat /\
  forall k, OutputData (fst r)
            <> flat_map PENDING_CONNECTION_bytes (take k (pending g)).
Proof.
  cbv zeta. split; [reflexivity |]. split; [reflexivity |].
  split; [vm_compute; reflexivity |].
  intros k Heq. apply (f_equal length) in Heq.
  rewrite (length_flat_map_fixed _ sizeof_PENDING_CONNECTION) in Heq
    by apply length_PENDING_CONNECTION_bytes.
  assert (Hl : length (OutputData (fst (NetGuardDeviceControl one_pending_Context
                                          (get_pending_irp 100)))) = 100%nat)
    by (vm_compute; reflexivity).
  rewrite Hl in Heq. unfold sizeof_PENDING_CONNECTION in Heq.
  destruct (length (take k (pending one_pending_Context))); lia.
Qed.

(** * IOCTL_NETGUARD_RESPOND *)

Lemma NetGuardDeviceControl_RESPOND g irp :
  IoControlCode irp = IOCTL_NETGUARD_RESPOND ->
  NetGuardDeviceControl g irp
  = (mkIoStatus STATUS_SUCCESS 0 [],
     if (8 + 1 <=? InputBufferLength irp)%nat
     then respond_loop (PendingCount g) 0 g (respond_connId irp) (respond_allowed irp)
     else g).
Proof.
  intros Hcode. unfold NetGuardDeviceControl. rewrite Hcode.
  change (IOCTL_NETGUARD_RESPOND =? IOCTL_NETGUARD_ENABLE) with false.
  change (IOCTL_NETGUARD_RESPOND =? IOCTL_NETGUARD_DISABLE) with false.
  change (IOCTL_NETGUARD_RESPOND =? IOCTL_NETGUARD_GET_PENDING) with false.
  change (IOCTL_NETGUARD_RESPOND =? IOCTL_NETGUARD_RESPOND) with true.
  cbv iota zeta. destruct (_ <=? _)%nat; reflexivity.
Qed.

Lemma NoDup_delete_lookup {A} (l : list A) i x :
  NoDup l -> l !! i = Some x -> x ∉ delete i l.
Proof.
  intros Hnd Hx. rewrite delete_take_drop.
  rewrite <- (take_drop_middle l i x Hx) in Hnd.
  apply NoDup_app in Hnd as (_ & Hdisj & Hnd).
  apply NoDup_cons in Hnd as (Hnot & _).
  intros Hin. apply elem_of_app in Hin as [Hin | Hin]; [| contradiction].
  apply (Hdisj x Hin). left.
Qed.

(** With distinct ids an id names one queue position. *)
Lemma pending_index_unique g i j c c' :
  NoDup (pending_ids g) ->
  pending g !! i = Some c -> pending g !! j = Some c' ->
  connectionId c = connectionId c' -> i = j.
Proof.
  intros Hnd Hi Hj Heq.
  apply (NoDup_lookup (pending_ids g) i j (connectionId c) Hnd);
    unfold pending_ids; rewrite list_lookup_fmap.
  - rewrite Hi. reflexivity.
  - rewrite Hj. cbn. congruence.
Qed.

(** A request naming the id of the entry at queue position [i] removes that
    entry and closes the gap. *)
Lemma respond_resolves g irp i c :
  ctx_wf g -> NoDup (pending_ids g) ->
  IoControlCode irp = IOCTL_NETGUARD_RESPOND ->
  (8 + 1 <= InputBufferLength irp)%nat ->
  pending g !! i = Some c ->
  connectionId c = respond_connId irp ->
  let g' := respond_at g i c (respond_allowed irp) in
  NetGuardDeviceControl g irp = (mkIoStatus STATUS_SUCCESS 0 [], g') /\
  pending g' = delete i (pending g) /\
  ctx_wf g' /\ NoDup (pending_ids g') /\
  (respond_connId irp ∉ pending_ids g').
Proof.
  intros Hwf Hnd Hcode Hlen Hi Hid g'. pose proof Hwf as (HlenP & HcntP & _).
  assert (Hin : respond_connId irp ∈ pending_ids g).
  { rewrite <- Hid. apply list_elem_of_fmap_2. eapply list_elem_of_lookup_2. exact Hi. }
  destruct (respond_loop_found g (respond_connId irp) (respond_allowed irp))
    as (k & c' & Hk & Hid' & _ & Hrun & Hklt & Hp); [lia | exact Hin |].
  assert (k = i) by (apply (pending_index_unique g k i c' c); congruence).
  subst k. assert (c' = c) by congruence. subst c'.
  assert (Hlook : PendingConnections g !! i = Some c).
  { unfold pending in Hi. apply lookup_take_Some in Hi as [Hi _]. exact Hi. }
  assert (Hids : pending_ids g' = delete i (pending_ids g)).
  { unfold pending_ids. subst g'. rewrite Hp. apply list_fmap_delete. }
  split; [| split; [exact Hp | split; [| split]]].
  - rewrite NetGuardDeviceControl_RESPOND by exact Hcode.
    destruct (Nat.leb_spec (8 + 1) (InputBufferLength irp)); [| lia].
    rewrite Hrun. reflexivity.
  - apply (effect_wf g); [exact Hwf |]. apply effect_resolve; assumption.
  - rewrite Hids. apply (sublist_NoDup _ (pending_ids g)); [exact Hnd | apply sublist_delete].
  - rewrite Hids. apply NoDup_delete_lookup; [exact Hnd |].
    unfold pending_ids. rewrite list_lookup_fmap, Hi. cbn. congruence.
Qed.

(** A request naming an id that is not in the queue is completed like any
    other and changes nothing. *)
Lemma respond_unknown g irp :
  (PendingCount g <= length (PendingConnections g))%nat ->
  IoControlCode irp = IOCTL_NETGUARD_RESPOND ->
  (respond_connId irp ∉ pending_ids g) ->
  NetGuardDeviceControl g irp = (mkIoStatus STATUS_SUCCESS 0 [], g).
Proof.
  intros Hcnt Hcode Hnot. rewrite NetGuardDeviceControl_RESPOND by exact Hcode.
  destruct (_ <=? _)%nat; [| reflexivity].
  rewrite respond_loop_not_found by assumption. reflexivity.
Qed.

(** C5 (as the code has it): IOCTL_NETGUARD_RESPOND is completed with
    STATUS_SUCCESS and no data whether or not the id is found; there is no
    not-found status.  Issued twice with the id of a queued entry, the first
    request removes that entry from the queue (the remaining entries keep
    their contents and order) and the second changes nothing.  A request whose
    id matches no queued entry leaves the whole context unchanged. *)
Theorem respond_twice g irp :
  ctx_wf g -> NoDup (pending_ids g) ->
  IoControlCode irp = IOCTL_NETGUARD_RESPOND ->
  (8 + 1 <= InputBufferLength irp)%nat ->
  let r1 := NetGuardDeviceControl g irp in
  let r2 := NetGuardDeviceControl (snd r1) irp in
  fst r1 = mkIoStatus STATUS_SUCCESS 0 [] /\
  fst r2 = mkIoStatus STATUS_SUCCESS 0 [] /\
  snd r2 = snd r1 /\
  (respond_connId irp ∉ pending_ids (snd r1)) /\
  (forall i c, pending g !! i = Some c -> connectionId c = respond_connId irp ->
     pending (snd r1) = delete i (pending g) /\
     PendingCount (snd r1) = (PendingCount g - 1)%nat) /\
  ((respond_connId irp ∉ pending_ids g) -> snd r1 = g).
Proof.
  intros Hwf Hnd Hcode Hlen r1 r2. pose proof Hwf as (HlenP & HcntP & _).
  destruct (decide (respond_connId irp ∈ pending_ids g)) as [Hin | Hnot].
  - pose proof Hin as Hin'. unfold pending_ids in Hin'.
    apply list_elem_of_fmap in Hin' as (c & Hid & Hc).
    apply list_elem_of_lookup in Hc as (i & Hi). symmetry in Hid.
    destruct (respond_resolves g irp i c Hwf Hnd Hcode Hlen Hi Hid)
      as (Hr1 & Hp & Hwf' & Hnd' & Hgone).
    subst r2 r1. rewrite Hr1. cbn [fst snd].
    pose proof Hwf' as (HlenP' & HcntP' & _).
    rewrite respond_unknown by (auto; lia). cbn [fst snd].
    split; [reflexivity |]. split; [reflexivity |]. split; [reflexivity |].
    split; [exact Hgone |]. split.
    + intros j c' Hj Hid'.
      assert (j = i) by (apply (pending_index_unique g j i c' c); congruence).
      subst j. split; [exact Hp |].
      destruct (respond_at_fields g i c (respond_allowed irp))
        as (_ & _ & _ & _ & _ & _ & _ & Hn). exact Hn.
    + intros Hnot. contradiction.
  - subst r2 r1. rewrite respond_unknown by (auto; lia). cbn [fst snd].
    rewrite respond_unknown by (auto; lia). cbn [fst snd].
    split; [reflexivity |]. split; [reflexivity |]. split; [reflexivity |].
    split; [exact Hnot |]. split; [| reflexivity].
    intros i c Hi Hid. exfalso. apply Hnot. rewrite <- Hid.
    apply list_elem_of_fmap_2. eapply list_elem_of_lookup_2. exact Hi.
Qed.

Lemma three_pending_Context_wf : ctx_wf three_pending_Context.
Proof. repeat split; vm_compute; first [reflexivity | lia]. Qed.

Lemma three_pending_Context_NoDup : NoDup (pending_ids three_pending_Context).
Proof.
  apply StronglySorted_lt_NoDup.
  change (pending_ids three_pending_Context) with [1; 2; 3].
  repeat constructor.
Qed.

Lemma respond_twice_witness :
  let g := three_pending_Context in
  let irp := respond_irp 2 TRUE in
  (IoControlCode irp = IOCTL_NETGUARD_RESPOND /\
   (8 + 1 <= InputBufferLength irp)%nat) /\
  fst (NetGuardDeviceControl g irp) = mkIoStatus STATUS_SUCCESS 0 [] /\
  fst (NetGuardDeviceControl (snd (NetGuardDeviceControl g irp)) irp)
  = mkIoStatus STATUS_SUCCESS 0 [] /\
  snd (NetGuardDeviceControl (snd (NetGuardDeviceControl g irp)) irp)
  = snd (NetGuardDeviceControl g irp).
Proof.
  intros g irp.
  assert (Hcode : IoControlCode irp = IOCTL_NETGUARD_RESPOND) by reflexivity.
  assert (Hlen : (8 + 1 <= InputBufferLength irp)%nat) by (cbn; lia).
  split; [split; assumption |].
  destruct (respond_twice g irp three_pending_Context_wf three_pending_Context_NoDup
              Hcode Hlen) as (H1 & H2 & H3 & _).
  repeat split; assumption.
Defined.

(** C5 as stated fails: the second request for id 2 is completed exactly
    like the first, with STATUS_SUCCESS, although the entry is gone; and after
    the first request no slot of the array carries the responded mark. *)
Lemma respond_second_call_is_acknowledged :
  let g := three_pending_Context in
  let irp := respond_irp 2 TRUE in
  let r1 := NetGuardDeviceControl g irp in
  let r2 := NetGuardDeviceControl (snd r1) irp in
  pending_ids g = [1; 2; 3] /\
  pending_ids (snd r1) = [1; 3] /\
  snd r2 = snd r1 /\
  fst r2 = fst r1 /\
  Status (fst r2) = STATUS_SUCCESS /\
  Status (fst r2) <> STATUS_INVALID_DEVICE_REQUEST /\
  forallb (fun c => responded c =? FALSE) (PendingConnections (snd r1)) = true.
Proof.
  vm_compute. repeat split; discriminate.
Qed.

(** * Order of the queue *)

(** C7: for a queue with distinct ids, a request resolving the id of an
    entry that is neither first nor last removes exactly that entry: the
    queue becomes the entries before it followed by the entries after it, in
    their previous order, and a following IOCTL_NETGUARD_GET_PENDING with
    room for all of them returns the records of these entries in that
    order. *)
Theorem resolve_middle_preserves_order g irp i c :
  ctx_wf g -> NoDup (pending_ids g) ->
  IoControlCode irp = IOCTL_NETGUARD_RESPOND ->
  (8 + 1 <= InputBufferLength irp)%nat ->
  pending g !! i = Some c ->
  connectionId c = respond_connId irp ->
  (0 < i < PendingCount g - 1)%nat ->
  let g' := snd (NetGuardDeviceControl g irp) in
  let rest := take i (pending g) ++ drop (S i) (pending g) in
  pending g' = rest /\
  PendingCount g' = (PendingCount g - 1)%nat /\
  (c ∉ pending g') /\
  rest `sublist_of` pending g /\
  forall irp',
    IoControlCode irp' = IOCTL_NETGUARD_GET_PENDING ->
    SystemBuffer irp' <> None ->
    (PendingCount g' * sizeof_PENDING_CONNECTION <= OutputBufferLength irp')%nat ->
    NetGuardDeviceControl g' irp'
    = (mkIoStatus STATUS_SUCCESS (PendingCount g' * sizeof_PENDING_CONNECTION)
         (flat_map PENDING_CONNECTION_bytes rest), g').
Proof.
  intros Hwf Hnd Hcode Hlen Hi Hid Hmid g' rest.
  destruct (respond_resolves g irp i c Hwf Hnd Hcode Hlen Hi Hid)
    as (Hr & Hp & Hwf' & Hnd' & Hgone).
  subst g'. rewrite Hr. cbn [snd]. rewrite delete_take_drop in Hp. fold rest in Hp.
  split; [exact Hp |]. split.
  { destruct (respond_at_fields g i c (respond_allowed irp))
      as (_ & _ & _ & _ & _ & _ & _ & Hn). exact Hn. }
  split.
  { intros Hin. apply Hgone. rewrite <- Hid.
    apply list_elem_of_fmap_2. exact Hin. }
  split.
  { subst rest. rewrite <- delete_take_drop. apply sublist_delete. }
  intros irp' Hcode' Hbuf' Hroom.
  rewrite (GET_PENDING_result _ irp' Hwf' Hcode') by (intros; contradiction).
  rewrite Nat.min_r by exact Hroom.
  rewrite take_ge; [rewrite Hp; reflexivity |].
  rewrite (length_flat_map_fixed _ sizeof_PENDING_CONNECTION)
    by apply length_PENDING_CONNECTION_bytes.
  rewrite length_pending by exact Hwf'. lia.
Qed.

Lemma resolve_middle_preserves_order_witness :
  let g := three_pending_Context in
  let irp := respond_irp 2 TRUE in
  (exists c, pending g !! 1%nat = Some c /\ connectionId c = respond_connId irp) /\
  (0 < 1 < PendingCount g - 1)%nat /\
  pending_ids (snd (NetGuardDeviceControl g irp)) = [1; 3] /\
  pending (snd (NetGuardDeviceControl g irp))
  = take 1 (pending g) ++ drop 2 (pending g).
Proof.
  intros g irp.
  assert (Hcode : IoControlCode irp = IOCTL_NETGUARD_RESPOND) by reflexivity.
  assert (Hlen : (8 + 1 <= InputBufferLength irp)%nat) by (cbn; lia).
  assert (Hmid : (0 < 1 < PendingCount g - 1)%nat) by (cbn; lia).
  destruct (pending g !! 1%nat) as [c |] eqn:Hc; [| vm_compute in Hc; discriminate].
  assert (Hid : connectionId c = respond_connId irp).
  { vm_compute in Hc. injection Hc as <-. reflexivity. }
  destruct (resolve_middle_preserves_order g irp 1 c three_pending_Context_wf
              three_pending_Context_NoDup Hcode Hlen Hc Hid Hmid) as (Hp & _).
  split; [exists c; split; [reflexivity | exact Hid] |].
  split; [exact Hmid |]. split; [| exact Hp].
  unfold pending_ids. rewrite Hp. vm_compute. reflexivity.
Defined.

Lemma unknown_app_is_queued_and_blocked_witness :
  let g := run DriverEntry_Context resolved_once in
  let fv := mkIncoming 0x0A000001 443 in
  let mv := meta_of 100 path_a in
  let out := mkClassifyOut FWP_ACTION_PERMIT 1 in
  (Z.of_nat (length (queued DriverEntry_Context resolved_once)) < 2 ^ 64 - 1 /\
   Enabled g = true /\
   classify_processId mv <> 0 /\ classify_processId mv <> 4 /\
   IsAppInList g (classify_processPath mv) = None /\
   (PendingCount g < MAX_PENDING_CONNECTIONS)%nat) /\
  actionType (fst (NetGuardClassifyFn g fv mv out 5)) = FWP_ACTION_BLOCK /\
  fst (AddPendingConnection g (classify_processId mv) (classify_processPath mv)
         (IP_REMOTE_ADDRESS fv) (IP_REMOTE_PORT fv) 5) = 2.
Proof.
  intros g fv mv out.
  assert (H1 : Z.of_nat (length (queued DriverEntry_Context resolved_once)) < 2 ^ 64 - 1)
    by (vm_compute; reflexivity).
  assert (H2 : Enabled g = true) by (vm_compute; reflexivity).
  assert (H3 : classify_processId mv <> 0) by (vm_compute; discriminate).
  assert (H4 : classify_processId mv <> 4) by (vm_compute; discriminate).
  assert (H5 : IsAppInList g (classify_processPath mv) = None)
    by (vm_compute; reflexivity).
  assert (H6 : (PendingCount g < MAX_PENDING_CONNECTIONS)%nat)
    by (apply Nat.ltb_lt; vm_compute; reflexivity).
  split; [repeat split; assumption |].
  destruct (unknown_app_is_queued_and_blocked resolved_once fv mv out 5
              H1 H2 H3 H4 H5 H6) as (Hb & _ & _ & Hid & Hn & _).
  split; [exact Hb |]. exact (eq_trans Hid Hn).
Defined.

Lemma connection_ids_strictly_increasing_witness :
  let ids := connectionId <$> queued DriverEntry_Context saturate_and_resolve in
  Z.of_nat (length ids) < 2 ^ 64 /\
  length ids = 258%nat /\
  ids = seqZ 1 (Z.of_nat (length ids)) /\
  NoDup ids.
Proof.
  intros ids.
  assert (Hb : Z.of_nat (length ids) < 2 ^ 64) by (vm_compute; reflexivity).
  split; [exact Hb |]. split; [vm_compute; reflexivity |].
  destruct (connection_ids_strictly_increasing saturate_and_resolve)
    as (_ & _ & Hlow).
  destruct (Hlow Hb) as (Hids & _ & _ & Hnd & _).
  split; [exact Hids | exact Hnd].
Defined.

Lemma TotalConnections_counts_queued_witness :
  let g := run DriverEntry_Context saturate_and_resolve in
  TotalConnections g
  = wrap64 (Z.of_nat (length (queued DriverEntry_Context saturate_and_resolve))) /\
  TotalConnections (step g (respond_call 1 TRUE)) = TotalConnections g.
Proof.
  intros g.
  destruct (TotalConnections_counts_queued saturate_and_resolve (respond_call 1 TRUE))
    as (HT & _ & _ & Hdc).
  split; [exact HT |]. exact (proj1 Hdc).
Defined.

(** * The Registry: lookup and IOCTL_NETGUARD_ADD_ALLOWED *)

Lemma towlower_zero c : towlower c = 0 <-> c = 0.
Proof.
  unfold towlower. destruct (Z.leb_spec 65 c); destruct (Z.leb_spec c 90); cbn; lia.
Qed.

Lemma wcs_nil_hd buf : wcs buf = [] <-> hd 0 buf = 0.
Proof.
  destruct buf as [| c rest]; cbn; [tauto |].
  destruct (Z.eqb_spec c 0); split; intros; try discriminate; auto; lia.
Qed.

(** [_wcsicmp] returns 0 exactly when the two strings, cut at their
    terminators, are equal after case folding. *)
Lemma _wcsicmp_zero a b :
  _wcsicmp a b = 0 <-> towlower <$> wcs a = towlower <$> wcs b.
Proof.
  revert b. induction a as [| x a IH]; intros b.
  - cbn [_wcsicmp wcs fmap list_fmap]. split.
    + intros H. assert (H0 : hd 0 b = 0) by (apply towlower_zero; lia).
      apply (proj2 (wcs_nil_hd b)) in H0. rewrite H0. reflexivity.
    + intros H. symmetry in H. apply fmap_nil_inv in H.
      apply (proj1 (wcs_nil_hd b)) in H. rewrite H. reflexivity.
  - cbn [_wcsicmp wcs]. cbv zeta.
    destruct (Z.eqb_spec (towlower x) (towlower (hd 0 b))) as [Heq | Hne].
    + destruct (Z.eqb_spec (towlower x) 0) as [Hz | Hnz].
      * apply (proj1 (towlower_zero x)) in Hz. subst x. cbn.
        assert (H0 : hd 0 b = 0) by (apply towlower_zero; rewrite <- Heq; reflexivity).
        apply (proj2 (wcs_nil_hd b)) in H0. rewrite H0. tauto.
      * assert (x <> 0) by (intros ->; apply Hnz; reflexivity).
        destruct (Z.eqb_spec x 0); [contradiction |].
        destruct b as [| y b]; [cbn in Heq; congruence |].
        cbn [hd tl] in *. assert (y <> 0).
        { intros ->. apply Hnz. rewrite Heq. reflexivity. }
        cbn [wcs]. destruct (Z.eqb_spec y 0); [contradiction |].
        rewrite IH, !fmap_cons. split; [intros ->; congruence |].
        intros [= _ H']. exact H'.
    + split; [lia |]. intros H. exfalso.
      destruct (Z.eqb_spec x 0) as [-> | Hx].
      * cbn in H. symmetry in H. apply fmap_nil_inv in H.
        apply (proj1 (wcs_nil_hd b)) in H. rewrite H in Hne. apply Hne. reflexivity.
      * rewrite fmap_cons in H. destruct b as [| y b]; [discriminate |].
        cbn [wcs hd] in *. destruct (Z.eqb_spec y 0); [discriminate |].
        rewrite fmap_cons in H. injection H as H _. contradiction.
Qed.

(** X1: the Registry lookup is case-insensitive and reads each path up to
    its terminator only: two paths whose strings fold to the same lower-case
    string get the same answer from [IsAppInList] in every context. *)
Theorem IsAppInList_case_insensitive g p p' :
  towlower <$> wcs p = towlower <$> wcs p' ->
  IsAppInList g p = IsAppInList g p'.
Proof.
  intros Hfold. unfold IsAppInList.
  induction (registry g) as [| a rest IH]; [reflexivity |].
  cbn [IsAppInList_scan]. rewrite IH.
  destruct (Z.eqb_spec (_wcsicmp (appPath a) p) 0) as [H0 | H0];
    destruct (Z.eqb_spec (_wcsicmp (appPath a) p') 0) as [H1 | H1];
    try reflexivity; exfalso.
  - apply H1. apply _wcsicmp_zero. rewrite <- Hfold. apply _wcsicmp_zero. exact H0.
  - apply H0. apply _wcsicmp_zero. rewrite Hfold. apply _wcsicmp_zero. exact H1.
Qed.

Lemma IsAppInList_case_insensitive_witness :
  let p := [65; 46; 69; 88; 69; 0; 7; 7] in
  let p' := [97; 46; 101; 120; 101; 0] in
  towlower <$> wcs p = towlower <$> wcs p' /\
  IsAppInList registry_Context p = Some TRUE /\
  IsAppInList registry_Context p' = Some TRUE.
Proof.
  intros p p'.
  assert (Hf : towlower <$> wcs p = towlower <$> wcs p') by reflexivity.
  split; [exact Hf |].
  rewrite <- (IsAppInList_case_insensitive registry_Context p p' Hf).
  split; vm_compute; reflexivity.
Defined.

Lemma effect_registry_grows g g' :
  ctx_wf g -> effect g g' ->
  registry g' = registry g \/ exists app, registry g' = registry g ++ [app].
Proof.
  intros (_ & _ & HlenA & HcntA) Heff.
  destruct Heff as [| b | | | app Hfree | pid path ip port now Hfree | k c a Hk Hl];
    try (left; reflexivity).
  - right. exists app. unfold registry. cbn.
    rewrite (take_S_r _ _ app) by (apply list_lookup_insert_eq; lia).
    rewrite take_insert_ge by lia. reflexivity.
  - left. rewrite AddPendingConnection_free by exact Hfree. reflexivity.
Qed.

Lemma IsAppInList_scan_app l1 l2 p b :
  IsAppInList_scan l1 p = Some b -> IsAppInList_scan (l1 ++ l2) p = Some b.
Proof.
  induction l1 as [| a l1 IH]; cbn [IsAppInList_scan app]; [discriminate |].
  destruct (_ =? 0); auto.
Qed.

(** X2: the Registry is append-only.  Along every run the Registry of the
    starting context is a prefix of the Registry reached, the count stays
    within the array, and because the lookup stops at the first match a path
    that has a verdict keeps that verdict whatever is registered later. *)
Theorem registry_append_only g cs :
  ctx_wf g ->
  registry g `prefix_of` registry (run g cs) /\
  (AllowedCount g <= AllowedCount (run g cs) <= MAX_ALLOWED_APPS)%nat /\
  forall p b, IsAppInList g p = Some b -> IsAppInList (run g cs) p = Some b.
Proof.
  intros Hwf.
  assert (Hpre : registry g `prefix_of` registry (run g cs)).
  { revert g Hwf. induction cs as [| c cs IH]; intros g Hwf; [reflexivity |].
    cbn [run fold_left]. fold (run (step g c) cs).
    transitivity (registry (step g c)); [| apply IH, step_wf, Hwf].
    destruct (effect_registry_grows g (step g c) Hwf) as [-> | (app & ->)].
    - apply step_effect. destruct Hwf as (-> & ? & _). assumption.
    - reflexivity.
    - apply prefix_app_r. reflexivity. }
  split; [exact Hpre |]. split.
  - pose proof (run_wf g cs Hwf) as (_ & _ & HlenA' & HcntA').
    destruct Hwf as (_ & _ & HlenA & HcntA).
    apply prefix_length in Hpre. unfold registry in Hpre.
    rewrite !length_take in Hpre. lia.
  - intros p b Hl. destruct Hpre as (k & Hk). unfold IsAppInList. rewrite Hk.
    apply IsAppInList_scan_app. exact Hl.
Qed.

Lemma registry_Context_wf : ctx_wf registry_Context.
Proof. repeat split; vm_compute; first [reflexivity | lia]. Qed.

Lemma registry_append_only_witness :
  let cs := [add_allowed_call path_a FALSE; classify_call 100 path_a 9] in
  let p := classify_processPath (meta_of 100 path_a) in
  IsAppInList registry_Context p = Some TRUE /\
  IsAppInList (run registry_Context cs) p = Some TRUE /\
  AllowedCount (run registry_Context cs) = 3%nat.
Proof.
  intros cs p.
  assert (Hl : IsAppInList registry_Context p = Some TRUE) by (vm_compute; reflexivity).
  split; [exact Hl |]. split; [| vm_compute; reflexivity].
  destruct (registry_append_only registry_Context cs registry_Context_wf)
    as (_ & _ & Hkeep).
  apply Hkeep. exact Hl.
Defined.

(** The little-endian image of an integer decodes to the integer reduced to
    the width of the image. *)
Lemma le_value_le_bytes n z :
  le_value (le_bytes n z) = z mod 2 ^ (8 * Z.of_nat n).
Proof.
  revert z. induction n as [| n IH]; intros z.
  - cbn. rewrite Z.mod_1_r. reflexivity.
  - cbn [le_bytes le_value]. rewrite IH.
    change 255 with (Z.ones 8). rewrite Z.land_ones by lia.
    apply Z.bits_inj'. intros i Hi. rewrite Z.lor_spec.
    destruct (Z.lt_ge_cases i 8) as [Hlo | Hhi].
    + rewrite Z.mod_pow2_bits_low, Z.shiftl_spec_low, orb_false_r by lia.
      rewrite Z.mod_pow2_bits_low by lia. reflexivity.
    + rewrite (Z.mod_pow2_bits_high z 8) by lia. cbn [orb].
      rewrite Z.shiftl_spec by lia.
      destruct (Z.lt_ge_cases (i - 8) (8 * Z.of_nat n)) as [Hin | Hout].
      * rewrite !Z.mod_pow2_bits_low by lia.
        rewrite Z.shiftr_spec by lia. f_equal. lia.
      * rewrite !Z.mod_pow2_bits_high by lia. reflexivity.
Qed.

Lemma WCHARs_of_bytes_flat_map (l : list WCHAR) n rest :
  (n <= length l)%nat ->
  WCHARs_of_bytes n (flat_map (le_bytes 2) l ++ rest)
  = (fun w => w mod 2 ^ 16) <$> take n l.
Proof.
  revert l. induction n as [| n IH]; intros l Hn; [reflexivity |].
  destruct l as [| w l]; [cbn in Hn; lia |].
  cbn [flat_map take fmap list_fmap WCHARs_of_bytes].
  change (le_bytes 2 w) with [Z.land w 255; Z.land (Z.shiftr w 8) 255].
  cbn [app take drop length Nat.sub replicate].
  f_equal.
  - change [Z.land w 255; Z.land (Z.shiftr w 8) 255] with (le_bytes 2 w).
    apply (le_value_le_bytes 2 w).
  - apply IH. cbn in Hn. lia.
Qed.

Lemma wcs_app_zero (q r : list WCHAR) :
  Forall (fun w => w <> 0) q -> wcs (q ++ 0 :: r) = q.
Proof.
  induction 1 as [| w q Hw _ IH]; [reflexivity |].
  cbn. destruct (Z.eqb_spec w 0); [contradiction |]. rewrite IH. reflexivity.
Qed.

(** The string the callback works with: the caller's path cut to
    [MAX_PATH_LENGTH - 1] units. *)
Lemma wcs_classify_processPath mv q :
  PROCESS_PATH_PRESENT mv = true ->
  metaProcessPath mv = Some (q ++ [0]) ->
  Forall (fun w => w <> 0) q ->
  wcs (classify_processPath mv) = take (MAX_PATH_LENGTH - 1) q.
Proof.
  intros Hp Hd Hq. unfold classify_processPath, WCHAR in *. rewrite Hp, Hd.
  rewrite length_app. cbn [length].
  destruct (Nat.ltb_spec 0 (length q + 1)); [| lia]. cbv zeta.
  assert (Hdrop : drop (MAX_PATH_LENGTH - 1) (replicate MAX_PATH_LENGTH 0) = [0])
    by reflexivity.
  remember (MAX_PATH_LENGTH - 1)%nat as m eqn:Hm.
  destruct (le_lt_dec m (length q)) as [Hlong | Hshort].
  - rewrite Nat.min_r by lia. rewrite take_app_le by lia. rewrite Hdrop.
    apply wcs_app_zero. apply Forall_take. exact Hq.
  - rewrite Nat.min_l by lia.
    rewrite (take_ge (q ++ [0])) by (rewrite length_app; cbn; lia).
    rewrite <- app_assoc. cbn [app]. rewrite (take_ge q) by lia.
    apply wcs_app_zero. exact Hq.
Qed.

Lemma IsAppInList_scan_app_None l1 l2 p :
  IsAppInList_scan l1 p = None ->
  IsAppInList_scan (l1 ++ l2) p = IsAppInList_scan l2 p.
Proof.
  induction l1 as [| a l1 IH]; cbn [IsAppInList_scan app]; [reflexivity |].
  destruct (_ =? 0); [discriminate | exact IH].
Qed.

Lemma NetGuardDeviceControl_ADD_ALLOWED g irp :
  IoControlCode irp = IOCTL_NETGUARD_ADD_ALLOWED ->
  NetGuardDeviceControl g irp
  = (mkIoStatus STATUS_SUCCESS 0 [],
     if (sizeof_ALLOWED_APP <=? InputBufferLength irp)%nat
        && (AllowedCount g <? MAX_ALLOWED_APPS)%nat
     then set_Allowed (<[AllowedCount g :=
                           ALLOWED_APP_of_bytes (default [] (SystemBuffer irp))]>
                         (AllowedApps g))
                      (S (AllowedCount g)) g
     else g).
Proof.
  intros Hcode. unfold NetGuardDeviceControl. rewrite Hcode.
  change (IOCTL_NETGUARD_ADD_ALLOWED =? IOCTL_NETGUARD_ENABLE) with false.
  change (IOCTL_NETGUARD_ADD_ALLOWED =? IOCTL_NETGUARD_DISABLE) with false.
  change (IOCTL_NETGUARD_ADD_ALLOWED =? IOCTL_NETGUARD_GET_PENDING) with false.
  change (IOCTL_NETGUARD_ADD_ALLOWED =? IOCTL_NETGUARD_RESPOND) with false.
  change (IOCTL_NETGUARD_ADD_ALLOWED =? IOCTL_NETGUARD_ADD_ALLOWED) with true.
  cbv iota zeta. destruct (_ <=? _)%nat; [| reflexivity].
  destruct (_ <? _)%nat; reflexivity.
Qed.

(** The entry IOCTL_NETGUARD_ADD_ALLOWED stores for a request that carries
    the path [q], its terminator and the flag [b]. *)
Lemma ALLOWED_APP_of_request q b tail :
  Forall (fun w => 0 < w < 2 ^ 16) q ->
  (length q < MAX_PATH_LENGTH)%nat ->
  ALLOWED_APP_of_bytes (path_bytes (q ++ [0]) ++ b :: tail)
  = mkApp (q ++ replicate (MAX_PATH_LENGTH - length q) 0) b.
Proof.
  intros Hq Hlen. unfold ALLOWED_APP_of_bytes, WCHAR in *. f_equal.
  - unfold path_bytes.
    rewrite WCHARs_of_bytes_flat_map
      by (rewrite length_take, !length_app, length_replicate; cbn [length]; lia).
    rewrite take_take, Nat.min_id.
    rewrite <- app_assoc. rewrite take_app_ge by (unfold WCHAR; lia).
    rewrite fmap_app. f_equal.
    + apply list_eq_same_length with (length q); rewrite ?length_fmap; auto.
      intros i x y Hi Hx Hy. rewrite list_lookup_fmap, Hy in Hx.
      cbn in Hx. injection Hx as <-.
      rewrite Forall_forall in Hq. apply Z.mod_small.
      assert (0 < y < 2 ^ 16); [| lia].
      apply Hq. eapply list_elem_of_lookup_2. exact Hy.
    + replace ([0] ++ replicate MAX_PATH_LENGTH 0)
        with (replicate (S MAX_PATH_LENGTH) 0) by reflexivity.
      rewrite take_replicate, Nat.min_l by lia.
      rewrite fmap_replicate. reflexivity.
  - rewrite app_nth2 by (rewrite length_path_bytes; lia).
    rewrite length_path_bytes, Nat.sub_diag. reflexivity.
Qed.

(** X3: registering an application and then classifying it.  A request
    IOCTL_NETGUARD_ADD_ALLOWED that carries the path [q] (at most 511 non-zero
    units and its terminator) and the flag [b], accepted while the Registry
    has a free slot, appends the entry [q], [b].  A path the Registry did not
    match before and that folds to the same lower-case string as [q] within
    its first 511 units is then found with the flag [b]; with enforcement
    enabled and a process id other than 0 and 4 the verdict is BLOCK when
    [b] is non-zero and PERMIT when it is zero. *)
Theorem registered_app_is_decided g irp q b tail fv mv out now q' :
  ctx_wf g ->
  (AllowedCount g < MAX_ALLOWED_APPS)%nat ->
  IoControlCode irp = IOCTL_NETGUARD_ADD_ALLOWED ->
  (sizeof_ALLOWED_APP <= InputBufferLength irp)%nat ->
  SystemBuffer irp = Some (path_bytes (q ++ [0]) ++ b :: tail) ->
  Forall (fun w => 0 < w < 2 ^ 16) q ->
  (length q < MAX_PATH_LENGTH)%nat ->
  PROCESS_PATH_PRESENT mv = true ->
  metaProcessPath mv = Some (q' ++ [0]) ->
  Forall (fun w => w <> 0) q' ->
  towlower <$> take (MAX_PATH_LENGTH - 1) q' = towlower <$> q ->
  IsAppInList g (classify_processPath mv) = None ->
  let g' := snd (NetGuardDeviceControl g irp) in
  registry g'
  = registry g ++ [mkApp (q ++ replicate (MAX_PATH_LENGTH - length q) 0) b] /\
  IsAppInList g' (classify_processPath mv) = Some b /\
  (Enabled g = true -> classify_processId mv <> 0 -> classify_processId mv <> 4 ->
   actionType (fst (NetGuardClassifyFn g' fv mv out now))
   = if b =? 0 then FWP_ACTION_PERMIT else FWP_ACTION_BLOCK).
Proof.
  intros Hwf Hfree Hcode Hlen Hbuf Hq Hqlen Hpres Hmeta Hq' Hfold Hnone g'.
  pose proof Hwf as (_ & _ & HlenA & _).
  assert (Hg' : g' = set_Allowed
                       (<[AllowedCount g :=
                            mkApp (q ++ replicate (MAX_PATH_LENGTH - length q) 0) b]>
                          (AllowedApps g)) (S (AllowedCount g)) g).
  { subst g'. rewrite NetGuardDeviceControl_ADD_ALLOWED by exact Hcode. cbn [snd].
    destruct (Nat.leb_spec sizeof_ALLOWED_APP (InputBufferLength irp)); [| lia].
    destruct (Nat.ltb_spec (AllowedCount g) MAX_ALLOWED_APPS); [| lia].
    cbn [andb]. rewrite Hbuf. cbn [from_option]. unfold id.
    rewrite ALLOWED_APP_of_request by assumption. reflexivity. }
  assert (Hreg : registry g'
                 = registry g
                   ++ [mkApp (q ++ replicate (MAX_PATH_LENGTH - length q) 0) b]).
  { rewrite Hg'. unfold registry. cbn.
    rewrite (take_S_r _ _ (mkApp (q ++ replicate (MAX_PATH_LENGTH - length q) 0) b))
      by (apply list_lookup_insert_eq; lia).
    rewrite take_insert_ge by lia. reflexivity. }
  assert (Hlook : IsAppInList g' (classify_processPath mv) = Some b).
  { unfold IsAppInList. rewrite Hreg.
    rewrite IsAppInList_scan_app_None by exact Hnone.
    cbn [IsAppInList_scan appPath blocked].
    assert (H0 : _wcsicmp (q ++ replicate (MAX_PATH_LENGTH - length q) 0)
                          (classify_processPath mv) = 0).
    { apply _wcsicmp_zero.
      rewrite (wcs_classify_processPath mv q') by assumption.
      replace (MAX_PATH_LENGTH - length q)%nat
        with (S (MAX_PATH_LENGTH - length q - 1)) by lia.
      cbn [replicate]. rewrite wcs_app_zero; [symmetry; exact Hfold |].
      eapply Forall_impl; [exact Hq |]. cbn. intros; lia. }
    rewrite H0. reflexivity. }
  split; [exact Hreg |]. split; [exact Hlook |].
  intros Hon Hn0 Hn4. unfold NetGuardClassifyFn.
  assert (Hon' : Enabled g' = true) by (rewrite Hg'; exact Hon).
  rewrite Hon'. cbn [negb]. cbv zeta.
  apply Z.eqb_neq in Hn0, Hn4. rewrite Hn0, Hn4. cbn [orb]. rewrite Hlook.
  destruct (b =? 0); reflexivity.
Qed.

Lemma registered_app_is_decided_witness :
  let g := three_pending_Context in
  let q := [99; 58; 92; 120] in
  let irp := mkIrp IOCTL_NETGUARD_ADD_ALLOWED
               (Some (path_bytes (q ++ [0]) ++ [TRUE; 0])) sizeof_ALLOWED_APP 0 in
  let mv := meta_of 100 [67; 58; 92; 88] in
  IsAppInList g (classify_processPath mv) = None /\
  IsAppInList (snd (NetGuardDeviceControl g irp)) (classify_processPath mv)
  = Some TRUE /\
  actionType (fst (NetGuardClassifyFn (snd (NetGuardDeviceControl g irp))
                     (mkIncoming 1 2) mv (mkClassifyOut FWP_ACTION_PERMIT 1) 9))
  = FWP_ACTION_BLOCK.
Proof.
  intros g q irp mv.
  assert (Hnone : IsAppInList g (classify_processPath mv) = None)
    by (vm_compute; reflexivity).
  assert (Hfree : (AllowedCount g < MAX_ALLOWED_APPS)%nat)
    by (apply Nat.ltb_lt; vm_compute; reflexivity).
  assert (Hq : Forall (fun w => 0 < w < 2 ^ 16) q)
    by (repeat constructor).
  assert (Hqlen : (length q < MAX_PATH_LENGTH)%nat)
    by (apply Nat.ltb_lt; vm_compute; reflexivity).
  assert (Hq' : Forall (fun w : Z => w <> 0) [67; 58; 92; 88])
    by (repeat constructor; discriminate).
  destruct (registered_app_is_decided g irp q TRUE [0] (mkIncoming 1 2) mv
              (mkClassifyOut FWP_ACTION_PERMIT 1) 9 [67; 58; 92; 88]
              three_pending_Context_wf Hfree eq_refl (le_n _) eq_refl Hq Hqlen
              eq_refl eq_refl Hq' eq_refl Hnone) as (_ & Hl & Hv).
  split; [exact Hnone |]. split; [exact Hl |].
  apply Hv; [reflexivity | vm_compute; discriminate | vm_compute; discriminate].
Defined.

(** * Requests the dispatcher turns down or ignores *)

(** X4: [NetGuardDeviceControl] fails a request, with
    STATUS_INVALID_DEVICE_REQUEST, exactly when its control code is none of
    the five it handles; IOCTL_NETGUARD_REMOVE_ALLOWED is declared but is one
    of those.  A failed request leaves the context unchanged.  A handled
    request is always completed with STATUS_SUCCESS, also when it is ignored:
    a RESPOND shorter than 9 bytes, an ADD_ALLOWED shorter than an
    [ALLOWED_APP] or arriving when the Registry is full change nothing. *)
Theorem unhandled_and_ignored_requests g irp :
  let r := NetGuardDeviceControl g irp in
  let handled := [IOCTL_NETGUARD_ENABLE; IOCTL_NETGUARD_DISABLE;
                  IOCTL_NETGUARD_GET_PENDING; IOCTL_NETGUARD_RESPOND;
                  IOCTL_NETGUARD_ADD_ALLOWED] in
  (Status (fst r) = STATUS_INVALID_DEVICE_REQUEST <-> (IoControlCode irp ∉ handled)) /\
  (Status (fst r) = STATUS_SUCCESS <-> (IoControlCode irp ∈ handled)) /\
  (IoControlCode irp ∉ handled ->
     r = (mkIoStatus STATUS_INVALID_DEVICE_REQUEST 0 [], g)) /\
  (IOCTL_NETGUARD_REMOVE_ALLOWED ∉ handled) /\
  (IoControlCode irp = IOCTL_NETGUARD_RESPOND ->
     (InputBufferLength irp < 8 + 1)%nat ->
     r = (mkIoStatus STATUS_SUCCESS 0 [], g)) /\
  (IoControlCode irp = IOCTL_NETGUARD_ADD_ALLOWED ->
     (InputBufferLength irp < sizeof_ALLOWED_APP)%nat \/
     (MAX_ALLOWED_APPS <= AllowedCount g)%nat ->
     r = (mkIoStatus STATUS_SUCCESS 0 [], g)).
Proof.
  intros r handled.
  assert (Hcases :
    ((IoControlCode irp ∈ handled) /\ Status (fst r) = STATUS_SUCCESS) \/
    ((IoControlCode irp ∉ handled) /\
     r = (mkIoStatus STATUS_INVALID_DEVICE_REQUEST 0 [], g))).
  { subst r handled. unfold NetGuardDeviceControl. cbv zeta.
    destruct (Z.eqb_spec (IoControlCode irp) IOCTL_NETGUARD_ENABLE) as [-> | H1];
      [left; split; [in_list | reflexivity] |].
    destruct (Z.eqb_spec (IoControlCode irp) IOCTL_NETGUARD_DISABLE) as [-> | H2];
      [left; split; [in_list | reflexivity] |].
    destruct (Z.eqb_spec (IoControlCode irp) IOCTL_NETGUARD_GET_PENDING) as [-> | H3];
      [left; split; [in_list | destruct (_ && _); reflexivity] |].
    destruct (Z.eqb_spec (IoControlCode irp) IOCTL_NETGUARD_RESPOND) as [-> | H4];
      [left; split; [in_list | destruct (_ <=? _)%nat; reflexivity] |].
    destruct (Z.eqb_spec (IoControlCode irp) IOCTL_NETGUARD_ADD_ALLOWED) as [-> | H5].
    - left. split; [in_list |].
      destruct (_ <=? _)%nat; [destruct (_ <? _)%nat |]; reflexivity.
    - right. split; [| reflexivity]. intros Hin.
      repeat (apply elem_of_cons in Hin as [Hin | Hin]; [contradiction |]).
      inversion Hin. }
  split; [| split; [| split; [| split; [| split]]]].
  - destruct Hcases as [[Hin Hs] | [Hout ->]]; split; intros H;
      try reflexivity; try contradiction; congruence.
  - destruct Hcases as [[Hin Hs] | [Hout Hr]]; split; intros H;
      try assumption; try contradiction.
    rewrite Hr in H. discriminate.
  - intros Hout. destruct Hcases as [[Hin _] | [_ Hr]]; [contradiction | exact Hr].
  - subst handled. intros Hin. repeat (apply elem_of_cons in Hin as [Hin | Hin];
      [vm_compute in Hin; discriminate |]). inversion Hin.
  - intros Hcode Hshort. subst r.
    rewrite NetGuardDeviceControl_RESPOND by exact Hcode.
    destruct (Nat.leb_spec (8 + 1) (InputBufferLength irp)); [lia | reflexivity].
  - intros Hcode Hign. subst r.
    rewrite NetGuardDeviceControl_ADD_ALLOWED by exact Hcode.
    destruct (Nat.leb_spec sizeof_ALLOWED_APP (InputBufferLength irp));
      destruct (Nat.ltb_spec (AllowedCount g) MAX_ALLOWED_APPS);
      cbn [andb]; try reflexivity. lia.
Qed.

(** * Invariants of the Pending Queue *)

Lemma effect_queued_new g g' :
  ctx_wf g -> effect g g' ->
  queued_by g g' = [] \/
  exists pid path ip port now,
    queued_by g g' = [new_connection g pid path ip port now].
Proof.
  intros Hwf Heff. pose proof Hwf as (HlenP & HcntP & _).
  destruct Heff as [| b | | | app Hfree | pid path ip port now Hfree | k c a Hk Hl];
    try (left; apply queued_by_fewer; cbn; lia).
  right. exists pid, path, ip, port, now.
  rewrite AddPendingConnection_free by exact Hfree.
  unfold queued_by. cbn. rewrite pending_append by lia.
  apply drop_app_length'. rewrite length_pending; auto.
Qed.

Lemma queued_unmarked g cs :
  ctx_wf g ->
  Forall (fun c => responded c = FALSE /\ allowed c = FALSE) (queued g cs).
Proof.
  revert g. induction cs as [| c cs IH]; intros g Hwf; [constructor |].
  cbn [queued]. apply Forall_app. split; [| apply IH, step_wf, Hwf].
  destruct (effect_queued_new g (step g c) Hwf) as [-> | (? & ? & ? & ? & ? & ->)].
  - apply step_effect. destruct Hwf as (-> & ? & _). assumption.
  - constructor.
  - repeat constructor.
Qed.

Lemma run_pending_sublist g cs :
  ctx_wf g -> pending (run g cs) `sublist_of` pending g ++ queued g cs.
Proof.
  revert g. induction cs as [| c cs IH]; intros g Hwf.
  - cbn. rewrite app_nil_r. reflexivity.
  - cbn [run fold_left queued]. fold (run (step g c) cs).
    transitivity (pending (step g c) ++ queued (step g c) cs);
      [apply IH, step_wf, Hwf |].
    rewrite app_assoc. apply sublist_app; [| reflexivity].
    destruct (step_queued g c Hwf)
      as [(-> & _ & [-> | (k & ->)]) | (conn & -> & _ & _ & ->)];
      rewrite ?app_nil_r; try reflexivity.
    apply sublist_delete.
Qed.

(** X5: in every context reached from [DriverEntry] the queue holds at most
    [MAX_PENDING_CONNECTIONS] entries, and these are entries that
    classifications queued, unmodified and in the order of their admission
    (a subsequence of the admission history).  No queued entry carries the
    responded or the allowed mark, so IOCTL_NETGUARD_GET_PENDING never shows
    a resolved entry.  While the counter has not wrapped the ids in the queue
    are non-zero, at most [TotalConnections], and strictly increasing from the
    front of the queue to its end. *)
Theorem pending_queue_invariant cs :
  let g := run DriverEntry_Context cs in
  let history := queued DriverEntry_Context cs in
  ctx_wf g /\
  length (pending g) = PendingCount g /\
  (PendingCount g <= MAX_PENDING_CONNECTIONS)%nat /\
  pending g `sublist_of` history /\
  Forall (fun c => responded c = FALSE /\ allowed c = FALSE) (pending g) /\
  (Z.of_nat (length history) < 2 ^ 64 ->
     StronglySorted Z.lt (pending_ids g) /\
     Forall (fun id => 1 <= id <= TotalConnections g) (pending_ids g)).
Proof.
  intros g history.
  pose proof (run_wf DriverEntry_Context cs DriverEntry_Context_wf) as Hwf.
  fold g in Hwf.
  assert (Hsub : pending g `sublist_of` history).
  { apply (run_pending_sublist DriverEntry_Context cs DriverEntry_Context_wf). }
  split; [exact Hwf |]. split; [apply length_pending, Hwf |].
  split; [apply Hwf |]. split; [exact Hsub |]. split.
  - apply sublist_subseteq in Hsub.
    pose proof (queued_unmarked DriverEntry_Context cs DriverEntry_Context_wf) as Hq.
    rewrite Forall_forall in Hq |- *. intros c Hc. apply Hq, Hsub, Hc.
  - intros Hbound. unfold history in Hbound.
    apply (run_ids_inv DriverEntry_Context cs);
      [exact DriverEntry_Context_wf | cbn; lia | cbn; lia
      | exact DriverEntry_Context_ids_inv].
Qed.

(** * From IOCTL_NETGUARD_GET_PENDING to IOCTL_NETGUARD_RESPOND *)

(** X6: the id a client reads in the first eight bytes of the [j]-th record
    returned by IOCTL_NETGUARD_GET_PENDING is the connection id of the
    [j]-th queued entry, and sending it back in an IOCTL_NETGUARD_RESPOND
    request removes exactly that entry (in every context reached from
    [DriverEntry] before the counter wraps). *)
Theorem listed_id_resolves_its_entry cs j c irpG a :
  let g := run DriverEntry_Context cs in
  let sz := sizeof_PENDING_CONNECTION in
  Z.of_nat (length (queued DriverEntry_Context cs)) < 2 ^ 64 ->
  pending g !! j = Some c ->
  IoControlCode irpG = IOCTL_NETGUARD_GET_PENDING ->
  SystemBuffer irpG <> None ->
  (S j * sz <= OutputBufferLength irpG)%nat ->
  let record := take sz (drop (j * sz) (OutputData (fst (NetGuardDeviceControl g irpG)))) in
  let irpR := mkIrp IOCTL_NETGUARD_RESPOND (Some (take 8 record ++ [a])) 9 0 in
  record = PENDING_CONNECTION_bytes c /\
  le_value (take 8 record) = connectionId c /\
  NetGuardDeviceControl g irpR
  = (mkIoStatus STATUS_SUCCESS 0 [], respond_at g j c a) /\
  pending (snd (NetGuardDeviceControl g irpR)) = delete j (pending g).
Proof.
  intros g sz Hbound Hj HcodeG HbufG Hroom record irpR.
  pose proof (run_wf DriverEntry_Context cs DriverEntry_Context_wf) as Hwf.
  fold g in Hwf.
  destruct (run_pending_ids_NoDup cs Hbound) as [_ Hnd]. fold g in Hnd.
  destruct (run_ids_inv DriverEntry_Context cs) as [_ Hrange];
    [exact DriverEntry_Context_wf | cbn; lia | cbn; lia
    | exact DriverEntry_Context_ids_inv |].
  fold g in Hrange.
  assert (HT : 0 <= TotalConnections g < 2 ^ 64).
  { subst g. rewrite run_TotalConnections;
      [apply wrap64_range | exact DriverEntry_Context_wf | cbn; lia]. }
  assert (Hid : 0 <= connectionId c < 2 ^ 64).
  { rewrite Forall_forall in Hrange.
    assert (1 <= connectionId c <= TotalConnections g); [| lia].
    apply Hrange. apply list_elem_of_fmap_2. eapply list_elem_of_lookup_2. exact Hj. }
  assert (Hrec : record = PENDING_CONNECTION_bytes c).
  { subst record. rewrite (GET_PENDING_result g irpG Hwf HcodeG)
      by (intros; contradiction). cbn [fst OutputData].
    apply (record_in_image PENDING_CONNECTION_bytes sz (pending g) _ j c);
      [apply length_PENDING_CONNECTION_bytes | exact Hj |].
    apply lookup_lt_Some in Hj. rewrite length_pending in Hj by exact Hwf.
    fold sz. nia. }
  assert (Hhead : take 8 record = le_bytes 8 (connectionId c)).
  { rewrite Hrec. unfold PENDING_CONNECTION_bytes.
    apply take_app_length'. rewrite length_le_bytes. reflexivity. }
  assert (Hval : le_value (take 8 record) = connectionId c).
  { rewrite Hhead, le_value_le_bytes. apply Z.mod_small. exact Hid. }
  assert (Hreq : respond_connId irpR = connectionId c).
  { unfold respond_connId, irpR. cbn [SystemBuffer from_option]. unfold id.
    rewrite Hhead, take_app_length' by (rewrite length_le_bytes; reflexivity).
    rewrite <- Hhead. exact Hval. }
  assert (Ha : respond_allowed irpR = a).
  { unfold respond_allowed, irpR. cbn [SystemBuffer from_option]. unfold id.
    rewrite Hhead, app_nth2 by (rewrite length_le_bytes; lia).
    rewrite length_le_bytes. reflexivity. }
  destruct (respond_resolves g irpR j c Hwf Hnd eq_refl) as (Hr & Hp & _);
    [cbn; lia | exact Hj | symmetry; exact Hreq |].
  rewrite Ha in Hr, Hp.
  split; [exact Hrec |]. split; [exact Hval |]. split; [exact Hr |].
  rewrite Hr. exact Hp.
Qed.

Lemma listed_id_resolves_its_entry_witness :
  let g := run DriverEntry_Context three_pending_calls in
  let irpG := get_pending_irp 4000 in
  let record := take sizeof_PENDING_CONNECTION
                  (drop (1 * sizeof_PENDING_CONNECTION)
                     (OutputData (fst (NetGuardDeviceControl g irpG)))) in
  let irpR := mkIrp IOCTL_NETGUARD_RESPOND (Some (take 8 record ++ [TRUE])) 9 0 in
  Z.of_nat (length (queued DriverEntry_Context three_pending_calls)) < 2 ^ 64 /\
  le_value (take 8 record) = 2 /\
  pending_ids (snd (NetGuardDeviceControl g irpR)) = [1; 3].
Proof.
  intros g irpG record irpR.
  assert (Hb : Z.of_nat (length (queued DriverEntry_Context three_pending_calls))
               < 2 ^ 64) by (vm_compute; reflexivity).
  split; [exact Hb |].
  destruct (pending g !! 1%nat) as [c |] eqn:Hc; [| vm_compute in Hc; discriminate].
  assert (Hbuf : SystemBuffer irpG <> None) by discriminate.
  assert (Hroom : (2 * sizeof_PENDING_CONNECTION <= OutputBufferLength irpG)%nat)
    by (apply Nat.leb_le; vm_compute; reflexivity).
  destruct (listed_id_resolves_its_entry three_pending_calls 1 c irpG TRUE
              Hb Hc eq_refl Hbuf Hroom) as (_ & Hval & _ & Hp).
  split.
  - etransitivity; [exact Hval |].
    vm_compute in Hc. injection Hc as <-. reflexivity.
  - unfold pending_ids.
    etransitivity; [exact (f_equal (fmap connectionId) Hp) |].
    vm_compute. reflexivity.
Defined.

(** * The allowed flag of a response *)

Lemma same_view_refl g : same_view g g.
Proof. constructor; reflexivity. Qed.

Lemma same_view_length g1 g2 :
  same_view g1 g2 -> length (PendingConnections g1) = length (PendingConnections g2).
Proof.
  intros Hsv. pose proof (f_equal length (sv_paths _ _ Hsv)) as H.
  rewrite !length_fmap in H. exact H.
Qed.

(** The paths left in the slots after a removal depend on the paths before
    it, on the slot and on the count only. *)
Lemma respond_at_paths g k c a :
  PendingConnections g !! k = Some c ->
  processPath <$> PendingConnections (respond_at g k c a)
  = if (k <? PendingCount g - 1)%nat
    then RtlMoveMemory_slots (processPath <$> PendingConnections g)
                             k (k + 1) (PendingCount g - k - 1)
    else processPath <$> PendingConnections g.
Proof.
  intros Hk. unfold respond_at, set_Pending. cbn [PendingConnections].
  assert (Hins : forall x, processPath x = processPath c ->
            processPath <$> <[k := x]> (PendingConnections g)
            = processPath <$> PendingConnections g).
  { intros x Hx. rewrite list_fmap_insert, Hx. apply list_insert_id.
    rewrite list_lookup_fmap, Hk. reflexivity. }
  destruct (k <? PendingCount g - 1)%nat.
  - unfold RtlMoveMemory_slots.
    rewrite !fmap_app, !fmap_take, !fmap_drop, Hins by reflexivity. reflexivity.
  - apply Hins. reflexivity.
Qed.

Lemma respond_loop_same_view g1 g2 id a1 a2 :
  ctx_wf g1 -> ctx_wf g2 -> same_view g1 g2 ->
  same_view (respond_loop (PendingCount g1) 0 g1 id a1)
            (respond_loop (PendingCount g2) 0 g2 id a2).
Proof.
  intros Hwf1 Hwf2 Hsv.
  pose proof Hwf1 as (HlenP1 & HcntP1 & _). pose proof Hwf2 as (HlenP2 & HcntP2 & _).
  destruct (decide (id ∈ pending_ids g1)) as [Hin | Hnot].
  - destruct (respond_loop_found g1 id a1) as (k1 & c1 & Hk1 & Hid1 & Hf1 & -> & Hlt1 & Hp1);
      [lia | exact Hin |].
    assert (Hin2 : id ∈ pending_ids g2)
      by (unfold pending_ids; rewrite <- (sv_pending _ _ Hsv); exact Hin).
    destruct (respond_loop_found g2 id a2) as (k2 & c2 & Hk2 & Hid2 & Hf2 & -> & Hlt2 & Hp2);
      [lia | exact Hin2 |].
    rewrite <- (sv_pending _ _ Hsv) in Hk2, Hf2.
    assert (k1 = k2).
    { destruct (lt_eq_lt_dec k1 k2) as [[Hlt | Heq] | Hgt]; [| exact Heq |].
      - exfalso. exact (Hf2 k1 c1 Hlt Hk1 Hid1).
      - exfalso. exact (Hf1 k2 c2 Hgt Hk2 Hid2). }
    subst k2. assert (c2 = c1) by congruence. subst c2.
    assert (Hl1 : PendingConnections g1 !! k1 = Some c1).
    { unfold pending in Hk1. apply lookup_take_Some in Hk1 as [H _]. exact H. }
    assert (Hl2 : PendingConnections g2 !! k1 = Some c1).
    { rewrite (sv_pending _ _ Hsv) in Hk2. unfold pending in Hk2.
      apply lookup_take_Some in Hk2 as [H _]. exact H. }
    destruct (respond_at_fields g1 k1 c1 a1) as (E1 & E2 & E3 & E4 & E5 & E6 & E7 & E8).
    destruct (respond_at_fields g2 k1 c1 a2) as (F1 & F2 & F3 & F4 & F5 & F6 & F7 & F8).
    destruct Hsv as [H1 H2 H3 H4 H5 H6 H7 H8 H9 H10].
    constructor; try congruence.
    rewrite !respond_at_paths by assumption. rewrite H2, H4. reflexivity.
  - rewrite respond_loop_not_found by (auto; lia).
    rewrite respond_loop_not_found; [exact Hsv | lia |].
    unfold pending_ids. rewrite <- (sv_pending _ _ Hsv). exact Hnot.
Qed.

Lemma AddPendingConnection_same_view g1 g2 pid path ip port now :
  ctx_wf g1 -> ctx_wf g2 -> same_view g1 g2 ->
  fst (AddPendingConnection g1 pid path ip port now)
  = fst (AddPendingConnection g2 pid path ip port now) /\
  same_view (snd (AddPendingConnection g1 pid path ip port now))
            (snd (AddPendingConnection g2 pid path ip port now)).
Proof.
  intros Hwf1 Hwf2 Hsv.
  pose proof Hwf1 as (HlenP1 & HcntP1 & _). pose proof Hwf2 as (HlenP2 & HcntP2 & _).
  destruct (le_lt_dec MAX_PENDING_CONNECTIONS (PendingCount g1)) as [Hfull | Hfree].
  - rewrite !AddPendingConnection_full
      by (rewrite <- ?(sv_PendingCount _ _ Hsv); exact Hfull).
    split; [reflexivity | exact Hsv].
  - rewrite !AddPendingConnection_free
      by (rewrite <- ?(sv_PendingCount _ _ Hsv); exact Hfree).
    cbn [fst snd].
    assert (Hnew : new_connection g1 pid path ip port now
                   = new_connection g2 pid path ip port now).
    { unfold new_connection. rewrite (sv_TotalConnections _ _ Hsv).
      f_equal. f_equal.
      pose proof (f_equal (fun l => l !! PendingCount g1) (sv_paths _ _ Hsv)) as H.
      cbn beta in H. rewrite !list_lookup_fmap in H.
      rewrite <- (sv_PendingCount _ _ Hsv).
      destruct (PendingConnections g1 !! PendingCount g1);
        destruct (PendingConnections g2 !! PendingCount g1);
        cbn in H |- *; congruence. }
    split; [rewrite (sv_TotalConnections _ _ Hsv); reflexivity |].
    destruct Hsv as [H1 H2 H3 H4 H5 H6 H7 H8 H9 H10].
    constructor; cbn; try congruence.
    + rewrite !pending_append by lia. congruence.
    + rewrite !list_fmap_insert. congruence.
Qed.

Lemma same_view_IsAppInList g1 g2 p :
  same_view g1 g2 -> IsAppInList g1 p = IsAppInList g2 p.
Proof.
  intros Hsv. unfold IsAppInList, registry.
  rewrite (sv_AllowedApps _ _ Hsv), (sv_AllowedCount _ _ Hsv). reflexivity.
Qed.

Lemma same_view_classify g1 g2 fv mv out now :
  ctx_wf g1 -> ctx_wf g2 -> same_view g1 g2 ->
  fst (NetGuardClassifyFn g1 fv mv out now) = fst (NetGuardClassifyFn g2 fv mv out now) /\
  same_view (snd (NetGuardClassifyFn g1 fv mv out now))
            (snd (NetGuardClassifyFn g2 fv mv out now)).
Proof.
  intros Hwf1 Hwf2 Hsv. unfold NetGuardClassifyFn.
  rewrite (sv_Enabled _ _ Hsv). destruct (Enabled g2); cbn [negb]; [| auto].
  cbv zeta. destruct (_ || _); [auto |].
  rewrite (same_view_IsAppInList g1 g2 _ Hsv).
  destruct (IsAppInList g2 _) as [b |].
  - rewrite (sv_BlockedConnections _ _ Hsv), (sv_AllowedConnections _ _ Hsv).
    destruct (negb _); (split; [reflexivity |]); same_view_fields Hsv.
  - destruct (AddPendingConnection_same_view g1 g2 (classify_processId mv)
                (classify_processPath mv) (IP_REMOTE_ADDRESS fv) (IP_REMOTE_PORT fv)
                now Hwf1 Hwf2 Hsv) as [Hid Hsv'].
    destruct (AddPendingConnection g1 _ _ _ _ now) as [id1 g1'].
    destruct (AddPendingConnection g2 _ _ _ _ now) as [id2 g2'].
    cbn [fst snd] in Hid, Hsv'. subst id2.
    destruct (0 <? id1); auto.
Qed.

Lemma same_view_device_control g1 g2 irp :
  ctx_wf g1 -> ctx_wf g2 -> same_view g1 g2 ->
  fst (NetGuardDeviceControl g1 irp) = fst (NetGuardDeviceControl g2 irp) /\
  same_view (snd (NetGuardDeviceControl g1 irp)) (snd (NetGuardDeviceControl g2 irp)).
Proof.
  intros Hwf1 Hwf2 Hsv. unfold NetGuardDeviceControl. cbv zeta.
  destruct (_ =? IOCTL_NETGUARD_ENABLE).
  { split; [reflexivity |]. same_view_fields Hsv. }
  destruct (_ =? IOCTL_NETGUARD_DISABLE).
  { split; [reflexivity |]. same_view_fields Hsv. }
  destruct (_ =? IOCTL_NETGUARD_GET_PENDING).
  { rewrite (sv_PendingCount _ _ Hsv).
    rewrite !take_PendingConnections_bytes
      by (rewrite ?(sv_PendingCount _ _ Hsv); lia).
    rewrite (sv_pending _ _ Hsv). destruct (_ && _); auto. }
  destruct (_ =? IOCTL_NETGUARD_RESPOND).
  { destruct (_ <=? _)%nat; [| auto]. cbn [fst snd]. split; [reflexivity |].
    apply respond_loop_same_view; assumption. }
  destruct (_ =? IOCTL_NETGUARD_ADD_ALLOWED); [| auto].
  destruct (_ <=? _)%nat; [| auto].
  rewrite (sv_AllowedCount _ _ Hsv). destruct (_ <? _)%nat; [| auto].
  split; [reflexivity |]. same_view_fields Hsv.
Qed.

Lemma same_view_step g1 g2 c :
  ctx_wf g1 -> ctx_wf g2 -> same_view g1 g2 ->
  answer_of g1 c = answer_of g2 c /\ same_view (step g1 c) (step g2 c).
Proof.
  intros Hwf1 Hwf2 Hsv. destruct c as [fv mv out now | irp]; cbn [answer_of step].
  - destruct (same_view_classify g1 g2 fv mv out now Hwf1 Hwf2 Hsv) as [-> H].
    auto.
  - destruct (same_view_device_control g1 g2 irp Hwf1 Hwf2 Hsv) as [-> H]. auto.
Qed.

Lemma same_view_run g1 g2 cs :
  ctx_wf g1 -> ctx_wf g2 -> same_view g1 g2 ->
  answers g1 cs = answers g2 cs /\ same_view (run g1 cs) (run g2 cs).
Proof.
  revert g1 g2. induction cs as [| c cs IH]; intros g1 g2 Hwf1 Hwf2 Hsv; [auto |].
  cbn [answers run fold_left]. fold (run (step g1 c) cs) (run (step g2 c) cs).
  destruct (same_view_step g1 g2 c Hwf1 Hwf2 Hsv) as [-> Hsv'].
  destruct (IH _ _ (step_wf g1 c Hwf1) (step_wf g2 c Hwf2) Hsv') as [-> H]. auto.
Qed.

(** X7: the allowed flag of IOCTL_NETGUARD_RESPOND decides nothing.  Two
    responses that name the same connection id, whatever flags they carry, are
    completed alike and leave contexts from which every later call gets the
    same answer: the same verdict for every classification, the same status
    and the same bytes for every request.  The queue, the Registry and the
    counters they leave are the same. *)
Theorem response_flag_is_never_observed g irp1 irp2 cs :
  ctx_wf g ->
  IoControlCode irp1 = IOCTL_NETGUARD_RESPOND ->
  IoControlCode irp2 = IOCTL_NETGUARD_RESPOND ->
  InputBufferLength irp1 = InputBufferLength irp2 ->
  respond_connId irp1 = respond_connId irp2 ->
  let g1 := snd (NetGuardDeviceControl g irp1) in
  let g2 := snd (NetGuardDeviceControl g irp2) in
  fst (NetGuardDeviceControl g irp1) = fst (NetGuardDeviceControl g irp2) /\
  answers g1 cs = answers g2 cs /\
  same_view g1 g2 /\
  same_view (run g1 cs) (run g2 cs).
Proof.
  intros Hwf Hc1 Hc2 Hlen Hid g1 g2. subst g1 g2.
  rewrite !NetGuardDeviceControl_RESPOND by assumption. cbn [fst snd].
  rewrite Hlen, Hid.
  assert (Hsv : same_view
            (if (8 + 1 <=? InputBufferLength irp2)%nat
             then respond_loop (PendingCount g) 0 g (respond_connId irp2)
                               (respond_allowed irp1) else g)
            (if (8 + 1 <=? InputBufferLength irp2)%nat
             then respond_loop (PendingCount g) 0 g (respond_connId irp2)
                               (respond_allowed irp2) else g)).
  { destruct (_ <=? _)%nat; [| apply same_view_refl].
    apply respond_loop_same_view; auto using same_view_refl. }
  assert (Hwf' : forall a,
            ctx_wf (if (8 + 1 <=? InputBufferLength irp2)%nat
                    then respond_loop (PendingCount g) 0 g (respond_connId irp2) a
                    else g)).
  { intros a. destruct (_ <=? _)%nat; [| exact Hwf].
    pose proof Hwf as (HlenP & HcntP & _).
    destruct (respond_loop_spec (PendingCount g) 0 g (respond_connId irp2) a)
      as [[_ ->] | (k & c & Hk & Hl & _ & _ & ->)];
      [lia | lia | intros; lia | exact Hwf |].
    apply (effect_wf g); [exact Hwf |]. apply effect_resolve; assumption. }
  split; [reflexivity |].
  destruct (same_view_run _ _ cs (Hwf' (respond_allowed irp1))
              (Hwf' (respond_allowed irp2)) Hsv) as [Ha Hr].
  auto.
Qed.

Lemma response_flag_is_never_observed_witness :
  let g := three_pending_Context in
  let cs := [classify_call 100 path_a 7; ioctl IOCTL_NETGUARD_GET_PENDING [] 4000;
             classify_call 200 [120] 8] in
  respond_connId (respond_irp 3 TRUE) = respond_connId (respond_irp 3 FALSE) /\
  snd (NetGuardDeviceControl g (respond_irp 3 TRUE))
  <> snd (NetGuardDeviceControl g (respond_irp 3 FALSE)) /\
  answers (snd (NetGuardDeviceControl g (respond_irp 3 TRUE))) cs
  = answers (snd (NetGuardDeviceControl g (respond_irp 3 FALSE))) cs.
Proof.
  intros g cs.
  assert (Hid : respond_connId (respond_irp 3 TRUE) = respond_connId (respond_irp 3 FALSE))
    by reflexivity.
  split; [exact Hid |]. split.
  - intros Heq. apply (f_equal (fun x => allowed <$> PendingConnections x !! 2%nat)) in Heq.
    vm_compute in Heq. discriminate.
  - destruct (response_flag_is_never_observed g (respond_irp 3 TRUE)
                (respond_irp 3 FALSE) cs three_pending_Context_wf
                eq_refl eq_refl eq_refl Hid) as (_ & Ha & _).
    exact Ha.
Defined.

(** * The path recorded in a queued entry *)

Lemma wcs_nonzero l : Forall (fun w => w <> 0) (wcs l).
Proof.
  induction l as [| c l IH]; cbn; [constructor |].
  destruct (Z.eqb_spec c 0); constructor; assumption.
Qed.

Lemma wcs_length_le l i : l !! i = Some 0 -> (length (wcs l) <= i)%nat.
Proof.
  revert i. induction l as [| c l IH]; intros i Hi; [discriminate |].
  cbn. destruct (Z.eqb_spec c 0); cbn; [lia |].
  destruct i as [| i]; cbn in Hi; [congruence |].
  specialize (IH i Hi). lia.
Qed.

Lemma replicate_zero_end (k : nat) : replicate k 0 ++ [0] = 0 :: replicate k 0.
Proof. induction k as [| k IH]; cbn; [| rewrite IH]; reflexivity. Qed.

(** [wcsncpy] into a slot whose last unit is zero leaves a terminated copy of
    a string shorter than the slot. *)
Lemma wcs_wcsncpy old src :
  length old = MAX_PATH_LENGTH ->
  old !! (MAX_PATH_LENGTH - 1)%nat = Some 0 ->
  (length (wcs src) <= MAX_PATH_LENGTH - 1)%nat ->
  wcs (wcsncpy old src (MAX_PATH_LENGTH - 1)) = wcs src /\
  length (wcsncpy old src (MAX_PATH_LENGTH - 1)) = MAX_PATH_LENGTH /\
  wcsncpy old src (MAX_PATH_LENGTH - 1) !! (MAX_PATH_LENGTH - 1)%nat = Some 0.
Proof.
  intros Hlen Hlast Hs. unfold wcsncpy.
  remember (MAX_PATH_LENGTH - 1)%nat as m eqn:Hm.
  assert (HM : MAX_PATH_LENGTH = S m) by (subst m; reflexivity).
  assert (Hdrop : drop m old = [0]).
  { rewrite (drop_S old 0 m Hlast), drop_ge by lia. reflexivity. }
  rewrite Hdrop.
  rewrite take_app_ge by exact Hs.
  rewrite take_replicate, Nat.min_l by lia.
  split; [| split].
  - rewrite <- app_assoc, replicate_zero_end. apply wcs_app_zero, wcs_nonzero.
  - rewrite !length_app, length_replicate. cbn. lia.
  - rewrite lookup_app_r by (rewrite length_app, length_replicate; lia).
    rewrite length_app, length_replicate.
    replace (m - (length (wcs src) + (m - length (wcs src))))%nat with 0%nat by lia.
    reflexivity.
Qed.

Lemma classify_processPath_terminated mv :
  length (classify_processPath mv) = MAX_PATH_LENGTH /\
  classify_processPath mv !! (MAX_PATH_LENGTH - 1)%nat = Some 0.
Proof.
  unfold classify_processPath, WCHAR.
  assert (Hbuf : length (replicate MAX_PATH_LENGTH 0) = MAX_PATH_LENGTH /\
                 replicate MAX_PATH_LENGTH 0 !! (MAX_PATH_LENGTH - 1)%nat = Some 0).
  { split; [apply length_replicate | reflexivity]. }
  destruct (PROCESS_PATH_PRESENT mv); [| exact Hbuf].
  destruct (metaProcessPath mv) as [data |]; [| exact Hbuf].
  destruct (_ <? _)%nat; [| exact Hbuf]. cbv zeta. unfold WCHAR in *.
  remember (length data `min` (MAX_PATH_LENGTH - 1))%nat as k eqn:Hk.
  assert (Hk1 : (k <= MAX_PATH_LENGTH - 1)%nat) by lia.
  assert (Hk2 : (k <= length data)%nat) by lia.
  assert (HM : (MAX_PATH_LENGTH - 1 < MAX_PATH_LENGTH)%nat)
    by (unfold MAX_PATH_LENGTH; lia).
  split.
  - rewrite length_app, length_take, length_drop, length_replicate. lia.
  - rewrite lookup_app_r by (rewrite length_take; lia).
    rewrite length_take, Nat.min_l by lia.
    rewrite lookup_drop. apply lookup_replicate_2. lia.
Qed.

Lemma AddPendingConnection_paths_terminated g pid path ip port now :
  ctx_wf g -> (length (wcs path) <= MAX_PATH_LENGTH - 1)%nat ->
  paths_terminated g ->
  paths_terminated (snd (AddPendingConnection g pid path ip port now)).
Proof.
  intros Hwf Hsrc Hinv. pose proof Hwf as (HlenP & HcntP & _).
  destruct (le_lt_dec MAX_PENDING_CONNECTIONS (PendingCount g)) as [Hfull | Hfree].
  { rewrite AddPendingConnection_full by exact Hfull. exact Hinv. }
  rewrite AddPendingConnection_free by exact Hfree.
  unfold paths_terminated in *. cbn.
  apply Forall_insert; [exact Hinv |]. cbn.
  destruct (lookup_lt_is_Some_2 (PendingConnections g) (PendingCount g)) as [old Hold];
    [lia |].
  rewrite Hold. cbn.
  rewrite Forall_forall in Hinv.
  destruct (Hinv old (list_elem_of_lookup_2 _ _ _ Hold)) as [Hlen Hlast].
  destruct (wcs_wcsncpy (processPath old) path Hlen Hlast Hsrc) as (_ & H1 & H2).
  split; assumption.
Qed.

Lemma respond_at_paths_terminated g k c a :
  PendingConnections g !! k = Some c ->
  paths_terminated g -> paths_terminated (respond_at g k c a).
Proof.
  intros Hl Hinv. unfold paths_terminated in *.
  unfold respond_at, set_Pending. cbn [PendingConnections].
  assert (Hins : Forall (fun c => length (processPath c) = MAX_PATH_LENGTH /\
                   processPath c !! (MAX_PATH_LENGTH - 1)%nat = Some 0)
                   (<[k := mkPending (connectionId c) (processId c) (processPath c)
                                     (remoteIp c) (remotePort c) (timestamp c) TRUE a]>
                      (PendingConnections g))).
  { apply Forall_insert; [exact Hinv |]. cbn.
    rewrite Forall_forall in Hinv. apply Hinv.
    eapply list_elem_of_lookup_2. exact Hl. }
  destruct (k <? PendingCount g - 1)%nat; [| exact Hins].
  unfold RtlMoveMemory_slots.
  repeat first [apply Forall_app_2 | apply Forall_take | apply Forall_drop]; exact Hins.
Qed.

Lemma step_paths_terminated g c :
  ctx_wf g -> paths_terminated g -> paths_terminated (step g c).
Proof.
  intros Hwf Hinv. pose proof Hwf as (HlenP & HcntP & _).
  destruct c as [fv mv out now | irp]; cbn [step].
  - unfold NetGuardClassifyFn.
    destruct (Enabled g); cbn [negb]; [| exact Hinv]. cbv zeta.
    destruct (_ || _); [exact Hinv |].
    destruct (IsAppInList g _) as [b |]; [destruct (negb _); exact Hinv |].
    pose proof (AddPendingConnection_paths_terminated g (classify_processId mv)
                  (classify_processPath mv) (IP_REMOTE_ADDRESS fv) (IP_REMOTE_PORT fv)
                  now Hwf) as H.
    destruct (AddPendingConnection g _ _ _ _ now) as [id g'].
    cbn [snd] in H.
    assert (paths_terminated g').
    { apply H; [| exact Hinv]. apply wcs_length_le.
      apply classify_processPath_terminated. }
    destruct (0 <? id); assumption.
  - unfold NetGuardDeviceControl. cbv zeta.
    destruct (_ =? IOCTL_NETGUARD_ENABLE); [exact Hinv |].
    destruct (_ =? IOCTL_NETGUARD_DISABLE); [exact Hinv |].
    destruct (_ =? IOCTL_NETGUARD_GET_PENDING); [destruct (_ && _); exact Hinv |].
    destruct (_ =? IOCTL_NETGUARD_RESPOND).
    { destruct (_ <=? _)%nat; [| exact Hinv]. cbn [snd].
      set (id := le_value _). set (a := nth _ _ _).
      destruct (respond_loop_spec (PendingCount g) 0 g id a)
        as [[_ ->] | (k & c & Hk & Hl & _ & _ & ->)];
        [lia | lia | intros; lia | exact Hinv |].
      apply respond_at_paths_terminated; assumption. }
    destruct (_ =? IOCTL_NETGUARD_ADD_ALLOWED); [| exact Hinv].
    destruct (_ <=? _)%nat; [| exact Hinv].
    destruct (_ <? _)%nat; exact Hinv.
Qed.

Lemma run_paths_terminated g cs :
  ctx_wf g -> paths_terminated g -> paths_terminated (run g cs).
Proof.
  revert g. induction cs as [| c cs IH]; intros g Hwf Hinv; [exact Hinv |].
  cbn [run fold_left]. fold (run (step g c) cs).
  apply IH; [apply step_wf, Hwf | apply step_paths_terminated; assumption].
Qed.

Lemma DriverEntry_Context_paths_terminated : paths_terminated DriverEntry_Context.
Proof.
  unfold paths_terminated, DriverEntry_Context. cbn [PendingConnections].
  apply Forall_replicate. split; [apply length_replicate | reflexivity].
Qed.

(** A classification that queues an entry queues [new_connection] built from
    the values the callback read. *)
Lemma classify_queued_new g fv mv out now conn :
  ctx_wf g ->
  queued_by g (snd (NetGuardClassifyFn g fv mv out now)) = [conn] ->
  conn = new_connection g (classify_processId mv) (classify_processPath mv)
           (IP_REMOTE_ADDRESS fv) (IP_REMOTE_PORT fv) now /\
  (PendingCount g < MAX_PENDING_CONNECTIONS)%nat.
Proof.
  intros Hwf Hq. pose proof Hwf as (HlenP & HcntP & _).
  destruct (classify_bypass_or_reach g mv) as [Hby | Hgo].
  - destruct (classify_bypass_frame g fv mv out now HcntP Hby) as (_ & _ & Hn).
    rewrite queued_by_fewer in Hq by lia. discriminate.
  - destruct (Nat.ltb_spec (PendingCount g) MAX_PENDING_CONNECTIONS) as [Hfree | Hfull].
    + split; [| exact Hfree]. revert Hq. unfold NetGuardClassifyFn.
      destruct Hgo as (-> & -> & -> & ->). cbn [negb orb]. cbv zeta.
      rewrite AddPendingConnection_free by exact Hfree.
      destruct (0 <? _); cbn [snd]; unfold queued_by; cbn;
        rewrite pending_append by lia;
        rewrite drop_app_length' by (rewrite length_pending; auto);
        intros [= <-]; reflexivity.
    + assert (Hby : classify_bypasses_queue g mv)
        by (unfold classify_bypasses_queue; lia).
      destruct (classify_bypass_frame g fv mv out now HcntP Hby) as (_ & _ & Hn).
      rewrite queued_by_fewer in Hq by lia. discriminate.
Qed.

(** X8: the entry a classification queues records what the callback read:
    the process id, the remote address and port, the time, and as its path
    the very string the Registry lookup was made with, that is the caller's
    path cut to 511 units.  Although [wcsncpy] writes no terminator when the
    string fills its 511 units, the recorded path is always terminated inside
    its 512-unit field, because the last unit of every slot stays zero in
    every context reached from [DriverEntry]. *)
Theorem queued_entry_records_the_classified_path cs fv mv out now conn :
  let g := run DriverEntry_Context cs in
  queued_by g (snd (NetGuardClassifyFn g fv mv out now)) = [conn] ->
  wcs (processPath conn) = wcs (classify_processPath mv) /\
  length (processPath conn) = MAX_PATH_LENGTH /\
  (length (wcs (processPath conn)) < MAX_PATH_LENGTH)%nat /\
  processId conn = classify_processId mv /\
  remoteIp conn = IP_REMOTE_ADDRESS fv /\
  remotePort conn = IP_REMOTE_PORT fv /\
  timestamp conn = now /\
  paths_terminated (snd (NetGuardClassifyFn g fv mv out now)).
Proof.
  intros g Hq.
  pose proof (run_wf DriverEntry_Context cs DriverEntry_Context_wf) as Hwf.
  pose proof (run_paths_terminated DriverEntry_Context cs DriverEntry_Context_wf
                DriverEntry_Context_paths_terminated) as Hinv.
  fold g in Hwf, Hinv. pose proof Hwf as (HlenP & HcntP & _).
  destruct (classify_queued_new g fv mv out now conn Hwf Hq) as [-> Hfree].
  destruct (lookup_lt_is_Some_2 (PendingConnections g) (PendingCount g)) as [old Hold];
    [lia |].
  pose proof Hinv as Hinv'. unfold paths_terminated in Hinv'.
  rewrite Forall_forall in Hinv'.
  destruct (Hinv' old (list_elem_of_lookup_2 _ _ _ Hold)) as [Hlen Hlast].
  destruct (classify_processPath_terminated mv) as [_ Hterm].
  destruct (wcs_wcsncpy (processPath old) (classify_processPath mv) Hlen Hlast
              (wcs_length_le _ _ Hterm)) as (H1 & H2 & H3).
  unfold new_connection.
  cbn [processPath processId remoteIp remotePort timestamp].
  rewrite Hold. cbn [from_option]. unfold id.
  split; [exact H1 |]. split; [exact H2 |]. split.
  { rewrite H1. pose proof (wcs_length_le _ _ Hterm) as Hle.
    unfold MAX_PATH_LENGTH in *. lia. }
  repeat split.
  apply (step_paths_terminated g (Classify fv mv out now)); assumption.
Qed.

Lemma queued_entry_records_the_classified_path_witness :
  let g := run DriverEntry_Context three_pending_calls in
  let long := replicate 600 120 in
  let mv := meta_of 100 long in
  let r := NetGuardClassifyFn g (mkIncoming 1 2) mv (mkClassifyOut FWP_ACTION_PERMIT 1) 9 in
  exists conn,
    queued_by g (snd r) = [conn] /\
    wcs (processPath conn) = replicate 511 120 /\
    length (processPath conn) = MAX_PATH_LENGTH.
Proof.
  intros g long mv r.
  destruct (queued_by g (snd r)) as [| conn [| ? ?]] eqn:Hq;
    [vm_compute in Hq; discriminate | | vm_compute in Hq; discriminate].
  exists conn. split; [reflexivity |].
  destruct (queued_entry_records_the_classified_path three_pending_calls
              (mkIncoming 1 2) mv (mkClassifyOut FWP_ACTION_PERMIT 1) 9 conn Hq)
    as (Hw & Hl & _).
  split; [| exact Hl]. rewrite Hw. vm_compute. reflexivity.
Defined.

(** * When a connection is blocked *)

Lemma block_action_rights out :
  Z.testbit (rights (block_action out)) 0 = false /\
  forall i, 0 < i -> Z.testbit (rights (block_action out)) i = Z.testbit (rights out) i.
Proof.
  unfold block_action, FWPS_RIGHT_ACTION_WRITE. cbn [rights]. split.
  - rewrite Z.land_spec, Z.lnot_spec by lia. cbn. apply andb_false_r.
  - intros i Hi. rewrite Z.land_spec, Z.lnot_spec by lia.
    replace (Z.testbit 1 i) with false; [apply andb_true_r |].
    symmetry. apply (Z.pow2_bits_false 0 i). lia.
Qed.

(** X9: the decision table of [NetGuardClassifyFn].  The verdict is BLOCK
    exactly when enforcement is enabled, the process id is neither 0 nor 4,
    and either the Registry lookup finds an entry with a non-zero flag, or it
    finds none and [AddPendingConnection] has a free slot and returns a
    non-zero id.  In every other case it is PERMIT and [classifyOut] keeps
    its rights.  A BLOCK clears FWPS_RIGHT_ACTION_WRITE, and only that bit,
    in the rights. *)
Theorem verdict_decision_table g fv mv out now :
  let o := fst (NetGuardClassifyFn g fv mv out now) in
  let pid := classify_processId mv in
  let path := classify_processPath mv in
  (actionType o = FWP_ACTION_BLOCK <->
     Enabled g = true /\ pid <> 0 /\ pid <> 4 /\
     ((exists b, IsAppInList g path = Some b /\ b <> 0) \/
      (IsAppInList g path = None /\
       (PendingCount g < MAX_PENDING_CONNECTIONS)%nat /\
       0 < wrap64 (TotalConnections g + 1)))) /\
  (actionType o = FWP_ACTION_PERMIT -> o = permit_action out) /\
  (actionType o = FWP_ACTION_BLOCK ->
     o = block_action (permit_action out) /\
     Z.testbit (rights o) 0 = false /\
     forall i, 0 < i -> Z.testbit (rights o) i = Z.testbit (rights out) i).
Proof.
  intros o pid path.
  assert (Hblock : forall P : Prop, P ->
            (FWP_ACTION_BLOCK = FWP_ACTION_BLOCK <-> P)) by (intros; tauto).
  assert (Hpermit : forall P : Prop, ~ P ->
            (FWP_ACTION_PERMIT = FWP_ACTION_BLOCK <-> P))
    by (intros P HP; split; [discriminate | intros; contradiction]).
  assert (Hshape : o = permit_action out \/ o = block_action (permit_action out)).
  { subst o. unfold NetGuardClassifyFn.
    destruct (Enabled g); cbn [negb]; [| auto]. cbv zeta.
    destruct (_ || _); [auto |].
    destruct (IsAppInList g _); [destruct (negb _); auto |].
    destruct (AddPendingConnection g _ _ _ _ now) as [id g'].
    destruct (0 <? id); auto. }
  split; [| split].
  - subst o pid path. unfold NetGuardClassifyFn.
    destruct (Enabled g); cbn [negb fst actionType];
      [| apply Hpermit; intros (H & _); discriminate].
    cbv zeta.
    destruct (Z.eqb_spec (classify_processId mv) 0) as [H0 | H0]; cbn [orb fst actionType];
      [apply Hpermit; tauto |].
    destruct (Z.eqb_spec (classify_processId mv) 4) as [H4 | H4]; cbn [fst actionType];
      [apply Hpermit; tauto |].
    destruct (IsAppInList g _) as [b |].
    + destruct (Z.eqb_spec b 0) as [Hb | Hb]; cbn [negb fst actionType block_action].
      * apply Hpermit. intros (_ & _ & _ & [(b' & [= <-] & Hb') | (Hn & _)]);
          [contradiction | discriminate].
      * apply Hblock. repeat split; auto. left. exists b. auto.
    + destruct (Nat.ltb_spec (PendingCount g) MAX_PENDING_CONNECTIONS) as [Hfree | Hfull].
      * rewrite AddPendingConnection_free by exact Hfree.
        destruct (Z.ltb_spec 0 (wrap64 (TotalConnections g + 1)));
          cbn [fst actionType block_action].
        -- apply Hblock. repeat split; auto.
        -- apply Hpermit. intros (_ & _ & _ & [(b' & Hs & _) | (_ & _ & Hpos)]);
             [discriminate | lia].
      * rewrite AddPendingConnection_full by lia. cbn [fst actionType].
        apply Hpermit. intros (_ & _ & _ & [(b' & Hs & _) | (_ & Hlt & _)]);
          [discriminate | lia].
  - intros Hp. destruct Hshape as [-> | Hs]; [reflexivity |].
    rewrite Hs in Hp. discriminate.
  - intros Hb. destruct Hshape as [Hs | ->]; [rewrite Hs in Hb; discriminate |].
    split; [reflexivity |].
    destruct (block_action_rights (permit_action out)) as [H1 H2].
    split; [exact H1 | exact H2].
Qed.

(** * Loading and unloading *)

Lemma account_all_app r t1 t2 :
  account_all r (t1 ++ t2) =
  match account_all r t1 with
  | Some r' => account_all r' t2
  | None => None
  end.
Proof.
  revert r. induction t1 as [|c t1 IH]; intros r; cbn; [reflexivity|].
  destruct (account r c); [apply IH | reflexivity].
Qed.

Lemma NT_SUCCESS_ALREADY_EXISTS : NT_SUCCESS STATUS_FWP_ALREADY_EXISTS = false.
Proof. reflexivity. Qed.

Lemma RegisterWfpCallout_account sys h r :
  held_device r = Some (DeviceObject h) ->
  held_engine r = None -> held_callout r = None -> held_filter r = None ->
  let '(status, h', t) := RegisterWfpCallout sys h in
  NT_SUCCESS status = registration_passes sys /\
  (status = status_code STATUS_SUCCESS \/
   NT_SUCCESS status = false /\
   In status [fst (FwpmEngineOpen0_answer sys); FwpmSubLayerAdd0_answer sys;
              fst (FwpsCalloutRegister1_answer sys); FwpmCalloutAdd0_answer sys;
              fst (FwpmFilterAdd0_answer sys)]) /\
  DeviceObject h' = DeviceObject h /\
  account_all r t =
    Some (if registration_passes sys then
            mkResources (held_device r) (held_symlink r)
                        (Some (EngineHandle h')) (Some (CalloutId h'))
                        (Some (snd (FwpmFilterAdd0_answer sys)))
          else r).
Proof.
  intros Hd He Hc Hf.
  destruct sys as [dev sym [s1 eng] s2 [s3 cid] s4 [s5 fid]].
  destruct r as [rd rs re rc rf]. cbn in Hd, He, Hc, Hf. subst.
  unfold RegisterWfpCallout, registration_passes. cbn.
  destruct (NT_SUCCESS s1) eqn:E1; cbn; [|auto].
  all: destruct (NT_SUCCESS s2) eqn:E2; cbn;
    [|destruct (s2 =? STATUS_FWP_ALREADY_EXISTS) eqn:E2'; cbn].
  all: try (destruct (NT_SUCCESS s3) eqn:E3; cbn).
  all: try (destruct (NT_SUCCESS s4) eqn:E4; cbn;
    [|destruct (s4 =? STATUS_FWP_ALREADY_EXISTS) eqn:E4'; cbn]).
  all: try (destruct (NT_SUCCESS s5) eqn:E5; cbn).
  all: rewrite ?E1, ?E2, ?E3, ?E4, ?E5; cbn.
  all: repeat (rewrite bool_decide_eq_true_2 by reflexivity; cbn).
  all: repeat split; auto; right; (split; [reflexivity|]); cbn; auto 10.
Qed.

(** X10: [RegisterWfpCallout] is all or nothing.  It succeeds exactly when
    every one of its five calls went through, where an ALREADY_EXISTS answer
    to adding the sublayer or the callout counts as going through; it then
    returns STATUS_SUCCESS and holds the engine session, the registered
    callout and the filter.  Otherwise it returns the failing status of one
    of its calls and has released all it acquired: what is held is what was
    held before the call, and no call used or released something not held. *)
Theorem registration_is_all_or_nothing sys h r :
  held_device r = Some (DeviceObject h) ->
  held_engine r = None -> held_callout r = None -> held_filter r = None ->
  let status := fst (fst (RegisterWfpCallout sys h)) in
  let h' := snd (fst (RegisterWfpCallout sys h)) in
  let t := snd (RegisterWfpCallout sys h) in
  (NT_SUCCESS status = true <-> registration_passes sys = true) /\
  (NT_SUCCESS status = true ->
     status = status_code STATUS_SUCCESS /\
     account_all r t =
       Some (mkResources (held_device r) (held_symlink r)
                         (Some (EngineHandle h')) (Some (CalloutId h'))
                         (Some (snd (FwpmFilterAdd0_answer sys))))) /\
  (NT_SUCCESS status = false ->
     In status [fst (FwpmEngineOpen0_answer sys); FwpmSubLayerAdd0_answer sys;
                fst (FwpsCalloutRegister1_answer sys); FwpmCalloutAdd0_answer sys;
                fst (FwpmFilterAdd0_answer sys)] /\
     account_all r t = Some r).
Proof.
  intros Hd He Hc Hf.
  pose proof (RegisterWfpCallout_account sys h r Hd He Hc Hf) as H.
  destruct (RegisterWfpCallout sys h) as [[status h'] t]. cbn.
  destruct H as (Hs & Hcode & _ & Hacc).
  split; [rewrite Hs; tauto|]. split.
  - intros Hok. rewrite <- Hs, Hok in Hacc. split; [|exact Hacc].
    destruct Hcode as [->|[Hno _]]; [reflexivity | congruence].
  - intros Hno. rewrite <- Hs, Hno in Hacc. split; [|exact Hacc].
    destruct Hcode as [->|[_ Hin]]; [discriminate Hno | exact Hin].
Qed.

Lemma registration_is_all_or_nothing_witness :
  let sys := failing_callout_add in
  let h := mkHandles 100 0 0 0 in
  let r := mkResources (Some 100) true None None None in
  fst (fst (RegisterWfpCallout sys h)) = -5 /\
  account_all r (snd (RegisterWfpCallout sys h)) = Some r.
Proof.
  intros sys h r.
  pose proof (registration_is_all_or_nothing sys h r eq_refl eq_refl eq_refl eq_refl)
    as (_ & _ & Hno).
  split; [reflexivity|]. exact (proj2 (Hno eq_refl)).
Defined.

Lemma DriverEntry_account sys :
  let e := DriverEntry sys in
  NT_SUCCESS (entry_status e) = loading_passes sys /\
  (entry_status e = status_code STATUS_SUCCESS \/
   NT_SUCCESS (entry_status e) = false) /\
  DeviceObject (entry_handles e) = snd (IoCreateDevice_answer sys) /\
  account_all no_resources (entry_calls e) =
    Some (if loading_passes sys then
            mkResources (Some (DeviceObject (entry_handles e))) true
                        (Some (EngineHandle (entry_handles e)))
                        (Some (CalloutId (entry_handles e)))
                        (Some (snd (FwpmFilterAdd0_answer sys)))
          else no_resources) /\
  (loading_passes sys = true -> entry_dispatch e = true).
Proof.
  unfold DriverEntry, loading_passes.
  destruct (IoCreateDevice_answer sys) as [s1 dev] eqn:Hdev. cbn.
  destruct (NT_SUCCESS s1) eqn:E1; cbn; [|rewrite ?E1; cbn; auto 10].
  destruct (NT_SUCCESS (IoCreateSymbolicLink_answer sys)) eqn:E2; cbn.
  2:{ rewrite ?E1; cbn. rewrite ?E2; cbn.
      rewrite bool_decide_eq_true_2 by reflexivity. cbn. auto 10. }
  pose proof (RegisterWfpCallout_account sys (mkHandles dev 0 0 0)
                (mkResources (Some dev) true None None None)
                eq_refl eq_refl eq_refl eq_refl) as H.
  destruct (RegisterWfpCallout sys (mkHandles dev 0 0 0)) as [[s3 h'] t'].
  destruct H as (Hs & Hcode & Hd & Hacc). cbn in Hd.
  rewrite <- Hs in *.
  destruct (NT_SUCCESS s3) eqn:E3; cbn.
  - rewrite ?E1; cbn. rewrite ?E2; cbn. rewrite Hacc, Hd. auto 10.
  - rewrite ?E3, ?E1; cbn. rewrite ?E2; cbn.
    rewrite account_all_app, Hacc. cbn.
    rewrite Hd. rewrite bool_decide_eq_true_2 by reflexivity.
    split; [reflexivity|]. split; [auto|]. split; [reflexivity|].
    split; [reflexivity | discriminate].
Qed.

(** X11: [DriverEntry] is all or nothing.  It succeeds exactly when creating
    the device, creating the symbolic link and the registration all went
    through; it then returns STATUS_SUCCESS with the dispatch routines
    installed and holds the device, the link, the engine session, the callout
    and the filter.  On every failure it returns a failing status and holds
    nothing: each thing it had acquired was released, and nothing was
    released that was not held. *)
Theorem loading_is_all_or_nothing sys :
  let e := DriverEntry sys in
  (NT_SUCCESS (entry_status e) = true <-> loading_passes sys = true) /\
  (NT_SUCCESS (entry_status e) = true ->
     entry_status e = status_code STATUS_SUCCESS /\
     entry_dispatch e = true /\
     account_all no_resources (entry_calls e) =
       Some (mkResources (Some (DeviceObject (entry_handles e))) true
                         (Some (EngineHandle (entry_handles e)))
                         (Some (CalloutId (entry_handles e)))
                         (Some (snd (FwpmFilterAdd0_answer sys))))) /\
  (NT_SUCCESS (entry_status e) = false ->
     account_all no_resources (entry_calls e) = Some no_resources).
Proof.
  intros e. destruct (DriverEntry_account sys) as (Hs & Hcode & _ & Hacc & Hdisp).
  fold e in Hs, Hcode, Hacc, Hdisp.
  split; [rewrite Hs; tauto|]. split.
  - intros Hok. rewrite <- Hs, Hok in Hacc. rewrite <- Hs in Hdisp.
    split; [|split; [auto | exact Hacc]].
    destruct Hcode as [->|Hno]; [reflexivity | congruence].
  - intros Hno. rewrite <- Hs, Hno in Hacc. exact Hacc.
Qed.

Lemma UnregisterWfpCallout_calls h :
  EngineHandle h <> 0 -> CalloutId h <> 0 -> FilterId h <> 0 ->
  snd (UnregisterWfpCallout h) =
    [FwpmFilterDeleteById0 (EngineHandle h) (FilterId h);
     FwpsCalloutUnregisterById0 (CalloutId h);
     FwpmEngineClose0 (EngineHandle h)].
Proof.
  intros He Hc Hf. unfold UnregisterWfpCallout. cbn.
  destruct (Z.eqb_spec (FilterId h) 0); [contradiction|].
  destruct (Z.eqb_spec (CalloutId h) 0); [contradiction|].
  destruct (Z.eqb_spec (EngineHandle h) 0); [contradiction|]. reflexivity.
Qed.

Lemma DriverEntry_handles sys :
  registration_passes sys = true ->
  NT_SUCCESS (fst (IoCreateDevice_answer sys)) = true ->
  NT_SUCCESS (IoCreateSymbolicLink_answer sys) = true ->
  entry_handles (DriverEntry sys) =
    mkHandles (snd (IoCreateDevice_answer sys)) (snd (FwpmEngineOpen0_answer sys))
              (snd (FwpsCalloutRegister1_answer sys))
              (wrap32 (snd (FwpmFilterAdd0_answer sys))).
Proof.
  unfold registration_passes, DriverEntry, RegisterWfpCallout.
  destruct sys as [[s1 dev] s2 [s3 eng] s4 [s5 cid] s6 [s7 fid]]. cbn.
  intros Hp E1 E2. rewrite E1, E2. cbn.
  repeat (apply andb_prop in Hp; destruct Hp as [Hp ?]).
  rewrite Hp. cbn.
  match goal with H : (NT_SUCCESS s4 || _) = true |- _ =>
    rewrite <- negb_orb, H end. cbn.
  match goal with H : NT_SUCCESS s5 = true |- _ => rewrite H end. cbn.
  match goal with H : (NT_SUCCESS s6 || _) = true |- _ =>
    rewrite <- negb_orb, H end. cbn.
  match goal with H : NT_SUCCESS s7 = true |- _ => rewrite H end. cbn.
  reflexivity.
Qed.

(** X12: loading followed by unloading leaves nothing behind.  After a
    successful [DriverEntry] that was given a device object, an engine handle
    and a callout id other than 0 and a filter id between 1 and 2^32 - 1,
    [DriverUnload] deletes the filter, unregisters the callout, closes the
    engine, deletes the symbolic link and deletes the device, in that order;
    over the calls of both nothing stays held and nothing is released twice.
    It switches enforcement off and leaves the queue, the registry and the
    counters as they are. *)
Theorem load_then_unload_releases_everything sys g :
  loading_passes sys = true ->
  snd (IoCreateDevice_answer sys) <> 0 ->
  snd (FwpmEngineOpen0_answer sys) <> 0 ->
  snd (FwpsCalloutRegister1_answer sys) <> 0 ->
  0 < snd (FwpmFilterAdd0_answer sys) < 2 ^ 32 ->
  let e := DriverEntry sys in
  let g' := fst (DriverUnload g (entry_handles e)) in
  let t := snd (DriverUnload g (entry_handles e)) in
  t = [FwpmFilterDeleteById0 (snd (FwpmEngineOpen0_answer sys))
                             (snd (FwpmFilterAdd0_answer sys));
       FwpsCalloutUnregisterById0 (snd (FwpsCalloutRegister1_answer sys));
       FwpmEngineClose0 (snd (FwpmEngineOpen0_answer sys));
       IoDeleteSymbolicLink;
       IoDeleteDevice (snd (IoCreateDevice_answer sys))] /\
  account_all no_resources (entry_calls e ++ t) = Some no_resources /\
  g' = set_Enabled false g.
Proof.
  intros Hpass Hdev Heng Hcid Hfid e g' t.
  destruct (DriverEntry_account sys) as (_ & _ & _ & Hacc & _).
  fold e in Hacc. rewrite Hpass in Hacc.
  pose proof Hpass as Hp. unfold loading_passes in Hp.
  apply andb_prop in Hp. destruct Hp as [Hp Hreg].
  apply andb_prop in Hp. destruct Hp as [E1 E2].
  pose proof (DriverEntry_handles sys Hreg E1 E2) as Hh. fold e in Hh.
  assert (Hw : wrap32 (snd (FwpmFilterAdd0_answer sys))
               = snd (FwpmFilterAdd0_answer sys)).
  { unfold wrap32. apply Z.mod_small. lia. }
  rewrite Hw in Hh.
  assert (Ht : t = [FwpmFilterDeleteById0 (snd (FwpmEngineOpen0_answer sys))
                             (snd (FwpmFilterAdd0_answer sys));
       FwpsCalloutUnregisterById0 (snd (FwpsCalloutRegister1_answer sys));
       FwpmEngineClose0 (snd (FwpmEngineOpen0_answer sys));
       IoDeleteSymbolicLink;
       IoDeleteDevice (snd (IoCreateDevice_answer sys))]).
  { unfold t, DriverUnload. rewrite Hh. cbn [snd DeviceObject].
    rewrite UnregisterWfpCallout_calls by (cbn; lia). cbn.
    destruct (Z.eqb_spec (snd (IoCreateDevice_answer sys)) 0); [contradiction|].
    reflexivity. }
  split; [exact Ht|]. split; [|reflexivity].
  rewrite account_all_app, Hacc, Ht, Hh. cbn.
  repeat (rewrite bool_decide_eq_true_2 by reflexivity; cbn). reflexivity.
Qed.

Lemma load_then_unload_releases_everything_witness :
  let e := DriverEntry passing_answers in
  account_all no_resources
    (entry_calls e ++ snd (DriverUnload saturated_Context (entry_handles e)))
  = Some no_resources.
Proof.
  intros e.
  assert (H1 : (100 : Z) <> 0) by lia.
  assert (H2 : (200 : Z) <> 0) by lia.
  assert (H3 : (7 : Z) <> 0) by lia.
  assert (H4 : 0 < 9 < 2 ^ 32) by lia.
  exact (proj1 (proj2 (load_then_unload_releases_everything
                         passing_answers saturated_Context eq_refl H1 H2 H3 H4))).
Defined.
